(** * EMACS: message records, command negotiation and alarm triage

    A shallow embedding of the two Arduino sketches of the Environmental
    Monitoring and Control System: the TX sensor node
    (emacs_full_sensor_node_01.ino) and the RX Master
    (emacs_RX_Master_03.ino).

    Conventions of the embedding:
    - a C [int] is a [Z]; the modelled functions only copy and compare
      integers (the one sum, [co2_val + sensorOffset] on the Master, adds a
      constant zero), so no wrap-around arises;
    - the four [enum] types are inductive types, with their numeric values
      given by [cmd_val], [PA_val], [Alarm_val] and [Dng_val];
    - the process-wide globals of each sketch are the fields of a [state]
      record, and every [void f()] of the sketch is a function
      [state -> state];
    - the calls made on the RF24 driver are appended to a log of
      [radio_op]s, and the alarm lines printed on the serial console by the
      triage routines are appended to a log of candidate pairs;
    - [delay] and the other diagnostic prints are left out. *)

From Stdlib Require Import ZArith List Bool Lia Ascii String.
Import ListNotations.
Local Open Scope Z_scope.

(** ** Custom data types (identical in both sketches) *)

Module Data.

Inductive cmd_type : Set :=
| nada | chan_chg | rad_chg | pa_chg | all_chg | tar_chg | response.

Inductive PA_type : Set :=
| PA_MIN | PA_LOW | PA_HIGH | PA_MAX.

Inductive Alarm_type : Set :=
| ALM_NONE | HUM_LOW | HUM_HIGH | TEMP_LOW | CO2_LOW | TEMP_HIGH
| CO2_HIGH | CO2_GOOD | LOUDNOISE | INTRUDER | CO2_DNG | TEMP_FIRE.

Inductive Dng_level : Set :=
| DNG_NONE | DNG_LOW | DNG_MED | DNG_HIGH | DNG_MAX.

Definition cmd_val (c : cmd_type) : Z :=
  match c with
  | nada => 0 | chan_chg => 1 | rad_chg => 2 | pa_chg => 3
  | all_chg => 4 | tar_chg => 5 | response => 6
  end.

Definition PA_val (p : PA_type) : Z :=
  match p with PA_MIN => 0 | PA_LOW => 1 | PA_HIGH => 2 | PA_MAX => 3 end.

Definition Alarm_val (a : Alarm_type) : Z :=
  match a with
  | ALM_NONE => 0 | HUM_LOW => 1 | HUM_HIGH => 2 | TEMP_LOW => 3
  | CO2_LOW => 4 | TEMP_HIGH => 5 | CO2_HIGH => 6 | CO2_GOOD => 7
  | LOUDNOISE => 8 | INTRUDER => 9 | CO2_DNG => 10 | TEMP_FIRE => 11
  end.

Definition Dng_val (d : Dng_level) : Z :=
  match d with
  | DNG_NONE => 0 | DNG_LOW => 1 | DNG_MED => 2 | DNG_HIGH => 3 | DNG_MAX => 4
  end.

Record pingCmd : Set := mkPing {
  my_cmd  : cmd_type;
  ch_cmd  : Z;
  r_cmd   : Z;
  pa_cmd  : PA_type;
  tar_cmd : Z;
  alm_cmd : Alarm_type;
  dng_cmd : Dng_level
}.

Record dataStruct : Set := mkData {
  chNum      : Z;
  radNum     : Z;
  co2_val    : Z;
  h_val      : Z;
  c_val      : Z;
  f_val      : Z;
  pir_state  : Z;
  audio_gate : Z;
  ping       : pingCmd
}.

(** [= {0}]: every member zero. *)
Definition zero_ping : pingCmd := mkPing nada 0 0 PA_MIN 0 ALM_NONE DNG_NONE.
Definition zero_data : dataStruct := mkData 0 0 0 0 0 0 0 0 zero_ping.

Definition set_tar_cmd (v : Z) (p : pingCmd) : pingCmd :=
  mkPing (my_cmd p) (ch_cmd p) (r_cmd p) (pa_cmd p) v (alm_cmd p) (dng_cmd p).

Definition set_alm_dng (a : Alarm_type) (d : Dng_level) (p : pingCmd) : pingCmd :=
  mkPing (my_cmd p) (ch_cmd p) (r_cmd p) (pa_cmd p) (tar_cmd p) a d.

Definition set_ping (p : pingCmd) (m : dataStruct) : dataStruct :=
  mkData (chNum m) (radNum m) (co2_val m) (h_val m) (c_val m) (f_val m)
         (pir_state m) (audio_gate m) p.

Definition set_pir_state (v : Z) (m : dataStruct) : dataStruct :=
  mkData (chNum m) (radNum m) (co2_val m) (h_val m) (c_val m) (f_val m)
         v (audio_gate m) (ping m).

Definition set_audio_gate (v : Z) (m : dataStruct) : dataStruct :=
  mkData (chNum m) (radNum m) (co2_val m) (h_val m) (c_val m) (f_val m)
         (pir_state m) v (ping m).

(** [byte addresses[][6]]: one receive address and five transmit ones. *)
Definition addresses : list string :=
  ["1Node"; "2Node"; "3Node"; "4Node"; "5Node"; "6Node"]%string.

(** [addresses[i]]; [None] stands for an index outside the table, where the
    C expression has no defined value. *)
Definition address (i : Z) : option string :=
  if i <? 0 then None else nth_error addresses (Z.to_nat i).

(** Calls on the RF24 driver object [radio], as the sketches make them:
    every call either sketch makes is one of these, and every one is
    logged where it is made. *)
Inductive radio_op : Set :=
| r_begin
| r_setDataRate_250KBPS
| r_setChannel (mychannel : Z)
| r_setPALevel (p : PA_type)
| r_openWritingPipe (a : option string)
| r_openReadingPipe (n : Z) (a : option string)
| r_startListening
| r_stopListening
| r_write_data (m : dataStruct)
| r_write_ping (p : pingCmd)
| r_available
| r_read
| r_isChipConnected
| r_getChannel
| r_printDetails.

End Data.
Import Data.

(** ** The triage blocks

    Both triage routines are a sequence of blocks of one shape:
<<
    if (cond) {
      almNum = A;  dngNum = D;
      if (almNum >= alm_temp) alm_temp = almNum;
      if (dngNum >= dng_temp) dng_temp = dngNum;
      Serial.println("Alarm: " ...);
    }
>>
    [tri] holds the two locals, the two globals the block assigns and the
    alarm lines printed so far. *)

Module Triage.

Record tri : Set := mkTri {
  alm_temp : Alarm_type;
  dng_temp : Dng_level;
  alm_glob : Alarm_type;
  dng_glob : Dng_level;
  lines    : list (Alarm_type * Dng_level)
}.

Definition raise (a : Alarm_type) (d : Dng_level) (t : tri) : tri :=
  mkTri (if Alarm_val a >=? Alarm_val (alm_temp t) then a else alm_temp t)
        (if Dng_val d >=? Dng_val (dng_temp t) then d else dng_temp t)
        a d
        (lines t ++ [(a, d)]).

Definition block (cond : bool) (a : Alarm_type) (d : Dng_level) (t : tri) : tri :=
  if cond then raise a d t else t.

(** [Alarm_type alm_temp = 0; Dng_level dng_temp = 0;] with the globals as
    the caller left them. *)
Definition start (a : Alarm_type) (d : Dng_level) : tri :=
  mkTri ALM_NONE DNG_NONE a d [].

(** A threshold table: a condition already evaluated on a record, and the
    candidate pair its block raises. *)
Definition rule : Set := (bool * (Alarm_type * Dng_level))%type.

Definition run (rs : list rule) (t : tri) : tri :=
  fold_left (fun t r => block (fst r) (fst (snd r)) (snd (snd r)) t) rs t.

Definition firing (rs : list rule) : list (Alarm_type * Dng_level) :=
  map snd (filter fst rs).

(** The comparison of one block, on either enum. *)
Definition keep_ge {A : Type} (val : A -> Z) (acc x : A) : A :=
  if val x >=? val acc then x else acc.

End Triage.
Import Triage.

(** ** The TX sensor node (emacs_full_sensor_node_01.ino) *)

Module TX.

(** The globals of the sketch.  [hNum], [tNum] and [fNum] are declared
    [float] but only ever hold their integer initialisers 40, 25 and 72 (the
    sensor reads are commented out); they are carried as the integer that
    [pack_sent_msg] stores in the [int] members of the message. *)
Record state : Type := mkState {
  (* flags *)
  intruderFlag : bool;
  audioFlag    : bool;
  respFlag     : bool;
  (* environmental variables *)
  co2Num  : Z;
  pirNum  : Z;
  gateNum : Z;
  hNum    : Z;
  tNum    : Z;
  fNum    : Z;
  (* security variables *)
  myNum  : cmd_type;
  radNum : Z;
  chNum  : Z;
  pwrNum : PA_type;
  tarNum : Z;
  almNum : Alarm_type;
  dngNum : Dng_level;
  (* "these belong in the PongMessage struct" *)
  myCmd  : cmd_type;
  radCmd : Z;
  chCmd  : Z;
  paCmd  : PA_type;
  tarCmd : Z;
  almCmd : Alarm_type;
  dngCmd : Dng_level;
  (* messages *)
  SentMessage : dataStruct;
  PongMessage : pingCmd;
  (* the world: calls made on the radio, alarm lines printed *)
  radio  : list radio_op;
  serial : list (Alarm_type * Dng_level)
}.

(** The globals as the C++ runtime initialises them. *)
Definition power_on : state :=
  mkState false false false
          450 0 0 40 25 72
          nada 0 0 PA_MIN 0 ALM_NONE DNG_NONE
          nada 0 0 PA_MIN 0 ALM_NONE DNG_NONE
          zero_data zero_ping [] [].

Definition set_identity (rn ch : Z) (pw : PA_type) (s : state) : state :=
  mkState (intruderFlag s) (audioFlag s) (respFlag s)
          (co2Num s) (pirNum s) (gateNum s) (hNum s) (tNum s) (fNum s)
          (myNum s) rn ch pw (tarNum s) (almNum s) (dngNum s)
          (myCmd s) (radCmd s) (chCmd s) (paCmd s) (tarCmd s) (almCmd s) (dngCmd s)
          (SentMessage s) (PongMessage s) (radio s) (serial s).

Definition set_radNum (v : Z) (s : state) : state := set_identity v (chNum s) (pwrNum s) s.
Definition set_chNum (v : Z) (s : state) : state := set_identity (radNum s) v (pwrNum s) s.
Definition set_pwrNum (v : PA_type) (s : state) : state := set_identity (radNum s) (chNum s) v s.

Definition set_SentMessage (m : dataStruct) (s : state) : state :=
  mkState (intruderFlag s) (audioFlag s) (respFlag s)
          (co2Num s) (pirNum s) (gateNum s) (hNum s) (tNum s) (fNum s)
          (myNum s) (radNum s) (chNum s) (pwrNum s) (tarNum s) (almNum s) (dngNum s)
          (myCmd s) (radCmd s) (chCmd s) (paCmd s) (tarCmd s) (almCmd s) (dngCmd s)
          m (PongMessage s) (radio s) (serial s).

Definition set_PongMessage (p : pingCmd) (s : state) : state :=
  mkState (intruderFlag s) (audioFlag s) (respFlag s)
          (co2Num s) (pirNum s) (gateNum s) (hNum s) (tNum s) (fNum s)
          (myNum s) (radNum s) (chNum s) (pwrNum s) (tarNum s) (almNum s) (dngNum s)
          (myCmd s) (radCmd s) (chCmd s) (paCmd s) (tarCmd s) (almCmd s) (dngCmd s)
          (SentMessage s) p (radio s) (serial s).

Definition set_flags (i a r : bool) (s : state) : state :=
  mkState i a r
          (co2Num s) (pirNum s) (gateNum s) (hNum s) (tNum s) (fNum s)
          (myNum s) (radNum s) (chNum s) (pwrNum s) (tarNum s) (almNum s) (dngNum s)
          (myCmd s) (radCmd s) (chCmd s) (paCmd s) (tarCmd s) (almCmd s) (dngCmd s)
          (SentMessage s) (PongMessage s) (radio s) (serial s).

Definition set_pir_gate (p g : Z) (s : state) : state :=
  mkState (intruderFlag s) (audioFlag s) (respFlag s)
          (co2Num s) p g (hNum s) (tNum s) (fNum s)
          (myNum s) (radNum s) (chNum s) (pwrNum s) (tarNum s) (almNum s) (dngNum s)
          (myCmd s) (radCmd s) (chCmd s) (paCmd s) (tarCmd s) (almCmd s) (dngCmd s)
          (SentMessage s) (PongMessage s) (radio s) (serial s).

(** [radio.f(...)]: one more call in the log. *)
Definition call (ops : list radio_op) (s : state) : state :=
  mkState (intruderFlag s) (audioFlag s) (respFlag s)
          (co2Num s) (pirNum s) (gateNum s) (hNum s) (tNum s) (fNum s)
          (myNum s) (radNum s) (chNum s) (pwrNum s) (tarNum s) (almNum s) (dngNum s)
          (myCmd s) (radCmd s) (chCmd s) (paCmd s) (tarCmd s) (almCmd s) (dngCmd s)
          (SentMessage s) (PongMessage s) (radio s ++ ops) (serial s).

(** [checkRadioConn]: queries the driver and prints; nothing is configured. *)
Definition checkRadioConn (s : state) : state :=
  call [r_isChipConnected; r_getChannel; r_printDetails] s.

(** [setPowerLevel]: the switch over the four power settings. *)
Definition setPowerLevel (pwr : PA_type) (s : state) : state :=
  match pwr with
  | PA_MIN  => call [r_setPALevel PA_MIN] s
  | PA_LOW  => call [r_setPALevel PA_LOW] s
  | PA_HIGH => call [r_setPALevel PA_HIGH] s
  | PA_MAX  => call [r_setPALevel PA_MAX] s
  end.

Definition initRadioValues (rn mychannel : Z) (pat : PA_type) (s : state) : state :=
  set_identity rn mychannel pat s.

(** [setupTXRadio(rn, mychannel, pat)]. *)
Definition setupTXRadio (rn mychannel : Z) (pat : PA_type) (s : state) : state :=
  let rn := if (rn >? 0) && (rn <? 6) then rn else 1 in   (* ERROR CORRECTION *)
  let s := call [r_begin] s in
  let s := call [r_setDataRate_250KBPS] s in
  let s := call [r_setChannel mychannel] s in
  let s := setPowerLevel pat s in
  let s := set_identity rn mychannel pat s in
  let s := call [r_openWritingPipe (address rn)] s in
  let s := call [r_openReadingPipe 1 (address 0)] s in
  let s := call [r_startListening] s in
  checkRadioConn s.

(** [get_pong_cmd]: reloads the security variables from the last message
    this node packed, then unpacks the received ping. *)
Definition get_pong_cmd (s : state) : state :=
  let sp := ping (SentMessage s) in
  let pp := PongMessage s in
  mkState (intruderFlag s) (audioFlag s) (respFlag s)
          (co2Num s) (pirNum s) (gateNum s) (hNum s) (tNum s) (fNum s)
          (my_cmd sp) (r_cmd sp) (ch_cmd sp) (pa_cmd sp) (tar_cmd sp)
          (alm_cmd sp) (dng_cmd sp)
          (my_cmd pp) (r_cmd pp) (ch_cmd pp) (pa_cmd pp) (tar_cmd pp)
          (alm_cmd pp) (dng_cmd pp)
          (SentMessage s) (PongMessage s) (radio s) (serial s).

(** The test of [get_pong_cmd_RX], on the globals as they stand when it is
    evaluated. *)
Definition guard (s : state) : bool :=
  (chCmd s =? chNum s) && (tarCmd s =? radNum s).

(** The [switch (myCmd)] of [get_pong_cmd_RX]; its [default] is not
    reachable on a [cmd_type]. *)
Definition dispatch (s : state) : state :=
  match myCmd s with
  | nada     => checkRadioConn s
  | chan_chg => set_chNum (ch_cmd (PongMessage s)) s
  | rad_chg  => set_radNum (r_cmd (PongMessage s)) s
  | pa_chg   => set_pwrNum (pa_cmd (PongMessage s)) s
  | all_chg  =>
      let s := set_chNum (ch_cmd (PongMessage s)) s in
      let s := set_radNum (r_cmd (PongMessage s)) s in
      set_pwrNum (pa_cmd (PongMessage s)) s
  | tar_chg  =>
      set_SentMessage
        (set_ping (set_tar_cmd (tar_cmd (PongMessage s)) (ping (SentMessage s)))
                  (SentMessage s)) s
  | response =>
      set_SentMessage
        (set_ping (set_tar_cmd (tar_cmd (PongMessage s)) (ping (SentMessage s)))
                  (SentMessage s)) s
  end.

Definition get_pong_cmd_RX (s : state) : state :=
  let s := get_pong_cmd s in
  if guard s then dispatch s else s.

(** [pack_sent_msg]. *)
Definition pack_sent_msg (s : state) : state :=
  set_SentMessage
    (mkData (chNum s) (radNum s) (co2Num s) (hNum s) (tNum s) (fNum s)
            (pirNum s) (gateNum s)
            (mkPing (myNum s) (chNum s) (radNum s) (pwrNum s) (tarNum s)
                    (almNum s) (dngNum s)))
    s.

(** The eleven blocks of [triage_data], in source order, on the copy
    [TempMessage] of the message. *)
Definition triage_scan (TempMessage : dataStruct) (t : tri) : tri :=
  let t := block (h_val TempMessage <? 10) HUM_LOW DNG_NONE t in
  let t := block (h_val TempMessage >=? 85) HUM_HIGH DNG_LOW t in
  let t := block (c_val TempMessage <? 20) TEMP_LOW DNG_LOW t in
  let t := block ((c_val TempMessage >=? 40) && (c_val TempMessage <? 100))
                 TEMP_HIGH DNG_HIGH t in
  let t := block (c_val TempMessage >=? 100) TEMP_FIRE DNG_MAX t in
  let t := block (co2_val TempMessage <=? 0) CO2_LOW DNG_NONE t in
  let t := block ((co2_val TempMessage >=? 400) && (co2_val TempMessage <=? 1600))
                 CO2_GOOD DNG_NONE t in
  let t := block ((co2_val TempMessage >=? 1800) && (co2_val TempMessage <? 3000))
                 CO2_HIGH DNG_HIGH t in
  let t := block (co2_val TempMessage >=? 3000) CO2_DNG DNG_MAX t in
  let t := block (audio_gate TempMessage =? 1) LOUDNOISE DNG_MED t in
  let t := block (pir_state TempMessage =? 1) INTRUDER DNG_HIGH t in
  t.

(** [triage_data]. *)
Definition triage_data (s : state) : state :=
  let TempMessage := SentMessage s in
  let t := triage_scan TempMessage (start (almNum s) (dngNum s)) in
  mkState (intruderFlag s) (audioFlag s) (respFlag s)
          (co2Num s) (pirNum s) (gateNum s) (hNum s) (tNum s) (fNum s)
          (myNum s) (radNum s) (chNum s) (pwrNum s) (tarNum s)
          (alm_temp t) (dng_temp t)
          (myCmd s) (radCmd s) (chCmd s) (paCmd s) (tarCmd s) (almCmd s) (dngCmd s)
          (set_ping (set_alm_dng (alm_temp t) (dng_temp t) (ping (SentMessage s)))
                    (SentMessage s))
          (PongMessage s) (radio s) (serial s ++ lines t).

(** The send sequence shared by the three transmit routines. *)
Definition send_SentMessage (s : state) : state :=
  let s := call [r_stopListening] s in
  let s := call [r_write_data (SentMessage s)] s in
  let s := call [r_openReadingPipe 1 (address 0)] s in
  call [r_startListening] s.

(** [transmit_response_to_RX(respFlag)]; the parameter hides the global of
    the same name, which the function therefore leaves alone. *)
Definition transmit_response_to_RX (respFlag : bool) (s : state) : state :=
  if respFlag then
    let s := pack_sent_msg s in
    let s := triage_data s in
    send_SentMessage s
  else s.

(** [transmit_pir_state(pirFlag)]; the line it prints before sending asks
    the driver for the channel. *)
Definition transmit_pir_state (pirFlag : bool) (s : state) : state :=
  if pirFlag then
    let s := set_pir_gate 1 (gateNum s) s in
    let s := pack_sent_msg s in
    let s := triage_data s in
    let s := call [r_getChannel] s in
    let s := send_SentMessage s in
    let s := set_pir_gate 0 (gateNum s) s in
    let s := set_flags false (audioFlag s) (TX.respFlag s) s in
    set_SentMessage (set_pir_state (pirNum s) (SentMessage s)) s
  else s.

(** [transmit_audio_gate(agate)]; it asks for the channel as
    [transmit_pir_state] does. *)
Definition transmit_audio_gate (agate : bool) (s : state) : state :=
  if agate then
    let s := set_pir_gate (pirNum s) 1 s in
    let s := pack_sent_msg s in
    let s := triage_data s in
    let s := call [r_getChannel] s in
    let s := send_SentMessage s in
    let s := set_pir_gate (pirNum s) 0 s in
    let s := set_flags (intruderFlag s) false (TX.respFlag s) s in
    set_SentMessage (set_audio_gate (gateNum s) (SentMessage s)) s
  else s.

(** [receive_msg]; [rx] is what [radio.available()] and [radio.read] find:
    [None] when nothing is waiting, the received ping otherwise. *)
Definition receive_msg (rx : option pingCmd) (s : state) : state :=
  let s := call [r_available] s in
  match rx with
  | None => s
  | Some p =>
      let s := set_PongMessage p (call [r_read] s) in
      let s := get_pong_cmd_RX s in
      let s := setupTXRadio (radNum s) (chNum s) (pwrNum s) s in
      let s := set_flags (intruderFlag s) (audioFlag s) true s in
      transmit_response_to_RX (TX.respFlag s) s
  end.

(** The radio part of [setup()]. *)
Definition setup : state :=
  let s := initRadioValues 5 81 PA_MIN power_on in
  setupTXRadio (radNum s) (chNum s) (pwrNum s) s.

(** The node's identity: radio number, channel, power. *)
Definition identity (s : state) : Z * Z * PA_type :=
  (radNum s, chNum s, pwrNum s).

(** The candidate pairs [triage_data] prints for a message, in order. *)
Definition fired (m : dataStruct) : list (Alarm_type * Dng_level) :=
  lines (triage_scan m (start ALM_NONE DNG_NONE)).

(** The pair [triage_data] stores for a message. *)
Definition classify (m : dataStruct) : Alarm_type * Dng_level :=
  let t := triage_scan m (start ALM_NONE DNG_NONE) in (alm_temp t, dng_temp t).

(** The conditions of [triage_data] laid out as a table. *)
Definition rules (m : dataStruct) : list rule :=
  [ (h_val m <? 10, (HUM_LOW, DNG_NONE));
    (h_val m >=? 85, (HUM_HIGH, DNG_LOW));
    (c_val m <? 20, (TEMP_LOW, DNG_LOW));
    ((c_val m >=? 40) && (c_val m <? 100), (TEMP_HIGH, DNG_HIGH));
    (c_val m >=? 100, (TEMP_FIRE, DNG_MAX));
    (co2_val m <=? 0, (CO2_LOW, DNG_NONE));
    ((co2_val m >=? 400) && (co2_val m <=? 1600), (CO2_GOOD, DNG_NONE));
    ((co2_val m >=? 1800) && (co2_val m <? 3000), (CO2_HIGH, DNG_HIGH));
    (co2_val m >=? 3000, (CO2_DNG, DNG_MAX));
    (audio_gate m =? 1, (LOUDNOISE, DNG_MED));
    (pir_state m =? 1, (INTRUDER, DNG_HIGH)) ].

(** [serialCommOutput]; [key] is what [Serial.available()] and
    [Serial.read()] find.  The operator retunes the node here without
    repacking the message. *)
Definition serialCommOutput (key : option ascii) (s : state) : state :=
  match key with
  | None => s
  | Some c =>
      let s :=
        if Ascii.eqb c "R" then checkRadioConn s
        else if Ascii.eqb c "1" then setupTXRadio 1 81 PA_MIN s
        else if Ascii.eqb c "2" then setupTXRadio 2 81 PA_MIN s
        else if Ascii.eqb c "3" then setupTXRadio 3 81 PA_MIN s
        else if Ascii.eqb c "4" then setupTXRadio 4 81 PA_MIN s
        else if Ascii.eqb c "5" then setupTXRadio 5 81 PA_MIN s
        else if Ascii.eqb c "E" then setupTXRadio 1 76 PA_MIN s
        else if Ascii.eqb c "S" then setupTXRadio 1 81 PA_MIN s
        else s in
      call [r_startListening] s
  end.

(** One turn of [loop()]; [pir_pin_val] and [audio_gate_val] are the two
    pins as [digitalRead] finds them. *)
Definition loop (pir_pin_val audio_gate_val : Z) (rx : option pingCmd)
    (key : option ascii) (s : state) : state :=
  let s := if pir_pin_val =? 1
           then set_flags true (audioFlag s) (TX.respFlag s) s else s in
  let s := transmit_pir_state (intruderFlag s) s in
  let s := if audio_gate_val =? 1
           then set_flags (intruderFlag s) true (TX.respFlag s) s else s in
  let s := transmit_audio_gate (audioFlag s) s in
  let s := receive_msg rx s in
  serialCommOutput key s.

(** What one turn of the loop finds on its pins, radio and console, and
    the node after a sequence of turns. *)
Record turn : Set := mkTurn {
  turn_pir   : Z;
  turn_audio : Z;
  turn_rx    : option pingCmd;
  turn_key   : option ascii
}.

Definition loops (inputs : list turn) (s : state) : state :=
  fold_left
    (fun s i => loop (turn_pir i) (turn_audio i) (turn_rx i) (turn_key i) s)
    inputs s.

End TX.

(** ** The RX Master (emacs_RX_Master_03.ino) *)

Module Master.

(** The display and console routines [receive_rm] runs after the triage. *)
Inductive routine : Set :=
| compact_lcd_routine | pir_routine | audio_routine.

(** [int sensorOffset = 0;], never assigned. *)
Definition sensorOffset : Z := 0.

(** The globals of the sketch ([cmd_msg] is an [int] holding the numeric
    value of the command). *)
Record state : Type := mkState {
  (* variables for message passing *)
  co2_msg  : Z;
  pir_msg  : Z;
  gate_msg : Z;
  h_msg    : Z;
  c_msg    : Z;
  f_msg    : Z;
  cmd_msg  : Z;
  ch_msg   : Z;
  rad_msg  : Z;
  pa_msg   : PA_type;
  tar_msg  : Z;
  alm_msg  : Alarm_type;
  dng_msg  : Dng_level;
  (* messages *)
  ReceivedMessage : dataStruct;
  PingMessage     : pingCmd;
  myData          : dataStruct;
  (* the world: calls made on the radio, alarm lines printed, routines run *)
  radio    : list radio_op;
  serial   : list (Alarm_type * Dng_level);
  routines : list routine
}.

Definition power_on : state :=
  mkState 0 0 0 0 0 0 0 0 0 PA_MIN 0 ALM_NONE DNG_NONE
          zero_data zero_ping zero_data [] [] [].

Definition call (ops : list radio_op) (s : state) : state :=
  mkState (co2_msg s) (pir_msg s) (gate_msg s) (h_msg s) (c_msg s) (f_msg s)
          (cmd_msg s) (ch_msg s) (rad_msg s) (pa_msg s) (tar_msg s)
          (alm_msg s) (dng_msg s)
          (ReceivedMessage s) (PingMessage s) (myData s)
          (radio s ++ ops) (serial s) (routines s).

Definition do_routine (r : routine) (s : state) : state :=
  mkState (co2_msg s) (pir_msg s) (gate_msg s) (h_msg s) (c_msg s) (f_msg s)
          (cmd_msg s) (ch_msg s) (rad_msg s) (pa_msg s) (tar_msg s)
          (alm_msg s) (dng_msg s)
          (ReceivedMessage s) (PingMessage s) (myData s)
          (radio s) (serial s) (routines s ++ [r]).

Definition set_ReceivedMessage (m : dataStruct) (s : state) : state :=
  mkState (co2_msg s) (pir_msg s) (gate_msg s) (h_msg s) (c_msg s) (f_msg s)
          (cmd_msg s) (ch_msg s) (rad_msg s) (pa_msg s) (tar_msg s)
          (alm_msg s) (dng_msg s)
          m (PingMessage s) (myData s)
          (radio s) (serial s) (routines s).

Definition set_PingMessage (p : pingCmd) (s : state) : state :=
  mkState (co2_msg s) (pir_msg s) (gate_msg s) (h_msg s) (c_msg s) (f_msg s)
          (cmd_msg s) (ch_msg s) (rad_msg s) (pa_msg s) (tar_msg s)
          (alm_msg s) (dng_msg s)
          (ReceivedMessage s) p (myData s)
          (radio s) (serial s) (routines s).

Definition set_myData (m : dataStruct) (s : state) : state :=
  mkState (co2_msg s) (pir_msg s) (gate_msg s) (h_msg s) (c_msg s) (f_msg s)
          (cmd_msg s) (ch_msg s) (rad_msg s) (pa_msg s) (tar_msg s)
          (alm_msg s) (dng_msg s)
          (ReceivedMessage s) (PingMessage s) m
          (radio s) (serial s) (routines s).

Definition checkRadioConn (s : state) : state :=
  call [r_isChipConnected; r_getChannel; r_printDetails] s.

Definition setPowerLevel (pwr : PA_type) (s : state) : state :=
  match pwr with
  | PA_MIN  => call [r_setPALevel PA_MIN] s
  | PA_LOW  => call [r_setPALevel PA_LOW] s
  | PA_HIGH => call [r_setPALevel PA_HIGH] s
  | PA_MAX  => call [r_setPALevel PA_MAX] s
  end.

(** [setupMasterRadio(mychannel, pat)]. *)
Definition setupMasterRadio (mychannel : Z) (pat : PA_type) (s : state) : state :=
  let s := call [r_begin] s in
  let s := call [r_setDataRate_250KBPS] s in
  let s := setPowerLevel pat s in
  let s := call [r_setChannel mychannel] s in
  let s := call [r_openWritingPipe (address 0)] s in
  let s := call [r_openReadingPipe 1 (address 1)] s in
  let s := call [r_openReadingPipe 2 (address 2)] s in
  let s := call [r_openReadingPipe 3 (address 3)] s in
  let s := call [r_openReadingPipe 4 (address 4)] s in
  let s := call [r_openReadingPipe 5 (address 5)] s in
  let s := call [r_startListening] s in
  let d := myData s in
  let s := set_myData (mkData mychannel 0 (co2_val d) (h_val d) (c_val d) (f_val d)
                              (pir_state d) (audio_gate d) (ping d)) s in
  checkRadioConn s.

(** [parseRcvMsg]: [ch_msg] and [rad_msg] are assigned twice, the values of
    the embedded ping last. *)
Definition parseRcvMsg (s : state) : state :=
  let m := ReceivedMessage s in
  mkState (co2_val m + sensorOffset) (pir_state m) (audio_gate m)
          (h_val m) (c_val m) (f_val m)
          (cmd_val (my_cmd (ping m))) (ch_cmd (ping m)) (r_cmd (ping m))
          (pa_cmd (ping m)) (tar_cmd (ping m))
          (alm_cmd (ping m)) (dng_cmd (ping m))
          (ReceivedMessage s) (PingMessage s) (myData s)
          (radio s) (serial s) (routines s).

(** The eleven blocks of [triage_msg], in source order. *)
Definition triage_scan (TempMessage : dataStruct) (t : tri) : tri :=
  let t := block (h_val TempMessage <? 10) HUM_LOW DNG_NONE t in
  let t := block (h_val TempMessage >=? 85) HUM_HIGH DNG_LOW t in
  let t := block (c_val TempMessage <? 20) TEMP_LOW DNG_LOW t in
  let t := block (c_val TempMessage >? 40) TEMP_HIGH DNG_HIGH t in
  let t := block (c_val TempMessage >? 100) TEMP_FIRE DNG_MAX t in
  let t := block (co2_val TempMessage <=? 0) CO2_LOW DNG_NONE t in
  let t := block ((co2_val TempMessage >=? 400) && (co2_val TempMessage <? 2000))
                 CO2_GOOD DNG_NONE t in
  let t := block ((co2_val TempMessage >=? 2000) && (co2_val TempMessage <? 3000))
                 CO2_HIGH DNG_HIGH t in
  let t := block (co2_val TempMessage >=? 3000) CO2_DNG DNG_MAX t in
  let t := block (pir_state TempMessage =? 1) INTRUDER DNG_HIGH t in
  let t := block (audio_gate TempMessage =? 1) LOUDNOISE DNG_MED t in
  t.

(** [triage_msg]. *)
Definition triage_msg (s : state) : state :=
  let TempMessage := ReceivedMessage s in
  let t := triage_scan TempMessage (start (alm_msg s) (dng_msg s)) in
  mkState (co2_msg s) (pir_msg s) (gate_msg s) (h_msg s) (c_msg s) (f_msg s)
          (cmd_msg s) (ch_msg s) (rad_msg s) (pa_msg s) (tar_msg s)
          (alm_temp t) (dng_temp t)
          (set_ping (set_alm_dng (alm_temp t) (dng_temp t) (ping (ReceivedMessage s)))
                    (ReceivedMessage s))
          (PingMessage s) (myData s)
          (radio s) (serial s ++ lines t) (routines s).

(** The security-node cases of [receive_rm]. *)
Definition security_case (s : state) : state :=
  let s := triage_msg s in
  let s := do_routine compact_lcd_routine s in
  let s := if negb (pir_msg s =? 0) then do_routine pir_routine s else s in
  if negb (gate_msg s =? 0) then do_routine audio_routine s else s.

(** The environmental-node cases of [receive_rm]. *)
Definition environment_case (s : state) : state :=
  let s := triage_msg s in
  do_routine compact_lcd_routine s.

(** [receive_rm(radnum)]. *)
Definition receive_rm (radnum : Z) (s : state) : state :=
  if radnum =? 0 then environment_case s
  else if radnum =? 1 then environment_case s
  else if radnum =? 2 then environment_case s
  else if radnum =? 3 then security_case s
  else if radnum =? 4 then security_case s
  else if radnum =? 5 then security_case s
  else s.

(** [receive_data]; [rx] is what [radio.available()] and [radio.read] find. *)
Definition receive_data (rx : option dataStruct) (s : state) : state :=
  let s := call [r_available] s in
  match rx with
  | None => s
  | Some m =>
      let s := set_ReceivedMessage m (call [r_read] s) in
      let s := parseRcvMsg s in
      receive_rm (rad_msg s) s
  end.

(** [send_ping_cmd(cmd, ch, rn, pat, target)]. *)
Definition send_ping_cmd (cmd : cmd_type) (ch rn : Z) (pat : PA_type) (target : Z)
    (s : state) : state :=
  let s := set_PingMessage (mkPing cmd ch rn pat target ALM_NONE DNG_NONE) s in
  let s := call [r_stopListening] s in
  let s := call [r_openWritingPipe (address 0)] s in
  let s := call [r_write_ping (PingMessage s)] s in
  call [r_startListening] s.

(** The candidate pairs [triage_msg] prints for a message, in order. *)
Definition fired (m : dataStruct) : list (Alarm_type * Dng_level) :=
  lines (triage_scan m (start ALM_NONE DNG_NONE)).

(** The pair [triage_msg] stores for a message. *)
Definition classify (m : dataStruct) : Alarm_type * Dng_level :=
  let t := triage_scan m (start ALM_NONE DNG_NONE) in (alm_temp t, dng_temp t).

(** The conditions of [triage_msg] laid out as a table. *)
Definition rules (m : dataStruct) : list rule :=
  [ (h_val m <? 10, (HUM_LOW, DNG_NONE));
    (h_val m >=? 85, (HUM_HIGH, DNG_LOW));
    (c_val m <? 20, (TEMP_LOW, DNG_LOW));
    (c_val m >? 40, (TEMP_HIGH, DNG_HIGH));
    (c_val m >? 100, (TEMP_FIRE, DNG_MAX));
    (co2_val m <=? 0, (CO2_LOW, DNG_NONE));
    ((co2_val m >=? 400) && (co2_val m <? 2000), (CO2_GOOD, DNG_NONE));
    ((co2_val m >=? 2000) && (co2_val m <? 3000), (CO2_HIGH, DNG_HIGH));
    (co2_val m >=? 3000, (CO2_DNG, DNG_MAX));
    (pir_state m =? 1, (INTRUDER, DNG_HIGH));
    (audio_gate m =? 1, (LOUDNOISE, DNG_MED)) ].

(** [serialCommOutput]; [key] is what [Serial.available()] and
    [Serial.read()] find.  The line buffer of [recvWithEndMarker] and
    [showNewData] only feeds the console and is left out. *)
Definition serialCommOutput (key : option ascii) (s : state) : state :=
  match key with
  | None => s
  | Some c =>
      let s :=
        if Ascii.eqb c "A" then send_ping_cmd nada 81 5 PA_MIN 5 s
        else if Ascii.eqb c "a" then send_ping_cmd nada 81 2 PA_MIN 2 s
        else if Ascii.eqb c "B" then send_ping_cmd tar_chg 81 5 PA_MIN 5 s
        else if Ascii.eqb c "b" then send_ping_cmd tar_chg 81 2 PA_MIN 5 s
        else if Ascii.eqb c "D" then send_ping_cmd tar_chg 81 5 PA_MIN 5 s
        else if Ascii.eqb c "M" then send_ping_cmd pa_chg 81 5 PA_MIN 5 s
        else if Ascii.eqb c "m" then send_ping_cmd pa_chg 81 2 PA_MIN 2 s
        else if Ascii.eqb c "L" then send_ping_cmd pa_chg 81 5 PA_LOW 5 s
        else if Ascii.eqb c "l" then send_ping_cmd pa_chg 81 2 PA_LOW 2 s
        else if Ascii.eqb c "H" then send_ping_cmd pa_chg 81 5 PA_HIGH 5 s
        else if Ascii.eqb c "h" then send_ping_cmd pa_chg 81 2 PA_HIGH 2 s
        else if Ascii.eqb c "X" then send_ping_cmd pa_chg 81 5 PA_MAX 5 s
        else if Ascii.eqb c "x" then send_ping_cmd pa_chg 81 2 PA_MAX 2 s
        else if Ascii.eqb c "1" then send_ping_cmd rad_chg 81 1 PA_MIN 2 s
        else if Ascii.eqb c "2" then send_ping_cmd rad_chg 81 2 PA_MIN 1 s
        else if Ascii.eqb c "#" then send_ping_cmd rad_chg 81 5 PA_MIN 3 s
        else if Ascii.eqb c "3" then send_ping_cmd rad_chg 81 3 PA_MIN 5 s
        else if Ascii.eqb c "$" then send_ping_cmd rad_chg 81 5 PA_MIN 4 s
        else if Ascii.eqb c "4" then send_ping_cmd rad_chg 81 4 PA_MIN 5 s
        else if Ascii.eqb c "^" then send_ping_cmd rad_chg 81 4 PA_MIN 3 s
        else if Ascii.eqb c "6" then send_ping_cmd rad_chg 81 3 PA_MIN 4 s
        else if Ascii.eqb c "e" then send_ping_cmd chan_chg 81 5 PA_MIN 5 s
        else if Ascii.eqb c "s" then send_ping_cmd chan_chg 81 5 PA_MIN 5 s
        else if Ascii.eqb c "K" then send_ping_cmd nada 81 5 PA_MIN 5 s
        else if Ascii.eqb c "R" then checkRadioConn s
        else if Ascii.eqb c "E" then setupMasterRadio 76 PA_MIN s
        else if Ascii.eqb c "S" then setupMasterRadio 81 PA_MIN s
        else s in
      call [r_startListening] s
  end.

(** The radio part of [setup()], and one turn of [loop()]. *)
Definition setup : state := setupMasterRadio 81 PA_MIN power_on.

Definition loop (rx : option dataStruct) (key : option ascii) (s : state) : state :=
  let s := receive_data rx s in
  serialCommOutput key s.

End Master.

(** ** What the specification asks of the triage

    "The final result is the pairwise maximum by numeric enum value across
    all firing predicates; ties keep the later-evaluated candidate.  If no
    predicate fires, result is (None, None)."

    [latest_max val none xs m]: [m] is [none] when [xs] is empty, and
    otherwise [m] occurs in [xs] at a position where nothing before it has a
    larger value and everything after it has a strictly smaller one. *)

Definition latest_max {A : Type} (val : A -> Z) (none : A) (xs : list A) (m : A) : Prop :=
  match xs with
  | [] => m = none
  | _ :: _ =>
      exists l1 l2, xs = l1 ++ m :: l2
        /\ Forall (fun x => val x <= val m) l1
        /\ Forall (fun x => val x < val m) l2
  end.

(** A reading whose humidity, temperature, CO2, motion and audio members
    are given, everything else zero. *)
Definition reading (h c co2 pir gate : Z) : dataStruct :=
  mkData 0 0 co2 h c 0 pir gate zero_ping.

(** Sensors other than the one under study at rest: humidity and CO2 in no
    band of either sketch, no motion and no sound. *)
Definition humidity_quiet (m : dataStruct) : Prop := 10 <= h_val m < 85.
Definition temperature_quiet (m : dataStruct) : Prop := 20 <= c_val m < 40.
Definition co2_quiet (m : dataStruct) : Prop := 0 < co2_val m < 400.
Definition switches_quiet (m : dataStruct) : Prop :=
  pir_state m <> 1 /\ audio_gate m <> 1.

(** ** The radio as the driver has been told to work

    [tuning] is what a sketch has told the driver since its last
    [radio.begin()]: channel, power level and writing pipe; [None] is a
    setting left at the driver's default. *)
Record tuning : Set := mkTuning {
  tuned_channel : option Z;
  tuned_power   : option PA_type;
  tuned_pipe    : option string
}.

Definition untuned : tuning := mkTuning None None None.

Definition tune (t : tuning) (op : radio_op) : tuning :=
  match op with
  | r_begin => untuned
  | r_setChannel c => mkTuning (Some c) (tuned_power t) (tuned_pipe t)
  | r_setPALevel p => mkTuning (tuned_channel t) (Some p) (tuned_pipe t)
  | r_openWritingPipe a => mkTuning (tuned_channel t) (tuned_power t) a
  | _ => t
  end.

(** The readings put on the air by a run of calls, each with the tuning in
    force when it was written. *)
Fixpoint transmissions (t : tuning) (ops : list radio_op) : list (tuning * dataStruct) :=
  match ops with
  | [] => []
  | r_write_data m :: ops => (t, m) :: transmissions t ops
  | op :: ops => transmissions (tune t op) ops
  end.

(** The standalone pings put on the air by a run of calls. *)
Fixpoint pings_written (ops : list radio_op) : list pingCmd :=
  match ops with
  | [] => []
  | r_write_ping p :: ops => p :: pings_written ops
  | _ :: ops => pings_written ops
  end.

(** The tuning a run of calls leaves. *)
Definition tuning_after (ops : list radio_op) (t : tuning) : tuning :=
  fold_left tune ops t.

(** A reading went out on the channel, power level and pipe it reports. *)
Definition on_own_tuning (tm : tuning * dataStruct) : Prop :=
  fst tm = mkTuning (Some (chNum (snd tm))) (Some (pa_cmd (ping (snd tm))))
                    (address (radNum (snd tm))).

(** The alarm and danger members of a reading are what the TX triage
    returns for it. *)
Definition classified (m : dataStruct) : Prop :=
  (alm_cmd (ping m), dng_cmd (ping m)) = TX.classify m.

(** Both, of a reading on the air. *)
Definition sent_well (tm : tuning * dataStruct) : Prop :=
  on_own_tuning tm /\ classified (snd tm).

(** The radio of a TX node is tuned to the identity of the node. *)
Definition in_tune (s : TX.state) : Prop :=
  tuning_after (TX.radio s) untuned
  = mkTuning (Some (TX.chNum s)) (Some (TX.pwrNum s)) (address (TX.radNum s)).

(** A node in tune whose every reading so far went out on its own tuning,
    with the alarm and danger of its own triage. *)
Definition tuned_node (s : TX.state) : Prop :=
  in_tune s /\ Forall sent_well (transmissions untuned (TX.radio s)).

(** The calls of [setupTXRadio] once the radio number is corrected, and of
    the send sequence. *)
Definition setup_calls (rn mychannel : Z) (pat : PA_type) : list radio_op :=
  [ r_begin; r_setDataRate_250KBPS; r_setChannel mychannel; r_setPALevel pat;
    r_openWritingPipe (address rn); r_openReadingPipe 1 (address 0);
    r_startListening; r_isChipConnected; r_getChannel; r_printDetails ].

Definition send_calls (m : dataStruct) : list radio_op :=
  [ r_stopListening; r_write_data m; r_openReadingPipe 1 (address 0);
    r_startListening ].

(** A ping whose alarm and danger members are both at their zero value. *)
Definition no_alarm (p : pingCmd) : Prop :=
  alm_cmd p = ALM_NONE /\ dng_cmd p = DNG_NONE.

(** ** What the specification asks of the Command Negotiator

    "Proceeds only if record.channel == node.channel AND record.targetId ==
    node.radioId", on the identity the node has when the record arrives. *)
Definition addressed_to (p : pingCmd) (s : TX.state) : bool :=
  (ch_cmd p =? TX.chNum s) && (tar_cmd p =? TX.radNum s).

(** The embedded ping of the last packed message mirrors the identity of
    the node, as it does right after [pack_sent_msg]. *)
Definition mirrored (s : TX.state) : Prop :=
  ch_cmd (ping (TX.SentMessage s)) = TX.chNum s
  /\ r_cmd (ping (TX.SentMessage s)) = TX.radNum s
  /\ pa_cmd (ping (TX.SentMessage s)) = TX.pwrNum s.

(** ** More of the TX node *)

Module TXMore.

(** [sendMessage(validCO2Flag)]: the argument expression [respFlag = true]
    assigns the global before the call. *)
Definition sendMessage (validCO2Flag : bool) (s : TX.state) : TX.state :=
  if validCO2Flag then
    let s := TX.set_flags (TX.intruderFlag s) (TX.audioFlag s) true s in
    TX.transmit_response_to_RX true s
  else s.

(** The commands whose case assigns [radNum], and those whose case assigns
    [pwrNum]. *)
Definition assigns_radNum (c : cmd_type) : bool :=
  match c with rad_chg | all_chg => true | _ => false end.

Definition assigns_pwrNum (c : cmd_type) : bool :=
  match c with pa_chg | all_chg => true | _ => false end.

(** The message a node on radio [rn], channel [ch], power [pw] packs from
    the initial values of its environmental globals (co2Num = 450,
    hNum = 40, tNum = 25, fNum = 72), with the two switches and the alarm
    pair given. *)
Definition report (rn ch : Z) (pw : PA_type) (pir gate : Z)
    (a : Alarm_type) (d : Dng_level) : dataStruct :=
  mkData ch rn 450 40 25 72 pir gate (mkPing nada ch rn pw 0 a d).

Definition motion_report (id : Z * Z * PA_type) : dataStruct :=
  report (fst (fst id)) (snd (fst id)) (snd id) 1 0 INTRUDER DNG_HIGH.

Definition audio_report (id : Z * Z * PA_type) : dataStruct :=
  report (fst (fst id)) (snd (fst id)) (snd id) 0 1 LOUDNOISE DNG_MED.

Definition reply_report (id : Z * Z * PA_type) : dataStruct :=
  report (fst (fst id)) (snd (fst id)) (snd id) 0 0 CO2_GOOD DNG_NONE.

(** The node between two turns of its loop: the environmental globals at
    their initial values, switches and flags cleared, command and target
    at zero, the radio number one of the five. *)
Definition steady (s : TX.state) : Prop :=
  (TX.co2Num s = 450 /\ TX.hNum s = 40 /\ TX.tNum s = 25 /\ TX.fNum s = 72)
  /\ (TX.pirNum s = 0 /\ TX.gateNum s = 0)
  /\ (TX.intruderFlag s = false /\ TX.audioFlag s = false)
  /\ (TX.myNum s = nada /\ TX.tarNum s = 0)
  /\ (my_cmd (ping (TX.SentMessage s)) = nada
      /\ tar_cmd (ping (TX.SentMessage s)) = 0)
  /\ 1 <= TX.radNum s <= 5.

(** The globals no routine of the loop changes but the two transmit
    routines, which set and clear the switches and clear the flags. *)
Definition surroundings (s : TX.state) : Z * Z * Z * Z * (Z * Z) * (bool * bool) :=
  (TX.co2Num s, TX.hNum s, TX.tNum s, TX.fNum s,
   (TX.pirNum s, TX.gateNum s), (TX.intruderFlag s, TX.audioFlag s)).

(** [steady] but for the last packed message. *)
Definition ready (s : TX.state) : Prop :=
  surroundings s = (450, 40, 25, 72, (0, 0), (false, false))
  /\ TX.myNum s = nada /\ TX.tarNum s = 0.

(** One of the three readings a node sends, from one of the five radio
    numbers. *)
Definition is_report (m : dataStruct) : Prop :=
  exists id : Z * Z * PA_type,
    1 <= fst (fst id) <= 5
    /\ (m = motion_report id \/ m = audio_report id \/ m = reply_report id).

End TXMore.

(** ** Reading the radio log *)

(** The readings put on the air by a run of calls. *)
Fixpoint readings_written (ops : list radio_op) : list dataStruct :=
  match ops with
  | [] => []
  | r_write_data m :: ops => m :: readings_written ops
  | _ :: ops => readings_written ops
  end.

(** Whether the radio listens after a call: [startListening] and
    [stopListening] switch, no other call of the sketches is taken to. *)
Definition listen (b : bool) (op : radio_op) : bool :=
  match op with
  | r_startListening => true
  | r_stopListening => false
  | _ => b
  end.

Definition listening_after (ops : list radio_op) (b : bool) : bool :=
  fold_left listen ops b.

(** For each write of a run of calls, whether the radio was listening. *)
Fixpoint written_while (b : bool) (ops : list radio_op) : list bool :=
  match ops with
  | [] => []
  | r_write_data m :: ops => b :: written_while b ops
  | r_write_ping p :: ops => b :: written_while b ops
  | op :: ops => written_while (listen b op) ops
  end.

(** The sequences of calls a TX node makes: the set-up, the send, the poll
    of [receive_msg], its read, the channel query of [transmit_pir_state]
    and [transmit_audio_gate], the queries of [checkRadioConn], and the
    [startListening] that ends [serialCommOutput]. *)
Inductive tx_block : list radio_op -> Prop :=
| blk_setup (rn ch : Z) (pw : PA_type) :
    1 <= rn <= 5 -> tx_block (setup_calls rn ch pw)
| blk_send (m : dataStruct) : tx_block (send_calls m)
| blk_available : tx_block [r_available]
| blk_read : tx_block [r_read]
| blk_channel : tx_block [r_getChannel]
| blk_check : tx_block [r_isChipConnected; r_getChannel; r_printDetails]
| blk_listen : tx_block [r_startListening].

Inductive tx_log : list radio_op -> Prop :=
| log_nil : tx_log []
| log_app (ops blk : list radio_op) :
    tx_log ops -> tx_block blk -> tx_log (ops ++ blk).

(** A property of radio logs that appending a sequence of a TX node
    keeps. *)
Definition block_closed (P : list radio_op -> Prop) : Prop :=
  forall ops blk, P ops -> tx_block blk -> P (ops ++ blk).

(** The half-duplex discipline on a log: the radio ends listening, and
    every write was made while it was not. *)
Definition half_duplex (ops : list radio_op) : Prop :=
  listening_after ops false = true
  /\ Forall (fun b => b = false) (written_while false ops).

(** A run of calls that starts and ends listening and writes only while
    not listening. *)
Definition polite (ops : list radio_op) : Prop :=
  listening_after ops true = true
  /\ Forall (fun b => b = false) (written_while true ops).

(** ** More of the Master *)

Module MasterMore.

Definition set_alm_msg (a : Alarm_type) (s : Master.state) : Master.state :=
  Master.mkState (Master.co2_msg s) (Master.pir_msg s) (Master.gate_msg s)
    (Master.h_msg s) (Master.c_msg s) (Master.f_msg s)
    (Master.cmd_msg s) (Master.ch_msg s) (Master.rad_msg s) (Master.pa_msg s)
    (Master.tar_msg s) a (Master.dng_msg s)
    (Master.ReceivedMessage s) (Master.PingMessage s) (Master.myData s)
    (Master.radio s) (Master.serial s) (Master.routines s).

Definition set_dng_msg (d : Dng_level) (s : Master.state) : Master.state :=
  Master.mkState (Master.co2_msg s) (Master.pir_msg s) (Master.gate_msg s)
    (Master.h_msg s) (Master.c_msg s) (Master.f_msg s)
    (Master.cmd_msg s) (Master.ch_msg s) (Master.rad_msg s) (Master.pa_msg s)
    (Master.tar_msg s) (Master.alm_msg s) d
    (Master.ReceivedMessage s) (Master.PingMessage s) (Master.myData s)
    (Master.radio s) (Master.serial s) (Master.routines s).

(** [alm_routine(alm)]: the chain of tests on [alm], each branch assigning
    [alm_msg] and, in eight of them, [dng_msg]; the line each branch
    prints is left out. *)
Definition alm_routine (alm : Alarm_type) (s : Master.state) : Master.state :=
  match alm with
  | ALM_NONE  => set_alm_msg ALM_NONE s
  | HUM_LOW   => set_alm_msg HUM_LOW s
  | HUM_HIGH  => set_dng_msg DNG_LOW (set_alm_msg HUM_HIGH s)
  | TEMP_LOW  => set_dng_msg DNG_MED (set_alm_msg TEMP_LOW s)
  | TEMP_HIGH => set_dng_msg DNG_HIGH (set_alm_msg TEMP_HIGH s)
  | TEMP_FIRE => set_dng_msg DNG_MAX (set_alm_msg TEMP_FIRE s)
  | CO2_LOW   => set_alm_msg CO2_LOW s
  | CO2_GOOD  => set_alm_msg CO2_GOOD s
  | CO2_HIGH  => set_dng_msg DNG_HIGH (set_alm_msg CO2_HIGH s)
  | CO2_DNG   => set_dng_msg DNG_MAX (set_alm_msg CO2_DNG s)
  | INTRUDER  => set_dng_msg DNG_HIGH (set_alm_msg INTRUDER s)
  | LOUDNOISE => set_dng_msg DNG_MED (set_alm_msg LOUDNOISE s)
  end.

(** [dng_routine(dl)], without the printed line and the delay. *)
Definition dng_routine (dl : Dng_level) (s : Master.state) : Master.state :=
  match dl with
  | DNG_NONE => set_dng_msg DNG_NONE s
  | DNG_LOW  => set_dng_msg DNG_LOW s
  | DNG_MED  => set_dng_msg DNG_MED s
  | DNG_HIGH => set_dng_msg DNG_HIGH s
  | DNG_MAX  => set_dng_msg DNG_MAX s
  end.

(** What a turn of the Master's loop finds, and the Master after a
    sequence of turns. *)
Record turn : Set := mkTurn {
  turn_rx  : option dataStruct;
  turn_key : option ascii
}.

Definition loops (inputs : list turn) (s : Master.state) : Master.state :=
  fold_left (fun s i => Master.loop (turn_rx i) (turn_key i) s) inputs s.

(** The reading pipes a run of calls opens, with their addresses. *)
Fixpoint pipes_opened (ops : list radio_op) : list (Z * option string) :=
  match ops with
  | [] => []
  | r_openReadingPipe n a :: ops => (n, a) :: pipes_opened ops
  | _ :: ops => pipes_opened ops
  end.

End MasterMore.

(** ** The line buffer of the Master's console *)

Module Console.

(** [const byte numChars = 8;] *)
Definition numChars : Z := 8.

(** [receivedChars], the [static byte ndx] of [recvWithEndMarker],
    [newData], and the lines [showNewData] has printed. *)
Record state : Set := mkState {
  receivedChars : list ascii;
  ndx           : Z;
  newData       : bool;
  shown         : list string
}.

Definition power_on : state :=
  mkState (repeat Ascii.zero 8) 0 false [].

(** [buf[i] = c]; [None] when [i] is outside the array, where the
    assignment is undefined. *)
Definition store (i : Z) (c : ascii) (buf : list ascii) : option (list ascii) :=
  if (0 <=? i) && (i <? Z.of_nat (List.length buf))
  then Some (firstn (Z.to_nat i) buf ++ c :: skipn (S (Z.to_nat i)) buf)
  else None.

(** The characters of a buffer read as a C string, up to the first NUL. *)
Fixpoint c_str (buf : list ascii) : string :=
  match buf with
  | [] => EmptyString
  | c :: buf => if Ascii.eqb c Ascii.zero then EmptyString else String c (c_str buf)
  end.

(** [recvWithEndMarker(rc)]; [ndx] is a [byte], so [ndx++] is modulo 256.
    [None] when the assignment into [receivedChars] is outside the array. *)
Definition recvWithEndMarker (rc : ascii) (s : state) : option state :=
  let endMarker := "010"%char in
  if negb (Ascii.eqb rc endMarker) then
    match store (ndx s) rc (receivedChars s) with
    | None => None
    | Some buf =>
        let n := (ndx s + 1) mod 256 in
        let n := if n >=? numChars then numChars - 1 else n in
        Some (mkState buf n (newData s) (shown s))
    end
  else
    match store (ndx s) Ascii.zero (receivedChars s) with
    | None => None
    | Some buf => Some (mkState buf 0 true (shown s))
    end.

(** [showNewData()]. *)
Definition showNewData (s : state) : state :=
  if newData s
  then mkState (receivedChars s) (ndx s) false
               (shown s ++ [c_str (receivedChars s)])
  else s.

(** What [serialCommOutput] does with the character it has read, before
    it looks the command up. *)
Definition key (c : ascii) (s : state) : option state :=
  match recvWithEndMarker c s with
  | None => None
  | Some s => Some (showNewData s)
  end.

(** A run of characters, one per turn of the loop. *)
Fixpoint keys (cs : list ascii) (s : state) : option state :=
  match cs with
  | [] => Some s
  | c :: cs =>
      match key c s with
      | None => None
      | Some s => keys cs s
      end
  end.

(** The array has its eight cells and the index is inside it. *)
Definition inside (s : state) : Prop :=
  List.length (receivedChars s) = 8%nat /\ 0 <= ndx s < numChars.

(** A character that is neither the end marker nor NUL. *)
Definition plain (c : ascii) : Prop :=
  c <> "010"%char /\ c <> Ascii.zero.

End Console.


(** ** Lemmas on the triage blocks *)

Section KeepGe.
Context {A : Type} (val : A -> Z).

Lemma fold_keep_ge_snoc (xs : list A) (x a0 : A) :
  fold_left (keep_ge val) (xs ++ [x]) a0
  = keep_ge val (fold_left (keep_ge val) xs a0) x.
Proof. now rewrite fold_left_app. Qed.

Lemma fold_keep_ge_char (xs : list A) (a0 : A) :
  let r := fold_left (keep_ge val) xs a0 in
  (r = a0 /\ Forall (fun x => val x < val a0) xs)
  \/ (exists l1 l2, xs = l1 ++ r :: l2
        /\ val a0 <= val r
        /\ Forall (fun x => val x <= val r) l1
        /\ Forall (fun x => val x < val r) l2).
Proof.
  induction xs as [|x ys IH] using rev_ind; cbn zeta.
  - left; split; [reflexivity | constructor].
  - rewrite fold_keep_ge_snoc. cbn zeta in IH.
    set (r' := fold_left (keep_ge val) ys a0) in *.
    assert (Hk : keep_ge val r' x = if val x >=? val r' then x else r')
      by reflexivity.
    destruct (Z.geb_spec (val x) (val r')) as [Hge | Hlt]; rewrite Hk; clear Hk.
    + right. exists ys, []. repeat split.
      * destruct IH as [[-> _] | (l1 & l2 & _ & Hle & _)]; lia.
      * destruct IH as [[Hr Hall] | (l1 & l2 & Hys & _ & H1 & H2)].
        -- rewrite Hr in Hge. eapply Forall_impl; [| exact Hall].
           cbn; intros; lia.
        -- rewrite Hys at 1. apply Forall_app; split.
           ++ eapply Forall_impl; [| exact H1]. cbn; intros; lia.
           ++ constructor; [lia |].
              eapply Forall_impl; [| exact H2]. cbn; intros; lia.
      * constructor.
    + destruct IH as [[Hr Hall] | (l1 & l2 & Hys & Hle & H1 & H2)].
      * left. split; [exact Hr |].
        apply Forall_app; split; [exact Hall |].
        constructor; [rewrite <- Hr; exact Hlt | constructor].
      * right. exists l1, (l2 ++ [x]). repeat split; try assumption.
        -- rewrite Hys at 1. now rewrite <- app_assoc.
        -- apply Forall_app; split; [exact H2 |].
           constructor; [exact Hlt | constructor].
Qed.

Lemma fold_keep_ge_latest_max (none : A) (xs : list A) :
  (forall x, val none <= val x) ->
  latest_max val none xs (fold_left (keep_ge val) xs none).
Proof.
  intros Hmin.
  destruct (fold_keep_ge_char xs none) as [[Hr Hall] | (l1 & l2 & Hxs & _ & H1 & H2)].
  - destruct xs as [|x xs]; [reflexivity |].
    inversion Hall as [| ? ? Hx _]; subst. specialize (Hmin x). lia.
  - destruct xs as [|x xs].
    + now destruct l1.
    + cbn [latest_max]. exists l1, l2. auto.
Qed.
End KeepGe.

Lemma Alarm_val_min (a : Alarm_type) : Alarm_val ALM_NONE <= Alarm_val a.
Proof. destruct a; cbn; lia. Qed.

Lemma Dng_val_min (d : Dng_level) : Dng_val DNG_NONE <= Dng_val d.
Proof. destruct d; cbn; lia. Qed.

Lemma run_cons (r : rule) (rs : list rule) (t : tri) :
  run (r :: rs) t = run rs (block (fst r) (fst (snd r)) (snd (snd r)) t).
Proof. reflexivity. Qed.

Lemma run_lines (rs : list rule) (t : tri) :
  lines (run rs t) = lines t ++ firing rs.
Proof.
  revert t; induction rs as [|[c [a d]] rs IH]; intros t.
  - cbn. now rewrite app_nil_r.
  - rewrite run_cons, IH. unfold firing, block. cbn [fst snd filter].
    destruct c; cbn [map lines raise snd].
    + now rewrite <- app_assoc.
    + reflexivity.
Qed.

Lemma run_alm_temp (rs : list rule) (t : tri) :
  alm_temp (run rs t)
  = fold_left (keep_ge Alarm_val) (map fst (firing rs)) (alm_temp t).
Proof.
  revert t; induction rs as [|[c [a d]] rs IH]; intros t.
  - reflexivity.
  - rewrite run_cons, IH. unfold firing, block. cbn [fst snd filter].
    destruct c; reflexivity.
Qed.

Lemma run_dng_temp (rs : list rule) (t : tri) :
  dng_temp (run rs t)
  = fold_left (keep_ge Dng_val) (map snd (firing rs)) (dng_temp t).
Proof.
  revert t; induction rs as [|[c [a d]] rs IH]; intros t.
  - reflexivity.
  - rewrite run_cons, IH. unfold firing, block. cbn [fst snd filter].
    destruct c; reflexivity.
Qed.

(** The eleven blocks of each sketch are the run of its table. *)
Lemma TX_triage_scan_run (m : dataStruct) (t : tri) :
  TX.triage_scan m t = run (TX.rules m) t.
Proof. reflexivity. Qed.

Lemma Master_triage_scan_run (m : dataStruct) (t : tri) :
  Master.triage_scan m t = run (Master.rules m) t.
Proof. reflexivity. Qed.

Lemma TX_fired_rules (m : dataStruct) : TX.fired m = firing (TX.rules m).
Proof. unfold TX.fired. now rewrite TX_triage_scan_run, run_lines. Qed.

Lemma Master_fired_rules (m : dataStruct) : Master.fired m = firing (Master.rules m).
Proof. unfold Master.fired. now rewrite Master_triage_scan_run, run_lines. Qed.

Lemma TX_scan_lines (m : dataStruct) (a : Alarm_type) (d : Dng_level) :
  lines (TX.triage_scan m (start a d)) = TX.fired m.
Proof. now rewrite TX_fired_rules, TX_triage_scan_run, run_lines. Qed.

Lemma Master_scan_lines (m : dataStruct) (a : Alarm_type) (d : Dng_level) :
  lines (Master.triage_scan m (start a d)) = Master.fired m.
Proof. now rewrite Master_fired_rules, Master_triage_scan_run, run_lines. Qed.

Lemma TX_scan_result (m : dataStruct) (a : Alarm_type) (d : Dng_level) :
  let t := TX.triage_scan m (start a d) in
  (alm_temp t, dng_temp t) = TX.classify m.
Proof.
  cbn zeta. unfold TX.classify.
  now rewrite !TX_triage_scan_run, !run_alm_temp, !run_dng_temp.
Qed.

Lemma Master_scan_result (m : dataStruct) (a : Alarm_type) (d : Dng_level) :
  let t := Master.triage_scan m (start a d) in
  (alm_temp t, dng_temp t) = Master.classify m.
Proof.
  cbn zeta. unfold Master.classify.
  now rewrite !Master_triage_scan_run, !run_alm_temp, !run_dng_temp.
Qed.

Lemma TX_classify_latest_max (m : dataStruct) :
  latest_max Alarm_val ALM_NONE (map fst (TX.fired m)) (fst (TX.classify m))
  /\ latest_max Dng_val DNG_NONE (map snd (TX.fired m)) (snd (TX.classify m)).
Proof.
  unfold TX.classify. cbn [fst snd].
  rewrite TX_fired_rules, TX_triage_scan_run, run_alm_temp, run_dng_temp.
  split.
  - apply fold_keep_ge_latest_max, Alarm_val_min.
  - apply fold_keep_ge_latest_max, Dng_val_min.
Qed.

Lemma Master_classify_latest_max (m : dataStruct) :
  latest_max Alarm_val ALM_NONE (map fst (Master.fired m)) (fst (Master.classify m))
  /\ latest_max Dng_val DNG_NONE (map snd (Master.fired m)) (snd (Master.classify m)).
Proof.
  unfold Master.classify. cbn [fst snd].
  rewrite Master_fired_rules, Master_triage_scan_run, run_alm_temp, run_dng_temp.
  split.
  - apply fold_keep_ge_latest_max, Alarm_val_min.
  - apply fold_keep_ge_latest_max, Dng_val_min.
Qed.

(** What [triage_data] and [triage_msg] leave behind, in terms of
    [classify] and [fired]. *)
Lemma TX_triage_data_effect (s : TX.state) :
  let m := TX.SentMessage s in
  let s' := TX.triage_data s in
  (alm_cmd (ping (TX.SentMessage s')), dng_cmd (ping (TX.SentMessage s'))) = TX.classify m
  /\ (TX.almNum s', TX.dngNum s') = TX.classify m
  /\ TX.serial s' = TX.serial s ++ TX.fired m.
Proof.
  cbn zeta. unfold TX.triage_data.
  cbn [TX.SentMessage TX.almNum TX.dngNum TX.serial ping set_ping set_alm_dng alm_cmd dng_cmd].
  rewrite TX_scan_lines.
  pose proof (TX_scan_result (TX.SentMessage s) (TX.almNum s) (TX.dngNum s)) as H.
  cbn zeta in H. now rewrite H.
Qed.

Lemma Master_triage_msg_effect (s : Master.state) :
  let m := Master.ReceivedMessage s in
  let s' := Master.triage_msg s in
  (alm_cmd (ping (Master.ReceivedMessage s')), dng_cmd (ping (Master.ReceivedMessage s')))
    = Master.classify m
  /\ (Master.alm_msg s', Master.dng_msg s') = Master.classify m
  /\ Master.serial s' = Master.serial s ++ Master.fired m.
Proof.
  cbn zeta. unfold Master.triage_msg.
  cbn [Master.ReceivedMessage Master.alm_msg Master.dng_msg Master.serial
       ping set_ping set_alm_dng alm_cmd dng_cmd].
  rewrite Master_scan_lines.
  pose proof (Master_scan_result (Master.ReceivedMessage s) (Master.alm_msg s)
                                 (Master.dng_msg s)) as H.
  cbn zeta in H. now rewrite H.
Qed.

(** A candidate is printed exactly when its row of the table holds. *)
Lemma firing_In (rs : list rule) (p : Alarm_type * Dng_level) :
  In p (firing rs) <-> In (true, p) rs.
Proof.
  unfold firing. rewrite in_map_iff. split.
  - intros [[c q] [Hq Hin]]. apply filter_In in Hin as [Hin Hc].
    cbn in Hq, Hc. now subst.
  - intros Hin. exists (true, p). split; [reflexivity |].
    apply filter_In. now split.
Qed.

Lemma firing_alarm_In (rs : list rule) (a : Alarm_type) :
  In a (map fst (firing rs))
  <-> In (true, a) (map (fun r : rule => (fst r, fst (snd r))) rs).
Proof.
  rewrite !in_map_iff. split.
  - intros [[a' d] [Ha Hin]]. cbn in Ha; subst a'.
    apply firing_In in Hin. exists (true, (a, d)). now split.
  - intros [[c [a' d]] [Heq Hin]]. cbn in Heq.
    injection Heq as -> ->. exists (a, d). split; [reflexivity |].
    now apply firing_In.
Qed.

(** Boolean tests of the sketches as propositions. *)
Ltac tests_to_props :=
  repeat match goal with
  | H : _ && _ = true |- _ => apply andb_true_iff in H; destruct H
  | H : (_ <? _) = true |- _ => apply Z.ltb_lt in H
  | H : (_ <=? _) = true |- _ => apply Z.leb_le in H
  | H : (_ >? _) = true |- _ => apply Z.gtb_lt in H
  | H : (_ >=? _) = true |- _ => apply Z.geb_le in H
  | H : (_ =? _) = true |- _ => apply Z.eqb_eq in H
  end.

Ltac prove_test :=
  repeat (apply andb_true_iff; split);
  first [ apply Z.ltb_lt | apply Z.leb_le | apply Z.gtb_lt
        | apply Z.geb_le | apply Z.eqb_eq ]; lia.

(** Membership of an alarm among the printed ones, read off the table. *)
Ltac alarm_row :=
  cbn [map In fst snd TX.rules Master.rules];
  split;
  [ intros H;
    repeat (destruct H as [H | H]);
    try discriminate H; try contradiction H;
    injection H as H; tests_to_props; lia
  | intros H;
    repeat first [ left; f_equal; prove_test | right ] ].

(** The pair a sketch returns, computed from its table. *)
Lemma TX_classify_rules (m : dataStruct) :
  TX.classify m
  = (fold_left (keep_ge Alarm_val) (map fst (firing (TX.rules m))) ALM_NONE,
     fold_left (keep_ge Dng_val) (map snd (firing (TX.rules m))) DNG_NONE).
Proof.
  unfold TX.classify. now rewrite TX_triage_scan_run, run_alm_temp, run_dng_temp.
Qed.

Lemma Master_classify_rules (m : dataStruct) :
  Master.classify m
  = (fold_left (keep_ge Alarm_val) (map fst (firing (Master.rules m))) ALM_NONE,
     fold_left (keep_ge Dng_val) (map snd (firing (Master.rules m))) DNG_NONE).
Proof.
  unfold Master.classify.
  now rewrite Master_triage_scan_run, run_alm_temp, run_dng_temp.
Qed.

(** The tests that the hypotheses at hand decide are replaced by their
    value; the others are left for a case analysis. *)
Ltac settle_tests :=
  repeat match goal with
  | |- context [?a >? ?b] => rewrite (Z.gtb_ltb a b)
  | |- context [?a >=? ?b] => rewrite (Z.geb_leb a b)
  end;
  repeat match goal with
  | |- context [?a <? ?b] =>
      first [ rewrite (proj2 (Z.ltb_lt a b)) by lia
            | rewrite (proj2 (Z.ltb_ge a b)) by lia ]
  | |- context [?a <=? ?b] =>
      first [ rewrite (proj2 (Z.leb_le a b)) by lia
            | rewrite (proj2 (Z.leb_gt a b)) by lia ]
  | |- context [?a =? ?b] =>
      first [ rewrite (proj2 (Z.eqb_eq a b)) by lia
            | rewrite (proj2 (Z.eqb_neq a b)) by lia ]
  end.

Ltac split_tests :=
  repeat match goal with
  | |- context [?a <? ?b] => destruct (Z.ltb_spec a b); try lia
  | |- context [?a <=? ?b] => destruct (Z.leb_spec a b); try lia
  | |- context [?a =? ?b] => destruct (Z.eqb_spec a b); try lia
  end.

Ltac classify_by_table :=
  rewrite ?TX_classify_rules, ?Master_classify_rules;
  unfold TX.rules, Master.rules;
  settle_tests; split_tests; reflexivity.

(** ** The claims *)

(** C1. For every reading, the alarm triage of either sketch ([triage_data]
    on the TX node, [triage_msg] on the Master) stores, in the embedded ping
    of the message and in the two globals, the pair obtained by maximising
    by numeric enum value, separately for the alarm kinds and for the danger
    levels, the candidates of all the threshold tests that fire (the ones it
    prints, which are the rows of the table whose test holds); among equal
    values the later candidate is the one kept; and when no test fires the
    pair is (ALM_NONE, DNG_NONE), which is what [latest_max] says of the
    empty list. *)
Theorem triage_pairwise_maximum :
  (forall s : TX.state,
      let m := TX.SentMessage s in
      let s' := TX.triage_data s in
      let a := alm_cmd (ping (TX.SentMessage s')) in
      let d := dng_cmd (ping (TX.SentMessage s')) in
      TX.fired m = firing (TX.rules m)
      /\ TX.serial s' = TX.serial s ++ TX.fired m
      /\ latest_max Alarm_val ALM_NONE (map fst (TX.fired m)) a
      /\ latest_max Dng_val DNG_NONE (map snd (TX.fired m)) d
      /\ TX.almNum s' = a /\ TX.dngNum s' = d
      /\ TX.classify m = (a, d))
  /\ (forall s : Master.state,
      let m := Master.ReceivedMessage s in
      let s' := Master.triage_msg s in
      let a := alm_cmd (ping (Master.ReceivedMessage s')) in
      let d := dng_cmd (ping (Master.ReceivedMessage s')) in
      Master.fired m = firing (Master.rules m)
      /\ Master.serial s' = Master.serial s ++ Master.fired m
      /\ latest_max Alarm_val ALM_NONE (map fst (Master.fired m)) a
      /\ latest_max Dng_val DNG_NONE (map snd (Master.fired m)) d
      /\ Master.alm_msg s' = a /\ Master.dng_msg s' = d
      /\ Master.classify m = (a, d)).
Proof.
  split; intros s; cbn zeta.
  - destruct (TX_triage_data_effect s) as (Hm & Hg & Hs). cbn zeta in *.
    destruct (TX_classify_latest_max (TX.SentMessage s)) as [Ha Hd].
    rewrite <- Hm in Ha, Hd. cbn [fst snd] in Ha, Hd.
    rewrite <- Hm in Hg.
    repeat split; try assumption; try congruence.
    apply TX_fired_rules.
  - destruct (Master_triage_msg_effect s) as (Hm & Hg & Hs). cbn zeta in *.
    destruct (Master_classify_latest_max (Master.ReceivedMessage s)) as [Ha Hd].
    rewrite <- Hm in Ha, Hd. cbn [fst snd] in Ha, Hd.
    rewrite <- Hm in Hg.
    repeat split; try assumption; try congruence.
    apply Master_fired_rules.
Qed.

(** When no test fires, either sketch returns (ALM_NONE, DNG_NONE). *)
Lemma classify_none_when_nothing_fires (m : dataStruct) :
  (TX.fired m = [] -> TX.classify m = (ALM_NONE, DNG_NONE))
  /\ (Master.fired m = [] -> Master.classify m = (ALM_NONE, DNG_NONE)).
Proof.
  split; intros Hnone.
  - destruct (TX_classify_latest_max m) as [Ha Hd].
    rewrite Hnone in Ha, Hd.
    change (fst (TX.classify m) = ALM_NONE) in Ha.
    change (snd (TX.classify m) = DNG_NONE) in Hd.
    now rewrite (surjective_pairing (TX.classify m)), Ha, Hd.
  - destruct (Master_classify_latest_max m) as [Ha Hd].
    rewrite Hnone in Ha, Hd.
    change (fst (Master.classify m) = ALM_NONE) in Ha.
    change (snd (Master.classify m) = DNG_NONE) in Hd.
    now rewrite (surjective_pairing (Master.classify m)), Ha, Hd.
Qed.

(** The triage with nothing firing, and with three tests firing at once
    (the end-to-end example of the specification). *)
Example TX_triage_nothing_fires :
  TX.fired (reading 50 25 100 0 0) = []
  /\ TX.classify (reading 50 25 100 0 0) = (ALM_NONE, DNG_NONE).
Proof. split; reflexivity. Qed.

Example TX_triage_fire_co2_motion :
  TX.fired (reading 50 105 3200 1 0)
  = [(TEMP_FIRE, DNG_MAX); (CO2_DNG, DNG_MAX); (INTRUDER, DNG_HIGH)]
  /\ TX.classify (reading 50 105 3200 1 0) = (TEMP_FIRE, DNG_MAX).
Proof. split; reflexivity. Qed.

(** Alarm and danger are maximised apart: the pair need not be one of the
    candidates. *)
Example Master_triage_not_paired_by_origin :
  Master.fired (reading 50 25 2500 0 1)
  = [(CO2_HIGH, DNG_HIGH); (LOUDNOISE, DNG_MED)]
  /\ Master.classify (reading 50 25 2500 0 1) = (LOUDNOISE, DNG_HIGH).
Proof. split; reflexivity. Qed.

(** The alarm a sketch returns, decided on every combination of bands. *)
Ltac alarm_returned :=
  rewrite ?TX_classify_rules, ?Master_classify_rules;
  unfold TX.rules, Master.rules, humidity_quiet, temperature_quiet,
    co2_quiet, switches_quiet;
  settle_tests; split_tests;
  match goal with
  | |- (fst ?x = _) <-> _ =>
      let v := eval compute in (fst x) in change (fst x) with v
  end;
  (split; intros Hret; first [ discriminate Hret | reflexivity | lia ]).

(** C6, as the sketches have it.  In both sketches the HUM_LOW candidate
    is raised if and only if the humidity is below 10, the HUM_HIGH
    candidate if and only if it is 85 or more, so that neither is raised
    between 10 and 84, where the alarm returned is never a humidity
    alarm.  The alarm returned is the highest-valued candidate
    raised by any sensor, and the two humidity alarms have the lowest
    values: the triage returns HUM_LOW if and only if the humidity is below
    10 and no temperature, CO2, motion or sound test fires, and HUM_HIGH if
    and only if the humidity is 85 or more and no such test fires.  When
    nothing but humidity can fire in either sketch, the pair returned is
    (HUM_LOW, DNG_NONE) below 10, (HUM_HIGH, DNG_LOW) from 85 on and
    (ALM_NONE, DNG_NONE) in between. *)
Theorem humidity_bands (m : dataStruct) :
  (In HUM_LOW (map fst (TX.fired m)) <-> h_val m < 10)
  /\ (In HUM_HIGH (map fst (TX.fired m)) <-> 85 <= h_val m)
  /\ (In HUM_LOW (map fst (Master.fired m)) <-> h_val m < 10)
  /\ (In HUM_HIGH (map fst (Master.fired m)) <-> 85 <= h_val m)
  /\ (temperature_quiet m -> co2_quiet m -> switches_quiet m ->
      TX.classify m = Master.classify m
      /\ TX.classify m =
           if h_val m <? 10 then (HUM_LOW, DNG_NONE)
           else if h_val m <? 85 then (ALM_NONE, DNG_NONE)
           else (HUM_HIGH, DNG_LOW))
  /\ (fst (TX.classify m) = HUM_LOW <->
      h_val m < 10 /\ 20 <= c_val m < 40
      /\ (0 < co2_val m < 400 \/ 1600 < co2_val m < 1800)
      /\ switches_quiet m)
  /\ (fst (TX.classify m) = HUM_HIGH <->
      85 <= h_val m /\ 20 <= c_val m < 40
      /\ (0 < co2_val m < 400 \/ 1600 < co2_val m < 1800)
      /\ switches_quiet m)
  /\ (fst (Master.classify m) = HUM_LOW <->
      h_val m < 10 /\ 20 <= c_val m <= 40 /\ 0 < co2_val m < 400
      /\ switches_quiet m)
  /\ (fst (Master.classify m) = HUM_HIGH <->
      85 <= h_val m /\ 20 <= c_val m <= 40 /\ 0 < co2_val m < 400
      /\ switches_quiet m)
  /\ (10 <= h_val m < 85 ->
      ~ In (fst (TX.classify m)) [HUM_LOW; HUM_HIGH]
      /\ ~ In (fst (Master.classify m)) [HUM_LOW; HUM_HIGH]).
Proof.
  assert (Htl : fst (TX.classify m) = HUM_LOW <->
                h_val m < 10 /\ 20 <= c_val m < 40
                /\ (0 < co2_val m < 400 \/ 1600 < co2_val m < 1800)
                /\ switches_quiet m) by alarm_returned.
  assert (Hth : fst (TX.classify m) = HUM_HIGH <->
                85 <= h_val m /\ 20 <= c_val m < 40
                /\ (0 < co2_val m < 400 \/ 1600 < co2_val m < 1800)
                /\ switches_quiet m) by alarm_returned.
  assert (Hml : fst (Master.classify m) = HUM_LOW <->
                h_val m < 10 /\ 20 <= c_val m <= 40 /\ 0 < co2_val m < 400
                /\ switches_quiet m) by alarm_returned.
  assert (Hmh : fst (Master.classify m) = HUM_HIGH <->
                85 <= h_val m /\ 20 <= c_val m <= 40 /\ 0 < co2_val m < 400
                /\ switches_quiet m) by alarm_returned.
  split; [| split; [| split; [| split; [| split; [| split; [| split; [| split;
    [| split]]]]]]]]; try assumption.
  1-2: rewrite TX_fired_rules, firing_alarm_In; alarm_row.
  1-2: rewrite Master_fired_rules, firing_alarm_In; alarm_row.
  - intros Ht Hc [Hp Ha]. unfold temperature_quiet, co2_quiet in *.
    split; classify_by_table.
  - intros Hh. split; intros [E | [E | []]]; symmetry in E.
    + apply Htl in E. lia.
    + apply Hth in E. lia.
    + apply Hml in E. lia.
    + apply Hmh in E. lia.
Qed.

Lemma humidity_bands_witness :
  let m := reading 5 25 100 0 0 in
  temperature_quiet m /\ co2_quiet m /\ switches_quiet m
  /\ In HUM_LOW (map fst (Master.fired m))
  /\ TX.classify m = (HUM_LOW, DNG_NONE).
Proof.
  cbn zeta.
  assert (Ht : temperature_quiet (reading 5 25 100 0 0)) by (unfold temperature_quiet; cbn; lia).
  assert (Hc : co2_quiet (reading 5 25 100 0 0)) by (unfold co2_quiet; cbn; lia).
  assert (Hs : switches_quiet (reading 5 25 100 0 0)) by (unfold switches_quiet; cbn; lia).
  destruct (humidity_bands (reading 5 25 100 0 0))
    as (_ & _ & Hlow & _ & Hq & _).
  refine (conj Ht (conj Hc (conj Hs (conj _ (proj2 (Hq Ht Hc Hs)))))).
  apply Hlow. cbn. lia.
Defined.

(** A humidity of 5 with everything else as a node reports it (25 degrees,
    CO2 at 450, no motion, no sound): HUM_LOW is raised, and the alarm
    returned is CO2_GOOD in both sketches, so the returned alarm is not
    HUM_LOW although the humidity is below 10. *)
Lemma humidity_low_outranked :
  h_val (reading 5 25 450 0 0) < 10
  /\ TX.fired (reading 5 25 450 0 0) = [(HUM_LOW, DNG_NONE); (CO2_GOOD, DNG_NONE)]
  /\ TX.classify (reading 5 25 450 0 0) = (CO2_GOOD, DNG_NONE)
  /\ Master.classify (reading 5 25 450 0 0) = (CO2_GOOD, DNG_NONE)
  /\ ~ (fst (TX.classify (reading 5 25 450 0 0)) = HUM_LOW
        <-> h_val (reading 5 25 450 0 0) < 10)
  /\ ~ (fst (Master.classify (reading 5 25 450 0 0)) = HUM_LOW
        <-> h_val (reading 5 25 450 0 0) < 10).
Proof.
  assert (Hh : h_val (reading 5 25 450 0 0) < 10) by (cbn; lia).
  split; [exact Hh |]. split; [reflexivity |]. split; [reflexivity |].
  split; [reflexivity |].
  split; intros [_ H]; specialize (H Hh); discriminate H.
Qed.

(** C4, as the sketches have it.  On the TX node the TEMP_LOW candidate is
    raised if and only if tempC < 20, TEMP_HIGH if and only if
    40 <= tempC < 100 and TEMP_FIRE if and only if tempC >= 100.  On the
    Master TEMP_LOW is raised if and only if tempC < 20, TEMP_HIGH if and
    only if tempC > 40 (with no upper bound) and TEMP_FIRE if and only if
    tempC > 100.  The alarm returned is the highest-valued candidate raised
    by any sensor.  So TEMP_FIRE, the highest of all, is returned if and
    only if it is raised; TEMP_HIGH is returned if and only if it is raised,
    TEMP_FIRE is not, and no CO2_GOOD, CO2_HIGH, CO2_DNG, motion or sound
    test fires; TEMP_LOW is returned if and only if it is raised and no CO2,
    motion or sound test fires; and from 20 to 39 degrees (to 40 on the
    Master) no temperature alarm is returned.  When nothing but temperature
    can fire in either sketch, the pair returned is, on the TX node,
    TEMP_LOW below 20, nothing from 20 to 39, TEMP_HIGH from 40 to 99 and
    TEMP_FIRE from 100 on; on the Master, TEMP_LOW below 20, nothing from
    20 to 40, TEMP_HIGH from 41 to 100 and TEMP_FIRE from 101 on. *)
Theorem temperature_bands (m : dataStruct) :
  (In TEMP_LOW (map fst (TX.fired m)) <-> c_val m < 20)
  /\ (In TEMP_HIGH (map fst (TX.fired m)) <-> 40 <= c_val m < 100)
  /\ (In TEMP_FIRE (map fst (TX.fired m)) <-> 100 <= c_val m)
  /\ (In TEMP_LOW (map fst (Master.fired m)) <-> c_val m < 20)
  /\ (In TEMP_HIGH (map fst (Master.fired m)) <-> 40 < c_val m)
  /\ (In TEMP_FIRE (map fst (Master.fired m)) <-> 100 < c_val m)
  /\ (humidity_quiet m -> co2_quiet m -> switches_quiet m ->
      TX.classify m =
        (if c_val m <? 20 then (TEMP_LOW, DNG_LOW)
         else if c_val m <? 40 then (ALM_NONE, DNG_NONE)
         else if c_val m <? 100 then (TEMP_HIGH, DNG_HIGH)
         else (TEMP_FIRE, DNG_MAX))
      /\ Master.classify m =
        (if c_val m <? 20 then (TEMP_LOW, DNG_LOW)
         else if c_val m <=? 40 then (ALM_NONE, DNG_NONE)
         else if c_val m <=? 100 then (TEMP_HIGH, DNG_HIGH)
         else (TEMP_FIRE, DNG_MAX)))
  /\ ((fst (TX.classify m) = TEMP_LOW <->
       c_val m < 20
       /\ (0 < co2_val m < 400 \/ 1600 < co2_val m < 1800)
       /\ switches_quiet m)
      /\ (fst (TX.classify m) = TEMP_HIGH <->
          40 <= c_val m < 100
          /\ (co2_val m < 400 \/ 1600 < co2_val m < 1800)
          /\ switches_quiet m)
      /\ (fst (TX.classify m) = TEMP_FIRE <-> 100 <= c_val m))
  /\ ((fst (Master.classify m) = TEMP_LOW <->
       c_val m < 20 /\ 0 < co2_val m < 400 /\ switches_quiet m)
      /\ (fst (Master.classify m) = TEMP_HIGH <->
          40 < c_val m <= 100 /\ co2_val m < 400 /\ switches_quiet m)
      /\ (fst (Master.classify m) = TEMP_FIRE <-> 100 < c_val m))
  /\ (20 <= c_val m < 40 ->
      ~ In (fst (TX.classify m)) [TEMP_LOW; TEMP_HIGH; TEMP_FIRE])
  /\ (20 <= c_val m <= 40 ->
      ~ In (fst (Master.classify m)) [TEMP_LOW; TEMP_HIGH; TEMP_FIRE]).
Proof.
  assert (Htx : (fst (TX.classify m) = TEMP_LOW <->
                 c_val m < 20
                 /\ (0 < co2_val m < 400 \/ 1600 < co2_val m < 1800)
                 /\ switches_quiet m)
                /\ (fst (TX.classify m) = TEMP_HIGH <->
                    40 <= c_val m < 100
                    /\ (co2_val m < 400 \/ 1600 < co2_val m < 1800)
                    /\ switches_quiet m)
                /\ (fst (TX.classify m) = TEMP_FIRE <-> 100 <= c_val m))
    by (split; [| split]; alarm_returned).
  assert (Hma : (fst (Master.classify m) = TEMP_LOW <->
                 c_val m < 20 /\ 0 < co2_val m < 400 /\ switches_quiet m)
                /\ (fst (Master.classify m) = TEMP_HIGH <->
                    40 < c_val m <= 100 /\ co2_val m < 400 /\ switches_quiet m)
                /\ (fst (Master.classify m) = TEMP_FIRE <-> 100 < c_val m))
    by (split; [| split]; alarm_returned).
  split; [| split; [| split; [| split; [| split; [| split; [| split; [| split;
    [| split; [| split]]]]]]]]]; try assumption.
  1-3: rewrite TX_fired_rules, firing_alarm_In; alarm_row.
  1-3: rewrite Master_fired_rules, firing_alarm_In; alarm_row.
  - intros Hh Hc [Hp Ha]. unfold humidity_quiet, co2_quiet in *.
    split; classify_by_table.
  - destruct Htx as (Hl & Hh & Hf).
    intros Hc [E | [E | [E | []]]]; symmetry in E.
    + apply Hl in E. lia.
    + apply Hh in E. lia.
    + apply Hf in E. lia.
  - destruct Hma as (Hl & Hh & Hf).
    intros Hc [E | [E | [E | []]]]; symmetry in E.
    + apply Hl in E. lia.
    + apply Hh in E. lia.
    + apply Hf in E. lia.
Qed.

Lemma temperature_bands_witness :
  let m := reading 50 100 100 0 0 in
  humidity_quiet m /\ co2_quiet m /\ switches_quiet m
  /\ TX.classify m = (TEMP_FIRE, DNG_MAX)
  /\ Master.classify m = (TEMP_HIGH, DNG_HIGH).
Proof.
  cbn zeta.
  assert (Hh : humidity_quiet (reading 50 100 100 0 0)) by (unfold humidity_quiet; cbn; lia).
  assert (Hc : co2_quiet (reading 50 100 100 0 0)) by (unfold co2_quiet; cbn; lia).
  assert (Hs : switches_quiet (reading 50 100 100 0 0)) by (unfold switches_quiet; cbn; lia).
  destruct (temperature_bands (reading 50 100 100 0 0))
    as (_ & _ & _ & _ & _ & _ & Hq & _).
  exact (conj Hh (conj Hc (conj Hs (Hq Hh Hc Hs)))).
Defined.

(** Where the claim fails.  The Master at 40 and at 100 degrees, where the
    claim asks for TEMP_HIGH and for TEMP_FIRE: at 40 it raises nothing, at
    100 it raises TEMP_HIGH and not TEMP_FIRE.  And a reading of 10 degrees
    with the CO2 a node reports (450): TEMP_LOW is raised, and the alarm
    returned is CO2_GOOD in both sketches. *)
Lemma Master_temperature_40_and_100 :
  (40 <= c_val (reading 50 40 100 0 0) < 100
   /\ ~ In TEMP_HIGH (map fst (Master.fired (reading 50 40 100 0 0)))
   /\ Master.classify (reading 50 40 100 0 0) = (ALM_NONE, DNG_NONE))
  /\ (100 <= c_val (reading 50 100 100 0 0)
      /\ ~ In TEMP_FIRE (map fst (Master.fired (reading 50 100 100 0 0)))
      /\ Master.classify (reading 50 100 100 0 0) = (TEMP_HIGH, DNG_HIGH))
  /\ (c_val (reading 50 10 450 0 0) < 20
      /\ TX.classify (reading 50 10 450 0 0) = (CO2_GOOD, DNG_LOW)
      /\ Master.classify (reading 50 10 450 0 0) = (CO2_GOOD, DNG_LOW)).
Proof.
  split; [| split].
  1-2: split; [cbn; lia | split; [| reflexivity]]; cbn; intuition discriminate.
  split; [cbn; lia | split; reflexivity].
Qed.

(** C5. On the TX node CO2_GOOD is raised if and only if
    400 <= co2 <= 1600 and CO2_HIGH if and only if 1800 <= co2 < 3000; on
    the Master CO2_GOOD is raised if and only if 400 <= co2 < 2000 and
    CO2_HIGH if and only if 2000 <= co2 < 3000.  So a reading with
    co2 = 1700 raises neither CO2_GOOD nor CO2_HIGH on the TX node (1700
    lies in the gap between its two bands), and raises CO2_GOOD, and not
    CO2_HIGH, on the Master. *)
Theorem co2_1700 (m : dataStruct) :
  (In CO2_GOOD (map fst (TX.fired m)) <-> 400 <= co2_val m <= 1600)
  /\ (In CO2_HIGH (map fst (TX.fired m)) <-> 1800 <= co2_val m < 3000)
  /\ (In CO2_GOOD (map fst (Master.fired m)) <-> 400 <= co2_val m < 2000)
  /\ (In CO2_HIGH (map fst (Master.fired m)) <-> 2000 <= co2_val m < 3000)
  /\ (co2_val m = 1700 ->
      ~ In CO2_GOOD (map fst (TX.fired m))
      /\ ~ In CO2_HIGH (map fst (TX.fired m))
      /\ In (CO2_GOOD, DNG_NONE) (Master.fired m)
      /\ ~ In CO2_HIGH (map fst (Master.fired m))).
Proof.
  assert (Htg : In CO2_GOOD (map fst (TX.fired m)) <-> 400 <= co2_val m <= 1600)
    by (rewrite TX_fired_rules, firing_alarm_In; alarm_row).
  assert (Hth : In CO2_HIGH (map fst (TX.fired m)) <-> 1800 <= co2_val m < 3000)
    by (rewrite TX_fired_rules, firing_alarm_In; alarm_row).
  assert (Hmg : In CO2_GOOD (map fst (Master.fired m)) <-> 400 <= co2_val m < 2000)
    by (rewrite Master_fired_rules, firing_alarm_In; alarm_row).
  assert (Hmh : In CO2_HIGH (map fst (Master.fired m)) <-> 2000 <= co2_val m < 3000)
    by (rewrite Master_fired_rules, firing_alarm_In; alarm_row).
  split; [exact Htg |]. split; [exact Hth |]. split; [exact Hmg |].
  split; [exact Hmh |].
  intros H1700. split; [| split; [| split]].
  - rewrite Htg. lia.
  - rewrite Hth. lia.
  - rewrite Master_fired_rules. apply firing_In.
    cbn [In Master.rules]. do 6 right. left. f_equal. prove_test.
  - rewrite Hmh. lia.
Qed.

Lemma co2_1700_witness :
  let m := reading 50 25 1700 0 0 in
  co2_val m = 1700
  /\ ~ In CO2_GOOD (map fst (TX.fired m))
  /\ In (CO2_GOOD, DNG_NONE) (Master.fired m).
Proof.
  cbn zeta.
  destruct (co2_1700 (reading 50 25 1700 0 0)) as (_ & _ & _ & _ & H).
  destruct (H eq_refl) as (Hg & _ & Hm & _).
  exact (conj eq_refl (conj Hg Hm)).
Defined.

(** With the other sensors at rest, a reading of 1700 ppm is classified
    (ALM_NONE, DNG_NONE) by the TX node and (CO2_GOOD, DNG_NONE) by the
    Master. *)
Example co2_1700_classified :
  TX.fired (reading 50 25 1700 0 0) = []
  /\ TX.classify (reading 50 25 1700 0 0) = (ALM_NONE, DNG_NONE)
  /\ Master.fired (reading 50 25 1700 0 0) = [(CO2_GOOD, DNG_NONE)]
  /\ Master.classify (reading 50 25 1700 0 0) = (CO2_GOOD, DNG_NONE).
Proof. repeat split; reflexivity. Qed.

(** ** Lemmas on the TX node *)

Lemma identity_parts (s : TX.state) (rn ch : Z) (pw : PA_type) :
  TX.identity s = (rn, ch, pw) ->
  TX.radNum s = rn /\ TX.chNum s = ch /\ TX.pwrNum s = pw.
Proof. unfold TX.identity. intros H. injection H as H1 H2 H3. auto. Qed.

Lemma corrected_radio_number (rn : Z) :
  let rn' := if (rn >? 0) && (rn <? 6) then rn else 1 in
  1 <= rn' <= 5 /\ (1 <= rn <= 5 -> rn' = rn) /\ (rn < 1 \/ 5 < rn -> rn' = 1).
Proof.
  cbn zeta. rewrite Z.gtb_ltb.
  destruct (Z.ltb_spec 0 rn), (Z.ltb_spec rn 6); cbn [andb]; lia.
Qed.

Lemma address_in_table (i : Z) :
  1 <= i <= 5 ->
  exists a, address i = Some a /\ nth_error addresses (Z.to_nat i) = Some a.
Proof.
  intros Hi.
  assert (Hc : i = 1 \/ i = 2 \/ i = 3 \/ i = 4 \/ i = 5) by lia.
  destruct Hc as [-> | [-> | [-> | [-> | ->]]]]; eexists; split; reflexivity.
Qed.

Lemma setupTXRadio_identity (rn mychannel : Z) (pat : PA_type) (s : TX.state) :
  TX.identity (TX.setupTXRadio rn mychannel pat s)
  = (if (rn >? 0) && (rn <? 6) then rn else 1, mychannel, pat).
Proof. destruct pat; reflexivity. Qed.

Lemma setupTXRadio_radio (rn mychannel : Z) (pat : PA_type) (s : TX.state) :
  TX.radio (TX.setupTXRadio rn mychannel pat s)
  = TX.radio s
    ++ setup_calls (if (rn >? 0) && (rn <? 6) then rn else 1) mychannel pat.
Proof.
  destruct pat; unfold TX.setupTXRadio, TX.checkRadioConn, TX.setPowerLevel, setup_calls;
    cbn [TX.radio TX.call TX.set_identity];
    now rewrite <- !app_assoc.
Qed.

Lemma setupTXRadio_messages (rn mychannel : Z) (pat : PA_type) (s : TX.state) :
  TX.SentMessage (TX.setupTXRadio rn mychannel pat s) = TX.SentMessage s
  /\ TX.PongMessage (TX.setupTXRadio rn mychannel pat s) = TX.PongMessage s.
Proof. destruct pat; split; reflexivity. Qed.

(** [pack_sent_msg] makes the message mirror the node, the triage and the
    send sequence keep it so. *)
Lemma pack_sent_msg_mirrored (s : TX.state) : mirrored (TX.pack_sent_msg s).
Proof. repeat split. Qed.

Lemma transmit_response_identity (s : TX.state) :
  TX.identity (TX.transmit_response_to_RX true s) = TX.identity s.
Proof. reflexivity. Qed.

Lemma transmit_response_mirrored (s : TX.state) :
  mirrored (TX.transmit_response_to_RX true s).
Proof. repeat split. Qed.

Lemma transmit_response_radio (s : TX.state) :
  let s' := TX.transmit_response_to_RX true s in
  TX.radio s' = TX.radio s ++ send_calls (TX.SentMessage s')
  /\ chNum (TX.SentMessage s') = TX.chNum s
  /\ radNum (TX.SentMessage s') = TX.radNum s
  /\ pa_cmd (ping (TX.SentMessage s')) = TX.pwrNum s.
Proof.
  cbn zeta. unfold TX.transmit_response_to_RX, TX.send_SentMessage, send_calls.
  cbn -[TX.triage_scan]. now rewrite <- !app_assoc.
Qed.

(** The negotiator calls nothing on the radio but the queries of
    [checkRadioConn]. *)
Lemma get_pong_cmd_RX_radio (s : TX.state) :
  exists checks,
    (checks = [] \/ checks = [r_isChipConnected; r_getChannel; r_printDetails])
    /\ TX.radio (TX.get_pong_cmd_RX s) = TX.radio s ++ checks.
Proof.
  unfold TX.get_pong_cmd_RX.
  destruct (TX.guard (TX.get_pong_cmd s)).
  - unfold TX.dispatch. cbn [TX.myCmd TX.get_pong_cmd].
    destruct (my_cmd (TX.PongMessage s));
      first [ exists [r_isChipConnected; r_getChannel; r_printDetails];
              split; [now right | reflexivity]
            | exists []; split; [now left | symmetry; apply app_nil_r] ].
  - exists []. split; [now left | symmetry; apply app_nil_r].
Qed.

(** A ping that fails the test of [get_pong_cmd_RX] leaves the node with
    what [get_pong_cmd] reloaded from the last packed message. *)
Lemma get_pong_cmd_RX_unmatched (s : TX.state) :
  TX.guard (TX.get_pong_cmd s) = false ->
  TX.identity (TX.get_pong_cmd_RX s)
  = (r_cmd (ping (TX.SentMessage s)), ch_cmd (ping (TX.SentMessage s)),
     pa_cmd (ping (TX.SentMessage s))).
Proof.
  intros Hg. unfold TX.get_pong_cmd_RX. now rewrite Hg.
Qed.

(** The identity a receive leaves: what the negotiator left, with the radio
    number corrected by [setupTXRadio]. *)
Lemma set_flags_identity (i a r : bool) (s : TX.state) :
  TX.identity (TX.set_flags i a r s) = TX.identity s.
Proof. reflexivity. Qed.

Lemma receive_msg_identity (p : pingCmd) (s : TX.state) :
  let s2 := TX.get_pong_cmd_RX
      (TX.set_PongMessage p (TX.call [r_read] (TX.call [r_available] s))) in
  TX.identity (TX.receive_msg (Some p) s)
  = (if (TX.radNum s2 >? 0) && (TX.radNum s2 <? 6) then TX.radNum s2 else 1,
     TX.chNum s2, TX.pwrNum s2).
Proof.
  cbn zeta. unfold TX.receive_msg.
  remember (TX.get_pong_cmd_RX
      (TX.set_PongMessage p (TX.call [r_read] (TX.call [r_available] s)))) as s2.
  remember (TX.setupTXRadio (TX.radNum s2) (TX.chNum s2) (TX.pwrNum s2) s2) as s3.
  cbn [TX.respFlag TX.set_flags].
  rewrite transmit_response_identity, set_flags_identity. subst s3.
  apply setupTXRadio_identity.
Qed.

(** On a node whose last packed message mirrors it, a ping that is not
    addressed to the node changes nothing of its identity. *)
Lemma receive_msg_unaddressed_mirrored (p : pingCmd) (s : TX.state) :
  mirrored s -> 1 <= TX.radNum s <= 5 ->
  addressed_to p s = false ->
  TX.identity (TX.receive_msg (Some p) s) = TX.identity s.
Proof.
  intros (Hch & Hr & Hpa) Hrange Hno.
  rewrite receive_msg_identity. cbn zeta.
  set (s1 := TX.set_PongMessage p (TX.call [r_read] (TX.call [r_available] s))).
  assert (Hg : TX.guard (TX.get_pong_cmd s1) = false).
  { unfold TX.guard, s1. cbn. rewrite Hch, Hr. exact Hno. }
  pose proof (get_pong_cmd_RX_unmatched s1 Hg) as Hid.
  unfold TX.identity in Hid. injection Hid as Hrn Hcn Hpn.
  rewrite Hrn, Hcn, Hpn. unfold s1. cbn.
  rewrite Hch, Hr, Hpa.
  destruct (corrected_radio_number (TX.radNum s)) as (_ & Hin & _).
  cbn zeta in Hin. rewrite (Hin Hrange). reflexivity.
Qed.

(** After every receive the message mirrors the node again and the radio
    number is one of the five transmit numbers. *)
Lemma receive_msg_mirrored (p : pingCmd) (s : TX.state) :
  let s' := TX.receive_msg (Some p) s in
  mirrored s' /\ 1 <= TX.radNum s' <= 5.
Proof.
  cbn zeta. split.
  - unfold TX.receive_msg. apply transmit_response_mirrored.
  - change (TX.radNum (TX.receive_msg (Some p) s))
      with (fst (fst (TX.identity (TX.receive_msg (Some p) s)))).
    rewrite receive_msg_identity. cbn [fst].
    apply corrected_radio_number.
Qed.

Lemma transmissions_of_receive (t0 : tuning) (checks : list radio_op)
    (rn ch : Z) (pw : PA_type) (m : dataStruct) :
  checks = [] \/ checks = [r_isChipConnected; r_getChannel; r_printDetails] ->
  transmissions t0 ([r_available; r_read] ++ checks ++ setup_calls rn ch pw ++ send_calls m)
  = [(mkTuning (Some ch) (Some pw) (address rn), m)].
Proof. intros [-> | ->]; reflexivity. Qed.

Lemma set_flags_radio (i a r : bool) (s : TX.state) :
  TX.radio (TX.set_flags i a r s) = TX.radio s.
Proof. reflexivity. Qed.

Lemma set_PongMessage_radio (p : pingCmd) (s : TX.state) :
  TX.radio (TX.set_PongMessage p s) = TX.radio s.
Proof. reflexivity. Qed.

Lemma call_radio (ops : list radio_op) (s : TX.state) :
  TX.radio (TX.call ops s) = TX.radio s ++ ops.
Proof. reflexivity. Qed.

Lemma receive_msg_unfold (p : pingCmd) (s : TX.state) :
  TX.receive_msg (Some p) s
  = let s2 := TX.get_pong_cmd_RX
      (TX.set_PongMessage p (TX.call [r_read] (TX.call [r_available] s))) in
    let s3 := TX.setupTXRadio (TX.radNum s2) (TX.chNum s2) (TX.pwrNum s2) s2 in
    TX.transmit_response_to_RX true
      (TX.set_flags (TX.intruderFlag s3) (TX.audioFlag s3) true s3).
Proof. reflexivity. Qed.

Lemma receive_msg_radio (p : pingCmd) (s : TX.state) :
  let s' := TX.receive_msg (Some p) s in
  exists checks,
    (checks = [] \/ checks = [r_isChipConnected; r_getChannel; r_printDetails])
    /\ TX.radio s'
       = TX.radio s ++ [r_available; r_read] ++ checks
         ++ setup_calls (TX.radNum s') (TX.chNum s') (TX.pwrNum s')
         ++ send_calls (TX.SentMessage s').
Proof.
  cbn zeta.
  destruct (identity_parts _ _ _ _ (receive_msg_identity p s)) as (Hrn & Hch & Hpw).
  rewrite Hrn, Hch, Hpw. clear Hrn Hch Hpw.
  rewrite receive_msg_unfold. cbn zeta.
  destruct (get_pong_cmd_RX_radio
      (TX.set_PongMessage p (TX.call [r_read] (TX.call [r_available] s))))
    as (checks & Hchecks & Hr2).
  rewrite set_PongMessage_radio, !call_radio in Hr2.
  remember (TX.get_pong_cmd_RX
              (TX.set_PongMessage p (TX.call [r_read] (TX.call [r_available] s))))
    as s2.
  exists checks. split; [exact Hchecks |].
  rewrite (proj1 (transmit_response_radio _)).
  rewrite set_flags_radio, setupTXRadio_radio, Hr2.
  now rewrite <- !app_assoc.
Qed.

(** C10. Whatever radio number [setupTXRadio] is called with, the node's
    radio number afterwards is that number when it is one of 1..5 and 1
    otherwise; so it is always in 1..5, the writing pipe is opened on an
    entry of the six-entry address table, and the channel and power are the
    ones passed. *)
Theorem setupTXRadio_radio_number (rn mychannel : Z) (pat : PA_type) (s : TX.state) :
  let s' := TX.setupTXRadio rn mychannel pat s in
  (1 <= rn <= 5 -> TX.radNum s' = rn)
  /\ (rn < 1 \/ 5 < rn -> TX.radNum s' = 1)
  /\ 1 <= TX.radNum s' <= 5
  /\ List.length addresses = 6%nat
  /\ (exists a, nth_error addresses (Z.to_nat (TX.radNum s')) = Some a
                /\ In (r_openWritingPipe (Some a))
                      (setup_calls (TX.radNum s') mychannel pat))
  /\ TX.radio s' = TX.radio s ++ setup_calls (TX.radNum s') mychannel pat
  /\ TX.chNum s' = mychannel /\ TX.pwrNum s' = pat.
Proof.
  cbn zeta.
  destruct (identity_parts _ _ _ _ (setupTXRadio_identity rn mychannel pat s))
    as (Hrn & Hch & Hpw).
  pose proof (setupTXRadio_radio rn mychannel pat s) as Hradio.
  rewrite <- Hrn in Hradio.
  destruct (corrected_radio_number rn) as (Hrange & Hin & Hout).
  cbn zeta in Hrange, Hin, Hout. rewrite <- Hrn in Hrange, Hin, Hout.
  destruct (address_in_table _ Hrange) as (a & Ha & Hnth).
  repeat split; try assumption; try lia.
  exists a. split; [exact Hnth |].
  unfold setup_calls. rewrite Ha. cbn. auto 6.
Qed.

Lemma setupTXRadio_radio_number_witness :
  (9 < 1 \/ 5 < 9)
  /\ TX.radNum (TX.setupTXRadio 9 81 PA_LOW TX.power_on) = 1
  /\ (1 <= 3 <= 5)
  /\ TX.radNum (TX.setupTXRadio 3 81 PA_LOW TX.power_on) = 3.
Proof.
  assert (H9 : 9 < 1 \/ 5 < 9) by lia.
  assert (H3 : 1 <= 3 <= 5) by lia.
  destruct (setupTXRadio_radio_number 9 81 PA_LOW TX.power_on) as (_ & Hout & _).
  destruct (setupTXRadio_radio_number 3 81 PA_LOW TX.power_on) as (Hin & _).
  exact (conj H9 (conj (Hout H9) (conj H3 (Hin H3)))).
Defined.

(** ** The radio stays tuned to the node *)

Lemma tuning_after_app (a b : list radio_op) (t : tuning) :
  tuning_after (a ++ b) t = tuning_after b (tuning_after a t).
Proof. apply fold_left_app. Qed.

Lemma transmissions_app (a b : list radio_op) (t : tuning) :
  transmissions t (a ++ b)
  = transmissions t a ++ transmissions (tuning_after a t) b.
Proof.
  revert t; induction a as [|op a IH]; intros t; [reflexivity |].
  destruct op; cbn [app transmissions tuning_after fold_left];
    rewrite IH; reflexivity.
Qed.

Lemma tuned_node_extend (s s' : TX.state) (new : list radio_op) :
  TX.radio s' = TX.radio s ++ new ->
  tuned_node s ->
  tuning_after new (mkTuning (Some (TX.chNum s)) (Some (TX.pwrNum s))
                             (address (TX.radNum s)))
  = mkTuning (Some (TX.chNum s')) (Some (TX.pwrNum s')) (address (TX.radNum s')) ->
  Forall sent_well
    (transmissions (mkTuning (Some (TX.chNum s)) (Some (TX.pwrNum s))
                             (address (TX.radNum s))) new) ->
  tuned_node s'.
Proof.
  intros Hradio [Htune Hsent] Hafter Hnew. split.
  - unfold in_tune in *. now rewrite Hradio, tuning_after_app, Htune.
  - rewrite Hradio, transmissions_app. apply Forall_app. split; [exact Hsent |].
    unfold in_tune in Htune. now rewrite Htune.
Qed.

(** Pack, triage and send: one reading, mirroring the node, and no
    retuning. *)
Lemma TX_classify_set_ping (p : pingCmd) (m : dataStruct) :
  TX.classify (set_ping p m) = TX.classify m.
Proof. now rewrite !TX_classify_rules. Qed.

Lemma triage_data_classified (s : TX.state) :
  classified (TX.SentMessage (TX.triage_data s)).
Proof.
  unfold classified.
  rewrite (proj1 (TX_triage_data_effect s)).
  symmetry. apply TX_classify_set_ping.
Qed.

Lemma packed_send (s : TX.state) :
  let s' := TX.send_SentMessage (TX.triage_data (TX.pack_sent_msg s)) in
  TX.radio s' = TX.radio s ++ send_calls (TX.SentMessage s')
  /\ chNum (TX.SentMessage s') = TX.chNum s
  /\ radNum (TX.SentMessage s') = TX.radNum s
  /\ pa_cmd (ping (TX.SentMessage s')) = TX.pwrNum s
  /\ TX.identity s' = TX.identity s
  /\ classified (TX.SentMessage s').
Proof.
  cbn zeta. split; [| split; [| split; [| split; [| split]]]].
  - unfold TX.send_SentMessage, send_calls.
    cbn -[TX.triage_scan]. now rewrite <- !app_assoc.
  - reflexivity.
  - reflexivity.
  - reflexivity.
  - reflexivity.
  - exact (triage_data_classified (TX.pack_sent_msg s)).
Qed.

Lemma tuned_node_sent (s s' : TX.state) (m : dataStruct) :
  TX.radio s' = TX.radio s ++ send_calls m ->
  chNum m = TX.chNum s -> radNum m = TX.radNum s ->
  pa_cmd (ping m) = TX.pwrNum s ->
  TX.identity s' = TX.identity s ->
  classified m ->
  tuned_node s -> tuned_node s'.
Proof.
  intros Hradio Hch Hrn Hpw Hid Hcl Hs.
  apply identity_parts in Hid as (Hrn' & Hch' & Hpw').
  apply (tuned_node_extend s s' (send_calls m) Hradio Hs).
  - rewrite Hrn', Hch', Hpw'. reflexivity.
  - cbn. constructor; [| constructor]. split; [| exact Hcl].
    unfold on_own_tuning. cbn [fst snd]. now rewrite Hch, Hrn, Hpw.
Qed.

Lemma tuned_node_frame (s s' : TX.state) :
  TX.radio s' = TX.radio s -> TX.identity s' = TX.identity s ->
  tuned_node s -> tuned_node s'.
Proof.
  intros Hradio Hid [Htune Hsent].
  apply identity_parts in Hid as (Hrn & Hch & Hpw).
  unfold tuned_node, in_tune in *. rewrite Hradio, Hrn, Hch, Hpw. now split.
Qed.

Lemma packed_send_tuned (s : TX.state) :
  tuned_node s ->
  tuned_node (TX.send_SentMessage (TX.triage_data (TX.pack_sent_msg s))).
Proof.
  intros Hs. destruct (packed_send s) as (Hradio & Hch & Hrn & Hpw & Hid & Hcl).
  exact (tuned_node_sent s _ _ Hradio Hch Hrn Hpw Hid Hcl Hs).
Qed.

(** The same after the channel query of the motion and audio routines. *)
Lemma announced_send (s : TX.state) :
  let s' := TX.send_SentMessage
              (TX.call [r_getChannel] (TX.triage_data (TX.pack_sent_msg s))) in
  TX.radio s' = TX.radio s ++ r_getChannel :: send_calls (TX.SentMessage s')
  /\ chNum (TX.SentMessage s') = TX.chNum s
  /\ radNum (TX.SentMessage s') = TX.radNum s
  /\ pa_cmd (ping (TX.SentMessage s')) = TX.pwrNum s
  /\ TX.identity s' = TX.identity s
  /\ classified (TX.SentMessage s').
Proof.
  cbn zeta. split; [| split; [| split; [| split; [| split]]]].
  - unfold TX.send_SentMessage, send_calls.
    cbn -[TX.triage_scan]. now rewrite <- !app_assoc.
  - reflexivity.
  - reflexivity.
  - reflexivity.
  - reflexivity.
  - exact (triage_data_classified (TX.pack_sent_msg s)).
Qed.

Lemma announced_send_tuned (s : TX.state) :
  tuned_node s ->
  tuned_node (TX.send_SentMessage
                (TX.call [r_getChannel] (TX.triage_data (TX.pack_sent_msg s)))).
Proof.
  intros Hs. destruct (announced_send s) as (Hradio & Hch & Hrn & Hpw & Hid & Hcl).
  cbn zeta in Hradio, Hch, Hrn, Hpw, Hid, Hcl.
  generalize dependent
    (TX.send_SentMessage
       (TX.call [r_getChannel] (TX.triage_data (TX.pack_sent_msg s)))).
  intros s' Hradio Hch Hrn Hpw Hid Hcl.
  apply identity_parts in Hid as (Hrn' & Hch' & Hpw').
  apply (tuned_node_extend s s' _ Hradio Hs).
  - rewrite Hrn', Hch', Hpw'. reflexivity.
  - cbn. constructor; [| constructor]. split; [| exact Hcl].
    unfold on_own_tuning. cbn [fst snd]. now rewrite Hch, Hrn, Hpw.
Qed.

Lemma set_pir_gate_tuned (p g : Z) (s : TX.state) :
  tuned_node s -> tuned_node (TX.set_pir_gate p g s).
Proof. apply tuned_node_frame; reflexivity. Qed.

Lemma set_flags_tuned (i a r : bool) (s : TX.state) :
  tuned_node s -> tuned_node (TX.set_flags i a r s).
Proof. apply tuned_node_frame; reflexivity. Qed.

Lemma set_SentMessage_tuned (m : dataStruct) (s : TX.state) :
  tuned_node s -> tuned_node (TX.set_SentMessage m s).
Proof. apply tuned_node_frame; reflexivity. Qed.

Lemma transmit_pir_state_tuned (pirFlag : bool) (s : TX.state) :
  tuned_node s -> tuned_node (TX.transmit_pir_state pirFlag s).
Proof.
  destruct pirFlag; [| trivial]. intros Hs.
  unfold TX.transmit_pir_state. cbv zeta.
  apply set_SentMessage_tuned, set_flags_tuned, set_pir_gate_tuned,
    announced_send_tuned, set_pir_gate_tuned, Hs.
Qed.

Lemma transmit_audio_gate_tuned (agate : bool) (s : TX.state) :
  tuned_node s -> tuned_node (TX.transmit_audio_gate agate s).
Proof.
  destruct agate; [| trivial]. intros Hs.
  unfold TX.transmit_audio_gate. cbv zeta.
  apply set_SentMessage_tuned, set_flags_tuned, set_pir_gate_tuned,
    announced_send_tuned, set_pir_gate_tuned, Hs.
Qed.

Lemma tuned_node_setup (rn mychannel : Z) (pat : PA_type) (s : TX.state) :
  tuned_node s -> tuned_node (TX.setupTXRadio rn mychannel pat s).
Proof.
  intros Hs.
  destruct (identity_parts _ _ _ _ (setupTXRadio_identity rn mychannel pat s))
    as (Hrn & Hch & Hpw).
  apply (tuned_node_extend s _ _ (setupTXRadio_radio rn mychannel pat s) Hs).
  - rewrite Hrn, Hch, Hpw. reflexivity.
  - constructor.
Qed.

Lemma tuned_node_queries (s : TX.state) :
  tuned_node s -> tuned_node (TX.checkRadioConn s).
Proof.
  intros Hs.
  apply (tuned_node_extend s (TX.checkRadioConn s)
                           [r_isChipConnected; r_getChannel; r_printDetails]
                           eq_refl Hs).
  - reflexivity.
  - constructor.
Qed.

Lemma tuned_node_listen (s : TX.state) :
  tuned_node s -> tuned_node (TX.call [r_startListening] s).
Proof.
  intros Hs.
  apply (tuned_node_extend s (TX.call [r_startListening] s) [r_startListening]
                           eq_refl Hs).
  - reflexivity.
  - constructor.
Qed.

Lemma tuned_node_poll (s : TX.state) :
  tuned_node s -> tuned_node (TX.call [r_available] s).
Proof.
  intros Hs.
  apply (tuned_node_extend s (TX.call [r_available] s) [r_available] eq_refl Hs).
  - reflexivity.
  - constructor.
Qed.

Lemma serialCommOutput_tuned (key : option ascii) (s : TX.state) :
  tuned_node s -> tuned_node (TX.serialCommOutput key s).
Proof.
  intros Hs. destruct key as [c |]; [| exact Hs].
  unfold TX.serialCommOutput. apply tuned_node_listen.
  repeat match goal with
         | |- context [if Ascii.eqb c ?k then _ else _] =>
             destruct (Ascii.eqb c k);
             [ first [ now apply tuned_node_queries | now apply tuned_node_setup ] | ]
         end.
  exact Hs.
Qed.

Lemma receive_msg_reply_fields (p : pingCmd) (s : TX.state) :
  let s' := TX.receive_msg (Some p) s in
  chNum (TX.SentMessage s') = TX.chNum s'
  /\ radNum (TX.SentMessage s') = TX.radNum s'
  /\ pa_cmd (ping (TX.SentMessage s')) = TX.pwrNum s'
  /\ classified (TX.SentMessage s').
Proof.
  cbn zeta. split; [| split; [| split]]; try reflexivity.
  rewrite receive_msg_unfold. cbv zeta.
  unfold TX.transmit_response_to_RX. apply packed_send.
Qed.

Lemma receive_msg_tuned (rx : option pingCmd) (s : TX.state) :
  tuned_node s -> tuned_node (TX.receive_msg rx s).
Proof.
  intros Hs. destruct rx as [p |]; [| now apply tuned_node_poll].
  destruct Hs as [Htune Hsent].
  destruct (receive_msg_radio p s) as (checks & Hchecks & Hradio).
  cbn zeta in Hradio.
  destruct (receive_msg_reply_fields p s) as (Hch & Hrn & Hpw & Hcl).
  split.
  - unfold in_tune. rewrite Hradio, !tuning_after_app.
    destruct Hchecks as [-> | ->]; reflexivity.
  - rewrite Hradio, transmissions_app. apply Forall_app. split; [exact Hsent |].
    rewrite (transmissions_of_receive _ _ _ _ _ _ Hchecks).
    constructor; [| constructor]. split; [| exact Hcl].
    unfold on_own_tuning. cbn [fst snd]. now rewrite Hch, Hrn, Hpw.
Qed.

Lemma loop_tuned (pir_pin_val audio_gate_val : Z) (rx : option pingCmd)
    (key : option ascii) (s : TX.state) :
  tuned_node s -> tuned_node (TX.loop pir_pin_val audio_gate_val rx key s).
Proof.
  intros Hs. unfold TX.loop. cbv zeta.
  apply serialCommOutput_tuned, receive_msg_tuned, transmit_audio_gate_tuned.
  assert (H1 : tuned_node
                 (TX.transmit_pir_state
                    (TX.intruderFlag
                       (if pir_pin_val =? 1
                        then TX.set_flags true (TX.audioFlag s) (TX.respFlag s) s
                        else s))
                    (if pir_pin_val =? 1
                     then TX.set_flags true (TX.audioFlag s) (TX.respFlag s) s
                     else s))).
  { apply transmit_pir_state_tuned.
    destruct (pir_pin_val =? 1); [now apply set_flags_tuned | exact Hs]. }
  destruct (audio_gate_val =? 1); [now apply set_flags_tuned | exact H1].
Qed.

Lemma setup_tuned : tuned_node TX.setup.
Proof.
  split; [reflexivity |].
  assert (H : transmissions untuned (TX.radio TX.setup) = []) by reflexivity.
  rewrite H. constructor.
Qed.

Lemma loops_tuned (inputs : list TX.turn) (s : TX.state) :
  tuned_node s -> tuned_node (TX.loops inputs s).
Proof.
  revert s; induction inputs as [|i inputs IH]; intros s Hs; [exact Hs |].
  apply IH, loop_tuned, Hs.
Qed.

(** The identity the negotiator leaves, from the last packed message and
    the ping alone. *)
Lemma negotiated_identity (s : TX.state) :
  let last := ping (TX.SentMessage s) in
  let p := TX.PongMessage s in
  let hit := (ch_cmd p =? ch_cmd last) && (tar_cmd p =? r_cmd last) in
  TX.identity (TX.get_pong_cmd_RX s)
  = (if hit && TXMore.assigns_radNum (my_cmd p) then r_cmd p else r_cmd last,
     ch_cmd last,
     if hit && TXMore.assigns_pwrNum (my_cmd p) then pa_cmd p else pa_cmd last).
Proof.
  cbn zeta. unfold TX.get_pong_cmd_RX, TX.guard.
  cbn [TX.chCmd TX.chNum TX.tarCmd TX.radNum TX.get_pong_cmd].
  destruct ((ch_cmd (TX.PongMessage s) =? ch_cmd (ping (TX.SentMessage s)))
            && (tar_cmd (TX.PongMessage s) =? r_cmd (ping (TX.SentMessage s))))
    eqn:Hhit; [| reflexivity].
  apply andb_true_iff in Hhit as [Hch _]. apply Z.eqb_eq in Hch.
  unfold TX.dispatch. cbn [TX.myCmd TX.get_pong_cmd].
  destruct (my_cmd (TX.PongMessage s)); cbn; rewrite ?Hch; reflexivity.
Qed.

(** The identity a receive leaves, from the last packed message and the
    ping. *)
Lemma receive_identity_last (p : pingCmd) (s : TX.state) :
  let last := ping (TX.SentMessage s) in
  let hit := (ch_cmd p =? ch_cmd last) && (tar_cmd p =? r_cmd last) in
  let rn := if hit && TXMore.assigns_radNum (my_cmd p) then r_cmd p else r_cmd last in
  let pw := if hit && TXMore.assigns_pwrNum (my_cmd p) then pa_cmd p else pa_cmd last in
  TX.identity (TX.receive_msg (Some p) s)
  = (if (rn >? 0) && (rn <? 6) then rn else 1, ch_cmd last, pw).
Proof.
  cbn zeta. rewrite receive_msg_identity. cbn zeta.
  destruct (identity_parts _ _ _ _
              (negotiated_identity
                 (TX.set_PongMessage p (TX.call [r_read] (TX.call [r_available] s)))))
    as (Hrn & Hch & Hpw).
  rewrite Hrn, Hch, Hpw. reflexivity.
Qed.

(** The calls of a receive: the poll and the read, what the dispatch has
    called, the set-up and the send. *)
Lemma receive_msg_calls (p : pingCmd) (s : TX.state) :
  let s2 := TX.get_pong_cmd_RX
              (TX.set_PongMessage p (TX.call [r_read] (TX.call [r_available] s))) in
  let s' := TX.receive_msg (Some p) s in
  exists checks,
    (checks = [] \/ checks = [r_isChipConnected; r_getChannel; r_printDetails])
    /\ TX.radio s2 = TX.radio s ++ [r_available; r_read] ++ checks
    /\ TX.radio s'
       = TX.radio s2
         ++ setup_calls (TX.radNum s') (TX.chNum s') (TX.pwrNum s')
         ++ send_calls (TX.SentMessage s').
Proof.
  cbn zeta.
  destruct (identity_parts _ _ _ _ (receive_msg_identity p s)) as (Hrn & Hch & Hpw).
  rewrite Hrn, Hch, Hpw. clear Hrn Hch Hpw.
  rewrite receive_msg_unfold. cbn zeta.
  destruct (get_pong_cmd_RX_radio
              (TX.set_PongMessage p (TX.call [r_read] (TX.call [r_available] s))))
    as (checks & Hchecks & Hr2).
  rewrite set_PongMessage_radio, !call_radio in Hr2.
  remember (TX.get_pong_cmd_RX
              (TX.set_PongMessage p (TX.call [r_read] (TX.call [r_available] s))))
    as s2.
  exists checks. split; [exact Hchecks |]. split.
  - rewrite Hr2. now rewrite <- !app_assoc.
  - rewrite (proj1 (transmit_response_radio _)).
    rewrite set_flags_radio, setupTXRadio_radio. now rewrite <- !app_assoc.
Qed.

(** What a command that passes the test of [get_pong_cmd_RX] leaves. *)
Lemma receive_msg_applied (p : pingCmd) (s : TX.state) :
  let s1 := TX.set_PongMessage p (TX.call [r_read] (TX.call [r_available] s)) in
  let s' := TX.receive_msg (Some p) s in
  TX.guard (TX.get_pong_cmd s1) = true ->
  (TXMore.assigns_pwrNum (my_cmd p) = true -> TX.pwrNum s' = pa_cmd p)
  /\ (TXMore.assigns_radNum (my_cmd p) = true -> 1 <= r_cmd p <= 5 ->
      TX.radNum s' = r_cmd p)
  /\ TX.chNum s' = ch_cmd p.
Proof.
  cbn zeta. intros Hg.
  assert (Hhit : (ch_cmd p =? ch_cmd (ping (TX.SentMessage s)))
                 && (tar_cmd p =? r_cmd (ping (TX.SentMessage s))) = true)
    by exact Hg.
  destruct (identity_parts _ _ _ _ (receive_identity_last p s)) as (Hrn & Hch & Hpw).
  cbn zeta in Hrn, Hch, Hpw. rewrite Hhit in Hrn, Hpw. cbn [andb] in Hrn, Hpw.
  split; [| split].
  - intros Ha. now rewrite Hpw, Ha.
  - intros Ha Hr. rewrite Hrn, Ha.
    destruct (corrected_radio_number (r_cmd p)) as (_ & Hin & _).
    exact (Hin Hr).
  - rewrite Hch. apply andb_true_iff in Hhit as [Hc _].
    apply Z.eqb_eq in Hc. now rewrite Hc.
Qed.

(** C8. Every receive of a ping on a TX node calls the radio in this
    order: the poll and the read, at most the queries of [checkRadioConn]
    made by the command dispatch, then the whole set-up sequence ([begin],
    data rate, channel, power level, writing pipe, reading pipe, listen),
    and only then the send sequence of the reply.  The set-up is made with
    the identity the dispatch has left, the radio number corrected into
    1..5, and that is the identity the node has afterwards; so the one
    reading it puts on the air goes out on the channel, power level and
    pipe of that identity, whatever the radio was tuned to before, and
    carries it.  When the ping passes the test of [get_pong_cmd_RX], the
    power the reply goes out on is the ping's for [pa_chg] and [all_chg],
    the radio number is the ping's (when it is one of 1..5) for [rad_chg]
    and [all_chg], and the channel is the ping's.  And over any run of the
    loop from [setup()], whatever the pins, the radio and the console
    bring, the radio ends tuned to the node's identity and every reading
    the node has put on the air went out on the channel, power level and
    pipe it reports. *)
Theorem receive_msg_retunes_before_reply :
  (forall (p : pingCmd) (s : TX.state),
      let s2 := TX.get_pong_cmd_RX
                  (TX.set_PongMessage p
                     (TX.call [r_read] (TX.call [r_available] s))) in
      let s' := TX.receive_msg (Some p) s in
      exists checks,
        (checks = [] \/ checks = [r_isChipConnected; r_getChannel; r_printDetails])
        /\ TX.radio s'
           = TX.radio s ++ [r_available; r_read] ++ checks
             ++ setup_calls (TX.radNum s') (TX.chNum s') (TX.pwrNum s')
             ++ send_calls (TX.SentMessage s')
        /\ (forall t0,
              transmissions t0 ([r_available; r_read] ++ checks
                                ++ setup_calls (TX.radNum s') (TX.chNum s') (TX.pwrNum s')
                                ++ send_calls (TX.SentMessage s'))
              = [(mkTuning (Some (TX.chNum s')) (Some (TX.pwrNum s'))
                           (address (TX.radNum s')),
                  TX.SentMessage s')])
        /\ 1 <= TX.radNum s' <= 5
        /\ chNum (TX.SentMessage s') = TX.chNum s'
        /\ radNum (TX.SentMessage s') = TX.radNum s'
        /\ mirrored s'
        /\ TX.radio s2 = TX.radio s ++ [r_available; r_read] ++ checks
        /\ TX.identity s'
           = (if (TX.radNum s2 >? 0) && (TX.radNum s2 <? 6) then TX.radNum s2 else 1,
              TX.chNum s2, TX.pwrNum s2))
  /\ (forall inputs : list TX.turn,
        let s := TX.loops inputs TX.setup in
        in_tune s
        /\ Forall on_own_tuning (transmissions untuned (TX.radio s)))
  /\ (forall (p : pingCmd) (s : TX.state),
        let s1 := TX.set_PongMessage p
                    (TX.call [r_read] (TX.call [r_available] s)) in
        let s' := TX.receive_msg (Some p) s in
        TX.guard (TX.get_pong_cmd s1) = true ->
        (TXMore.assigns_pwrNum (my_cmd p) = true -> TX.pwrNum s' = pa_cmd p)
        /\ (TXMore.assigns_radNum (my_cmd p) = true -> 1 <= r_cmd p <= 5 ->
            TX.radNum s' = r_cmd p)
        /\ TX.chNum s' = ch_cmd p).
Proof.
  split; [| split].
  - intros p s. cbn zeta.
    destruct (receive_msg_calls p s) as (checks & Hchecks & Hr2 & Hradio).
    cbn zeta in Hr2, Hradio.
    destruct (receive_msg_mirrored p s) as (Hmir & Hrange).
    cbn zeta in Hmir, Hrange.
    destruct (receive_msg_reply_fields p s) as (Hch & Hrn & _ & _).
    exists checks. split; [exact Hchecks |]. split.
    { rewrite Hradio, Hr2. now rewrite <- !app_assoc. }
    split; [intros t0; now apply transmissions_of_receive |].
    split; [exact Hrange |]. split; [exact Hch |]. split; [exact Hrn |].
    split; [exact Hmir |]. split; [exact Hr2 |].
    exact (receive_msg_identity p s).
  - intros inputs. cbn zeta.
    destruct (loops_tuned inputs TX.setup setup_tuned) as [Htune Hsent].
    split; [exact Htune |].
    eapply Forall_impl; [| exact Hsent]. now intros tm [Hown _].
  - intros p s. exact (receive_msg_applied p s).
Qed.

Lemma receive_msg_retunes_before_reply_witness :
  let node5 := TX.loop 1 0 None None TX.setup in
  let p := mkPing pa_chg 81 5 PA_MAX 5 ALM_NONE DNG_NONE in
  TX.guard (TX.get_pong_cmd
              (TX.set_PongMessage p
                 (TX.call [r_read] (TX.call [r_available] node5)))) = true
  /\ TXMore.assigns_pwrNum (my_cmd p) = true
  /\ TX.pwrNum node5 = PA_MIN
  /\ TX.pwrNum (TX.receive_msg (Some p) node5) = PA_MAX.
Proof.
  cbn zeta.
  assert (Hg : TX.guard
                 (TX.get_pong_cmd
                    (TX.set_PongMessage
                       (mkPing pa_chg 81 5 PA_MAX 5 ALM_NONE DNG_NONE)
                       (TX.call [r_read]
                          (TX.call [r_available]
                             (TX.loop 1 0 None None TX.setup))))) = true)
    by (vm_compute; reflexivity).
  assert (Hp : TX.pwrNum (TX.loop 1 0 None None TX.setup) = PA_MIN)
    by (vm_compute; reflexivity).
  refine (conj Hg (conj eq_refl (conj Hp _))).
  exact (proj1 (proj2 (proj2 receive_msg_retunes_before_reply) _ _ Hg) eq_refl).
Defined.

(** A node whose message mirrors it behaves as the specification's example
    has it: the ping for channel 81, target 5 is applied by radio 5 on
    channel 81 and ignored by radio 3.  The first node has sent one motion
    alarm since it was set up; the second was then renumbered by a
    [rad_chg] command. *)
Example negotiator_on_mirrored_nodes :
  let node5 := TX.loop 1 0 None None TX.setup in
  let node3 :=
    TX.receive_msg (Some (mkPing rad_chg 81 3 PA_MIN 5 ALM_NONE DNG_NONE)) node5 in
  let p := mkPing pa_chg 81 5 PA_MAX 5 ALM_NONE DNG_NONE in
  TX.identity node5 = (5, 81, PA_MIN)
  /\ addressed_to p node5 = true
  /\ TX.identity (TX.receive_msg (Some p) node5) = (5, 81, PA_MAX)
  /\ TX.identity node3 = (3, 81, PA_MIN)
  /\ addressed_to p node3 = false
  /\ TX.identity (TX.receive_msg (Some p) node3) = (3, 81, PA_MIN).
Proof. cbn zeta. repeat split; vm_compute; reflexivity. Qed.

(** C7 on the code: the node as [setup()] leaves it is radio 5 on channel
    81; its last packed message is still all zero.  The ping the Master
    sends for its key a (channel 81, target 2) is not addressed to it, yet
    after the receive (the first turn of [loop()] with no motion and no
    sound) the node is radio 1 on channel 0: [get_pong_cmd] has reloaded the
    identity from the zero message and [setupTXRadio] has corrected the
    radio number 0 to 1. *)
Theorem unaddressed_ping_after_setup :
  let p := mkPing nada 81 2 PA_MIN 2 ALM_NONE DNG_NONE in
  TX.identity TX.setup = (5, 81, PA_MIN)
  /\ addressed_to p TX.setup = false
  /\ TX.guard (TX.get_pong_cmd (TX.set_PongMessage p TX.setup)) = false
  /\ TX.identity (TX.receive_msg (Some p) TX.setup) = (1, 0, PA_MIN)
  /\ TX.identity (TX.loop 0 0 (Some p) None TX.setup) = (1, 0, PA_MIN).
Proof. cbn zeta. repeat split; vm_compute; reflexivity. Qed.

(** C3 on the code, on nodes whose last packed message does not mirror
    them.  After [setup()] (radio 5, channel 81) the power command the
    Master sends for its key X (channel 81, target 5) is not applied, and a
    command for channel 0, target 0 is.
    A node renumbered 3 from its console after it last sent as radio 5
    applies the command for target 5, and is radio 5 again. *)
Theorem negotiator_on_unmirrored_nodes :
  let p := mkPing pa_chg 81 5 PA_MAX 5 ALM_NONE DNG_NONE in
  let q := mkPing all_chg 0 2 PA_MAX 0 ALM_NONE DNG_NONE in
  let node3 := TX.loop 0 0 None (Some "3"%char) (TX.loop 1 0 None None TX.setup) in
  (TX.identity TX.setup = (5, 81, PA_MIN)
   /\ addressed_to p TX.setup = true
   /\ TX.identity (TX.receive_msg (Some p) TX.setup) = (1, 0, PA_MIN))
  /\ (addressed_to q TX.setup = false
      /\ TX.identity (TX.receive_msg (Some q) TX.setup) = (2, 0, PA_MAX))
  /\ (TX.identity node3 = (3, 81, PA_MIN)
      /\ addressed_to p node3 = false
      /\ TX.identity (TX.receive_msg (Some p) node3) = (5, 81, PA_MAX)).
Proof. cbn zeta. repeat split; vm_compute; reflexivity. Qed.

(** ** Lemmas on the Master *)

Lemma pings_written_app (xs ys : list radio_op) :
  pings_written (xs ++ ys) = pings_written xs ++ pings_written ys.
Proof.
  induction xs as [|x xs IH]; [reflexivity |].
  destruct x; cbn [app pings_written]; now rewrite IH.
Qed.

Lemma Master_send_ping_cmd_radio (cmd : cmd_type) (ch rn : Z) (pat : PA_type)
    (target : Z) (s : Master.state) :
  Master.radio (Master.send_ping_cmd cmd ch rn pat target s)
  = Master.radio s
    ++ [ r_stopListening; r_openWritingPipe (address 0);
         r_write_ping (mkPing cmd ch rn pat target ALM_NONE DNG_NONE);
         r_startListening ].
Proof.
  unfold Master.send_ping_cmd.
  cbn [Master.radio Master.call Master.set_PingMessage Master.PingMessage].
  now rewrite <- !app_assoc.
Qed.

Lemma Master_setupMasterRadio_pings (mychannel : Z) (pat : PA_type) (s : Master.state) :
  pings_written (Master.radio (Master.setupMasterRadio mychannel pat s))
  = pings_written (Master.radio s).
Proof.
  destruct pat; unfold Master.setupMasterRadio, Master.checkRadioConn,
    Master.setPowerLevel;
    cbn [Master.radio Master.call Master.set_myData];
    rewrite !pings_written_app; cbn [pings_written]; now rewrite !app_nil_r.
Qed.

Lemma Master_triage_msg_radio (s : Master.state) :
  Master.radio (Master.triage_msg s) = Master.radio s.
Proof. reflexivity. Qed.

Lemma Master_receive_rm_radio (radnum : Z) (s : Master.state) :
  Master.radio (Master.receive_rm radnum s) = Master.radio s.
Proof.
  unfold Master.receive_rm, Master.environment_case, Master.security_case.
  repeat match goal with
         | |- context [if ?b then _ else _] => destruct b
         end; reflexivity.
Qed.

Lemma Master_receive_data_pings (rx : option dataStruct) (s : Master.state) :
  pings_written (Master.radio (Master.receive_data rx s))
  = pings_written (Master.radio s).
Proof.
  destruct rx as [m |].
  - unfold Master.receive_data. cbv zeta. rewrite Master_receive_rm_radio.
    cbn [Master.radio Master.parseRcvMsg Master.set_ReceivedMessage Master.call].
    rewrite !pings_written_app. cbn [pings_written]. now rewrite !app_nil_r.
  - unfold Master.receive_data. cbn [Master.radio Master.call].
    rewrite pings_written_app. cbn [pings_written]. now rewrite app_nil_r.
Qed.

Lemma Master_serialCommOutput_pings (key : option ascii) (s : Master.state) :
  exists ps,
    pings_written (Master.radio (Master.serialCommOutput key s))
    = pings_written (Master.radio s) ++ ps
    /\ Forall no_alarm ps.
Proof.
  destruct key as [c |].
  2: { exists []. split; [now rewrite app_nil_r | constructor]. }
  unfold Master.serialCommOutput.
  repeat match goal with
         | |- context [if Ascii.eqb c ?k then _ else _] =>
             destruct (Ascii.eqb c k);
             [ cbn [Master.radio Master.call];
               rewrite pings_written_app, ?Master_send_ping_cmd_radio,
                 ?Master_setupMasterRadio_pings, ?pings_written_app;
               cbn [pings_written Master.checkRadioConn Master.radio Master.call];
               rewrite ?pings_written_app; cbn [pings_written];
               rewrite <- ?app_assoc;
               eexists; split; [reflexivity | cbn [app]; repeat constructor]
             | ]
         end.
  cbn [Master.radio Master.call]. rewrite pings_written_app. cbn [pings_written].
  exists []. split; [reflexivity | constructor].
Qed.

(** C9. Whatever its arguments, [send_ping_cmd] builds and writes exactly
    one ping, made of the five arguments with alarm ALM_NONE and danger
    DNG_NONE; every standalone ping the Master puts on the air in a turn of
    its loop, whatever arrives on the radio and whatever key the operator
    types, has alarm ALM_NONE and danger DNG_NONE; and on the TX side, over
    any run of the loop from [setup()], the alarm and danger members of
    every reading put on the air are the pair the triage returns for that
    reading. *)
Theorem Master_pings_carry_no_alarm :
  (forall (cmd : cmd_type) (ch rn : Z) (pat : PA_type) (target : Z) (s : Master.state),
      let s' := Master.send_ping_cmd cmd ch rn pat target s in
      let sent := mkPing cmd ch rn pat target ALM_NONE DNG_NONE in
      Master.PingMessage s' = sent
      /\ Master.radio s'
         = Master.radio s
           ++ [ r_stopListening; r_openWritingPipe (address 0);
                r_write_ping sent; r_startListening ]
      /\ pings_written (Master.radio s') = pings_written (Master.radio s) ++ [sent]
      /\ alm_cmd (Master.PingMessage s') = ALM_NONE
      /\ dng_cmd (Master.PingMessage s') = DNG_NONE)
  /\ (forall (rx : option dataStruct) (key : option ascii) (s : Master.state),
      exists ps,
        pings_written (Master.radio (Master.loop rx key s))
        = pings_written (Master.radio s) ++ ps
        /\ Forall no_alarm ps)
  /\ (forall inputs : list TX.turn,
      Forall (fun tm => classified (snd tm))
             (transmissions untuned (TX.radio (TX.loops inputs TX.setup)))).
Proof.
  split; [| split].
  - intros cmd ch rn pat target s. cbn zeta.
    pose proof (Master_send_ping_cmd_radio cmd ch rn pat target s) as Hradio.
    repeat split; try reflexivity; try exact Hradio.
    rewrite Hradio, pings_written_app. reflexivity.
  - intros rx key s. unfold Master.loop.
    destruct (Master_serialCommOutput_pings key (Master.receive_data rx s))
      as (ps & Hps & Hnone).
    exists ps. split; [| exact Hnone].
    now rewrite Hps, Master_receive_data_pings.
  - intros inputs.
    destruct (loops_tuned inputs TX.setup setup_tuned) as [_ Hsent].
    eapply Forall_impl; [| exact Hsent]. now intros tm [_ Hcl].
Qed.

(** The operator's key M: a power command for radio 5, with no alarm. *)
Example Master_key_M :
  pings_written (Master.radio (Master.loop None (Some "M"%char) Master.setup))
  = [mkPing pa_chg 81 5 PA_MIN 5 ALM_NONE DNG_NONE].
Proof. vm_compute. reflexivity. Qed.

(** End to end on the Master: a reading from radio 2 with co2 = 500,
    humidity 50 and 25 degrees is classified (CO2_GOOD, DNG_NONE) and runs
    neither the motion nor the audio routine. *)
Example Master_reading_from_radio_2 :
  let m := mkData 81 2 500 50 25 77 0 0
                  (mkPing nada 81 2 PA_MIN 0 ALM_NONE DNG_NONE) in
  let s := Master.receive_data (Some m) Master.setup in
  (Master.alm_msg s, Master.dng_msg s) = (CO2_GOOD, DNG_NONE)
  /\ Master.routines s = [Master.compact_lcd_routine].
Proof. cbn zeta. split; vm_compute; reflexivity. Qed.


(** ** Further properties of the triage *)

Lemma latest_max_upper {A : Type} (val : A -> Z) (none : A) (xs : list A) (m x : A) :
  latest_max val none xs m -> In x xs -> val x <= val m.
Proof.
  destruct xs as [|y ys]; [intros _ [] |].
  intros (l1 & l2 & Hxs & H1 & H2) Hin. rewrite Hxs in Hin.
  apply in_app_or in Hin as [Hin | [<- | Hin]].
  - rewrite Forall_forall in H1. now apply H1.
  - lia.
  - rewrite Forall_forall in H2. specialize (H2 _ Hin). lia.
Qed.

Lemma TX_classify_floor (m : dataStruct) (a : Alarm_type) (d : Dng_level) :
  In (a, d) (TX.fired m) ->
  Alarm_val a <= Alarm_val (fst (TX.classify m))
  /\ Dng_val d <= Dng_val (snd (TX.classify m)).
Proof.
  intros Hin. destruct (TX_classify_latest_max m) as [Ha Hd]. split.
  - apply (latest_max_upper _ _ _ _ a Ha). now apply (in_map fst) in Hin.
  - apply (latest_max_upper _ _ _ _ d Hd). now apply (in_map snd) in Hin.
Qed.

Lemma Master_classify_floor (m : dataStruct) (a : Alarm_type) (d : Dng_level) :
  In (a, d) (Master.fired m) ->
  Alarm_val a <= Alarm_val (fst (Master.classify m))
  /\ Dng_val d <= Dng_val (snd (Master.classify m)).
Proof.
  intros Hin. destruct (Master_classify_latest_max m) as [Ha Hd]. split.
  - apply (latest_max_upper _ _ _ _ a Ha). now apply (in_map fst) in Hin.
  - apply (latest_max_upper _ _ _ _ d Hd). now apply (in_map snd) in Hin.
Qed.

(** A row of a table fires. *)
Ltac row_fires :=
  rewrite ?TX_fired_rules, ?Master_fired_rules; apply firing_In;
  cbn [In TX.rules Master.rules];
  repeat first [ left; f_equal; prove_test | right ].

(** X1. Fire outranks everything: a reading at 100 degrees or more on the
    TX node, above 100 degrees on the Master, is classified (TEMP_FIRE,
    DNG_MAX) whatever the other sensors say. *)
Theorem fire_outranks_everything (m : dataStruct) :
  (100 <= c_val m -> TX.classify m = (TEMP_FIRE, DNG_MAX))
  /\ (100 < c_val m -> Master.classify m = (TEMP_FIRE, DNG_MAX)).
Proof.
  split; intros Hc.
  - assert (Hin : In (TEMP_FIRE, DNG_MAX) (TX.fired m)) by row_fires.
    destruct (TX_classify_floor m _ _ Hin) as [Ha Hd].
    destruct (TX.classify m) as [a d]. cbn [fst snd] in Ha, Hd.
    destruct a; cbn in Ha; try lia. destruct d; cbn in Hd; try lia. reflexivity.
  - assert (Hin : In (TEMP_FIRE, DNG_MAX) (Master.fired m)) by row_fires.
    destruct (Master_classify_floor m _ _ Hin) as [Ha Hd].
    destruct (Master.classify m) as [a d]. cbn [fst snd] in Ha, Hd.
    destruct a; cbn in Ha; try lia. destruct d; cbn in Hd; try lia. reflexivity.
Qed.

Lemma fire_outranks_everything_witness :
  100 <= c_val (reading 5 100 3200 1 1)
  /\ TX.classify (reading 5 100 3200 1 1) = (TEMP_FIRE, DNG_MAX)
  /\ 100 < c_val (reading 5 101 3200 1 1)
  /\ Master.classify (reading 5 101 3200 1 1) = (TEMP_FIRE, DNG_MAX).
Proof.
  assert (H1 : 100 <= c_val (reading 5 100 3200 1 1)) by (cbn; lia).
  assert (H2 : 100 < c_val (reading 5 101 3200 1 1)) by (cbn; lia).
  exact (conj H1 (conj (proj1 (fire_outranks_everything _) H1)
                       (conj H2 (proj2 (fire_outranks_everything _) H2)))).
Defined.

(** X2. Severity floors, in both sketches: a reading with motion is never
    classified below INTRUDER and DNG_HIGH, one with sound never below
    LOUDNOISE and DNG_MED, and one with 3000 ppm of CO2 or more never below
    CO2_DNG and always at DNG_MAX. *)
Theorem severity_floors (m : dataStruct) :
  (pir_state m = 1 ->
     (Alarm_val INTRUDER <= Alarm_val (fst (TX.classify m))
      /\ Dng_val DNG_HIGH <= Dng_val (snd (TX.classify m)))
     /\ (Alarm_val INTRUDER <= Alarm_val (fst (Master.classify m))
         /\ Dng_val DNG_HIGH <= Dng_val (snd (Master.classify m))))
  /\ (audio_gate m = 1 ->
     (Alarm_val LOUDNOISE <= Alarm_val (fst (TX.classify m))
      /\ Dng_val DNG_MED <= Dng_val (snd (TX.classify m)))
     /\ (Alarm_val LOUDNOISE <= Alarm_val (fst (Master.classify m))
         /\ Dng_val DNG_MED <= Dng_val (snd (Master.classify m))))
  /\ (3000 <= co2_val m ->
     (Alarm_val CO2_DNG <= Alarm_val (fst (TX.classify m))
      /\ snd (TX.classify m) = DNG_MAX)
     /\ (Alarm_val CO2_DNG <= Alarm_val (fst (Master.classify m))
         /\ snd (Master.classify m) = DNG_MAX)).
Proof.
  split; [| split]; intros H.
  - split.
    + apply TX_classify_floor. row_fires.
    + apply Master_classify_floor. row_fires.
  - split.
    + apply TX_classify_floor. row_fires.
    + apply Master_classify_floor. row_fires.
  - split.
    + assert (Hin : In (CO2_DNG, DNG_MAX) (TX.fired m)) by row_fires.
      destruct (TX_classify_floor m _ _ Hin) as [Ha Hd]. split; [exact Ha |].
      destruct (snd (TX.classify m)); cbn in Hd; try lia. reflexivity.
    + assert (Hin : In (CO2_DNG, DNG_MAX) (Master.fired m)) by row_fires.
      destruct (Master_classify_floor m _ _ Hin) as [Ha Hd]. split; [exact Ha |].
      destruct (snd (Master.classify m)); cbn in Hd; try lia. reflexivity.
Qed.

Lemma severity_floors_witness :
  pir_state (reading 50 25 100 1 0) = 1
  /\ Dng_val DNG_HIGH <= Dng_val (snd (TX.classify (reading 50 25 100 1 0)))
  /\ 3000 <= co2_val (reading 50 25 3000 0 0)
  /\ snd (Master.classify (reading 50 25 3000 0 0)) = DNG_MAX.
Proof.
  assert (H1 : pir_state (reading 50 25 100 1 0) = 1) by reflexivity.
  assert (H2 : 3000 <= co2_val (reading 50 25 3000 0 0)) by (cbn; lia).
  destruct (severity_floors (reading 50 25 100 1 0)) as (Hp & _ & _).
  destruct (severity_floors (reading 50 25 3000 0 0)) as (_ & _ & Hc).
  exact (conj H1 (conj (proj2 (proj1 (Hp H1)))
                       (conj H2 (proj2 (proj2 (Hc H2)))))).
Defined.

(** Every test of a table decided, one case per combination of bands. *)
Ltac by_bands :=
  rewrite ?TX_classify_rules, ?Master_classify_rules,
    ?TX_fired_rules, ?Master_fired_rules;
  unfold TX.rules, Master.rules, humidity_quiet, temperature_quiet,
    co2_quiet, switches_quiet;
  settle_tests; split_tests.

Lemma firing_nil (rs : list rule) :
  firing rs = [] <-> Forall (fun r : rule => fst r = false) rs.
Proof.
  unfold firing. induction rs as [|[c p] rs IH]; cbn [filter map fst].
  - split; [constructor | reflexivity].
  - destruct c; cbn [map].
    + split; [discriminate | intros H; inversion H; discriminate].
    + rewrite IH. split; [now constructor | intros H; now inversion H].
Qed.

Lemma latest_max_none (xs : list Alarm_type) (a : Alarm_type) :
  latest_max Alarm_val ALM_NONE xs a ->
  Forall (fun x => x <> ALM_NONE) xs ->
  (a = ALM_NONE <-> xs = []).
Proof.
  destruct xs as [|x xs]; cbn [latest_max].
  - intros -> _. split; reflexivity.
  - intros (l1 & l2 & Hxs & _) Hall. split; [| discriminate].
    intros ->. rewrite Hxs in Hall. apply Forall_app in Hall as [_ Hall].
    inversion Hall as [| ? ? Hne _]. now contradiction Hne.
Qed.

Lemma TX_fired_alarms (m : dataStruct) :
  Forall (fun x => x <> ALM_NONE) (map fst (TX.fired m)).
Proof.
  apply Forall_forall. intros a. rewrite TX_fired_rules, firing_alarm_In.
  cbn [map In fst snd TX.rules]. intros H.
  repeat (destruct H as [H | H]); try contradiction H;
    injection H as _ <-; discriminate.
Qed.

Lemma Master_fired_alarms (m : dataStruct) :
  Forall (fun x => x <> ALM_NONE) (map fst (Master.fired m)).
Proof.
  apply Forall_forall. intros a. rewrite Master_fired_rules, firing_alarm_In.
  cbn [map In fst snd Master.rules]. intros H.
  repeat (destruct H as [H | H]); try contradiction H;
    injection H as _ <-; discriminate.
Qed.

(** The tests of a table that do not hold, as propositions. *)
Ltac tests_fail :=
  repeat match goal with
  | H : Forall _ (_ :: _) |- _ => inversion H; subst; clear H
  | H : Forall _ [] |- _ => clear H
  end;
  cbn [fst] in *;
  repeat match goal with
  | H : _ && _ = false |- _ => apply andb_false_iff in H
  | H : (_ <? _) = false |- _ => apply Z.ltb_ge in H
  | H : (_ <=? _) = false |- _ => apply Z.leb_gt in H
  | H : (_ >? _) = false |- _ => rewrite Z.gtb_ltb in H
  | H : (_ >=? _) = false |- _ => rewrite Z.geb_leb in H
  | H : (_ =? _) = false |- _ => apply Z.eqb_neq in H
  end.

Ltac test_fails :=
  apply not_true_iff_false;
  let Ht := fresh "Ht" in intros Ht; tests_to_props; lia.

(** X3. All clear: in either sketch the alarm returned is ALM_NONE exactly
    when no test fires, which on the TX node is when humidity is in 10..84,
    temperature in 20..39, CO2 in 1..399 or in the gap 1601..1799, and
    neither switch is at 1; and on the Master when humidity is in 10..84,
    temperature in 20..40, CO2 in 1..399 and neither switch is at 1. *)
Theorem all_clear (m : dataStruct) :
  (fst (TX.classify m) = ALM_NONE <-> TX.fired m = [])
  /\ (TX.fired m = [] <->
      humidity_quiet m /\ temperature_quiet m
      /\ (0 < co2_val m < 400 \/ 1600 < co2_val m < 1800)
      /\ switches_quiet m)
  /\ (fst (Master.classify m) = ALM_NONE <-> Master.fired m = [])
  /\ (Master.fired m = [] <->
      humidity_quiet m /\ 20 <= c_val m <= 40 /\ co2_quiet m
      /\ switches_quiet m).
Proof.
  unfold humidity_quiet, temperature_quiet, co2_quiet, switches_quiet.
  split; [| split; [| split]].
  - pose proof (latest_max_none _ _ (proj1 (TX_classify_latest_max m))
                                (TX_fired_alarms m)) as H.
    rewrite H. split; intros Hnil.
    + now apply map_eq_nil in Hnil.
    + now rewrite Hnil.
  - rewrite TX_fired_rules, firing_nil. unfold TX.rules. split.
    + intros H. tests_fail. lia.
    + intros H. repeat constructor; cbn [fst]; test_fails.
  - pose proof (latest_max_none _ _ (proj1 (Master_classify_latest_max m))
                                (Master_fired_alarms m)) as H.
    rewrite H. split; intros Hnil.
    + now apply map_eq_nil in Hnil.
    + now rewrite Hnil.
  - rewrite Master_fired_rules, firing_nil. unfold Master.rules. split.
    + intros H. tests_fail. lia.
    + intros H. repeat constructor; cbn [fst]; test_fails.
Qed.

(** X4. The two sketches classify a reading alike unless its temperature
    is exactly 40 or exactly 100, or its CO2 lies in 1601..1999: outside
    those values [triage_data] on the node and [triage_msg] on the Master
    return the same pair. *)
Theorem sketches_agree (m : dataStruct) :
  c_val m <> 40 -> c_val m <> 100 -> ~ (1600 < co2_val m < 2000) ->
  TX.classify m = Master.classify m.
Proof.
  intros H40 H100 Hco2. by_bands; reflexivity.
Qed.

Lemma sketches_agree_witness :
  c_val (reading 90 41 2500 1 1) <> 40
  /\ c_val (reading 90 41 2500 1 1) <> 100
  /\ ~ (1600 < co2_val (reading 90 41 2500 1 1) < 2000)
  /\ TX.classify (reading 90 41 2500 1 1) = Master.classify (reading 90 41 2500 1 1).
Proof.
  assert (H1 : c_val (reading 90 41 2500 1 1) <> 40) by (cbn; lia).
  assert (H2 : c_val (reading 90 41 2500 1 1) <> 100) by (cbn; lia).
  assert (H3 : ~ (1600 < co2_val (reading 90 41 2500 1 1) < 2000)) by (cbn; lia).
  exact (conj H1 (conj H2 (conj H3 (sketches_agree _ H1 H2 H3)))).
Defined.

(** X5. A good CO2 level hides the lesser alarms: with CO2 in the good
    band of a sketch the alarm returned is never below CO2_GOOD, so it is
    never a humidity alarm, TEMP_LOW or TEMP_HIGH; in particular a reading
    between 41 and 99 degrees with CO2 in 400..1600 and both switches at
    rest is classified (CO2_GOOD, DNG_HIGH) by both sketches, whatever the
    humidity. *)
Theorem co2_good_hides_lesser_alarms (m : dataStruct) :
  (400 <= co2_val m <= 1600 ->
     Alarm_val CO2_GOOD <= Alarm_val (fst (TX.classify m)))
  /\ (400 <= co2_val m < 2000 ->
     Alarm_val CO2_GOOD <= Alarm_val (fst (Master.classify m)))
  /\ (400 <= co2_val m <= 1600 -> 40 < c_val m < 100 -> switches_quiet m ->
     TX.classify m = (CO2_GOOD, DNG_HIGH)
     /\ Master.classify m = (CO2_GOOD, DNG_HIGH)).
Proof.
  split; [| split].
  - intros H. apply (TX_classify_floor m CO2_GOOD DNG_NONE). row_fires.
  - intros H. apply (Master_classify_floor m CO2_GOOD DNG_NONE). row_fires.
  - intros Hco2 Hc [Hp Ha]. split; by_bands; reflexivity.
Qed.

Lemma co2_good_hides_lesser_alarms_witness :
  400 <= co2_val (reading 90 50 500 0 0) <= 1600
  /\ 40 < c_val (reading 90 50 500 0 0) < 100
  /\ switches_quiet (reading 90 50 500 0 0)
  /\ TX.classify (reading 90 50 500 0 0) = (CO2_GOOD, DNG_HIGH).
Proof.
  assert (H1 : 400 <= co2_val (reading 90 50 500 0 0) <= 1600) by (cbn; lia).
  assert (H2 : 40 < c_val (reading 90 50 500 0 0) < 100) by (cbn; lia).
  assert (H3 : switches_quiet (reading 90 50 500 0 0))
    by (unfold switches_quiet; cbn; lia).
  destruct (co2_good_hides_lesser_alarms (reading 90 50 500 0 0)) as (_ & _ & H).
  exact (conj H1 (conj H2 (conj H3 (proj1 (H H1 H2 H3))))).
Defined.

(** ** Further properties of the TX node *)

Import TXMore.

(** X6. The identity a receive leaves depends on the last packed message
    and on the ping only, not on the identity the node had: the channel is
    the one of the last packed message whatever the command (no command
    changes it, [chan_chg] and [all_chg] only ever assign the channel they
    were matched on); the radio number is the ping's when the ping matches
    the last packed message and the command is [rad_chg] or [all_chg], the
    last packed one otherwise, in both cases corrected into 1..5; the power
    is the ping's when it matches and the command is [pa_chg] or [all_chg],
    the last packed one otherwise. *)
Theorem receive_msg_identity_from_last_message (p : pingCmd) (s : TX.state) :
  let last := ping (TX.SentMessage s) in
  let hit := (ch_cmd p =? ch_cmd last) && (tar_cmd p =? r_cmd last) in
  let rn := if hit && assigns_radNum (my_cmd p) then r_cmd p else r_cmd last in
  let pw := if hit && assigns_pwrNum (my_cmd p) then pa_cmd p else pa_cmd last in
  TX.identity (TX.receive_msg (Some p) s)
  = (if (rn >? 0) && (rn <? 6) then rn else 1, ch_cmd last, pw).
Proof. cbn zeta. apply receive_identity_last. Qed.

Lemma serialCommOutput_SentMessage (key : option ascii) (s : TX.state) :
  TX.SentMessage (TX.serialCommOutput key s) = TX.SentMessage s.
Proof.
  destruct key as [c |]; [| reflexivity].
  unfold TX.serialCommOutput.
  change (TX.SentMessage (TX.call [r_startListening] ?x)) with (TX.SentMessage x).
  repeat match goal with
         | |- context [if Ascii.eqb c ?k then _ else _] =>
             destruct (Ascii.eqb c k);
             [ first [ reflexivity | apply setupTXRadio_messages ] | ]
         end.
  reflexivity.
Qed.

(** X7. What the operator sets from the node's console does not survive
    the next receive: whatever the key and whatever the ping, the identity
    after the receive is the one the node would have had without the key. *)
Theorem console_retune_lost_on_receive (key : option ascii) (p : pingCmd)
    (s : TX.state) :
  TX.identity (TX.receive_msg (Some p) (TX.serialCommOutput key s))
  = TX.identity (TX.receive_msg (Some p) s).
Proof.
  rewrite !receive_identity_last. cbn zeta.
  now rewrite serialCommOutput_SentMessage.
Qed.

(** X8. On a node whose last packed message mirrors it and whose radio
    number is in 1..5, a receive leaves the channel as it was; when the
    ping is addressed to the node (its channel and target are the node's
    channel and radio number) [rad_chg] and [all_chg] set the radio number
    to the ping's, corrected into 1..5, and [pa_chg] and [all_chg] set the
    power to the ping's; every other ping leaves the identity as it was. *)
Theorem receive_msg_on_mirrored_node (p : pingCmd) (s : TX.state) :
  mirrored s -> 1 <= TX.radNum s <= 5 ->
  TX.identity (TX.receive_msg (Some p) s)
  = if addressed_to p s
    then (let rn := if assigns_radNum (my_cmd p) then r_cmd p else TX.radNum s in
          if (rn >? 0) && (rn <? 6) then rn else 1,
          TX.chNum s,
          if assigns_pwrNum (my_cmd p) then pa_cmd p else TX.pwrNum s)
    else TX.identity s.
Proof.
  intros (Hch & Hr & Hpa) Hrange.
  rewrite receive_identity_last. cbn zeta.
  rewrite Hch, Hr, Hpa. unfold addressed_to.
  destruct (corrected_radio_number (TX.radNum s)) as (_ & Hin & _).
  cbn zeta in Hin. specialize (Hin Hrange).
  destruct ((ch_cmd p =? TX.chNum s) && (tar_cmd p =? TX.radNum s)); cbn [andb].
  - reflexivity.
  - now rewrite Hin.
Qed.

Lemma receive_msg_on_mirrored_node_witness :
  let node5 := TX.loop 1 0 None None TX.setup in
  let p := mkPing all_chg 81 9 PA_MAX 5 ALM_NONE DNG_NONE in
  mirrored node5 /\ 1 <= TX.radNum node5 <= 5
  /\ TX.identity (TX.receive_msg (Some p) node5) = (1, 81, PA_MAX).
Proof.
  cbn zeta.
  assert (Hm : mirrored (TX.loop 1 0 None None TX.setup))
    by (repeat split; vm_compute; reflexivity).
  assert (Hr : 1 <= TX.radNum (TX.loop 1 0 None None TX.setup) <= 5)
    by (vm_compute; split; discriminate).
  refine (conj Hm (conj Hr _)).
  rewrite (receive_msg_on_mirrored_node _ _ Hm Hr). vm_compute. reflexivity.
Defined.

(** The triage reads the five sensor members only. *)
Lemma TX_classify_sensors (m : dataStruct) :
  TX.classify m
  = TX.classify (reading (h_val m) (c_val m) (co2_val m) (pir_state m) (audio_gate m)).
Proof. now rewrite !TX_classify_rules. Qed.

(** The message after [pack_sent_msg] and [triage_data]: the globals, with
    the pair the triage returns for the sensor globals. *)
Lemma packed_message (s : TX.state) :
  let c := TX.classify (reading (TX.hNum s) (TX.tNum s) (TX.co2Num s)
                                (TX.pirNum s) (TX.gateNum s)) in
  TX.SentMessage (TX.triage_data (TX.pack_sent_msg s))
  = mkData (TX.chNum s) (TX.radNum s) (TX.co2Num s) (TX.hNum s) (TX.tNum s)
           (TX.fNum s) (TX.pirNum s) (TX.gateNum s)
           (mkPing (TX.myNum s) (TX.chNum s) (TX.radNum s) (TX.pwrNum s)
                   (TX.tarNum s) (fst c) (snd c)).
Proof.
  cbn zeta.
  pose proof (TX_scan_result (TX.SentMessage (TX.pack_sent_msg s))
                             (TX.almNum (TX.pack_sent_msg s))
                             (TX.dngNum (TX.pack_sent_msg s))) as H.
  cbn zeta in H. rewrite TX_classify_sensors in H.
  change (TX.classify _)
    with (TX.classify (reading (TX.hNum s) (TX.tNum s) (TX.co2Num s)
                               (TX.pirNum s) (TX.gateNum s))) in H.
  rewrite <- H. reflexivity.
Qed.

Lemma ready_message (s : TX.state) (pir gate : Z) (a : Alarm_type) (d : Dng_level) :
  (TX.co2Num s, TX.hNum s, TX.tNum s, TX.fNum s) = (450, 40, 25, 72) ->
  TX.pirNum s = pir -> TX.gateNum s = gate ->
  TX.myNum s = nada -> TX.tarNum s = 0 ->
  TX.classify (reading 40 25 450 pir gate) = (a, d) ->
  TX.SentMessage (TX.triage_data (TX.pack_sent_msg s))
  = report (TX.radNum s) (TX.chNum s) (TX.pwrNum s) pir gate a d.
Proof.
  intros Henv Hpir Hgate Hmy Htar Hc. injection Henv as Hco2 Hh Ht Hf.
  rewrite packed_message. cbn zeta.
  rewrite Hco2, Hh, Ht, Hf, Hpir, Hgate, Hmy, Htar, Hc. reflexivity.
Qed.

(** A steady node, field by field. *)
Ltac open_steady s H :=
  destruct s as [iF aF rF co2N pirN gateN hN tN fN myN radN chN pwrN tarN
                 almN dngN myC radC chC paC tarC almC dngC
                 [smCh smRad smCo2 smH smC smF smPir smGate
                  [smMy smChc smR smPa smTar smAlm smDng]] pong rlog slog];
  unfold steady in H; cbn in H;
  destruct H as ((? & ? & ? & ?) & (? & ?) & (? & ?) & (? & ?) & (? & ?) & ?);
  subst.

Lemma transmit_pir_state_steady (s : TX.state) :
  steady s ->
  let s' := TX.transmit_pir_state true s in
  steady s'
  /\ TX.identity s' = TX.identity s
  /\ TX.SentMessage s' = set_pir_state 0 (motion_report (TX.identity s))
  /\ TX.radio s'
     = TX.radio s ++ r_getChannel :: send_calls (motion_report (TX.identity s)).
Proof.
  intros H. open_steady s H. cbn zeta.
  split; [| split; [| split]].
  - unfold steady. cbn. repeat split; try reflexivity; lia.
  - reflexivity.
  - reflexivity.
  - cbn. now rewrite <- !app_assoc.
Qed.

Lemma transmit_audio_gate_steady (s : TX.state) :
  steady s ->
  let s' := TX.transmit_audio_gate true s in
  steady s'
  /\ TX.identity s' = TX.identity s
  /\ TX.SentMessage s' = set_audio_gate 0 (audio_report (TX.identity s))
  /\ TX.radio s'
     = TX.radio s ++ r_getChannel :: send_calls (audio_report (TX.identity s)).
Proof.
  intros H. open_steady s H. cbn zeta.
  split; [| split; [| split]].
  - unfold steady. cbn. repeat split; try reflexivity; lia.
  - reflexivity.
  - reflexivity.
  - cbn. now rewrite <- !app_assoc.
Qed.

Lemma steady_ready (s : TX.state) :
  steady s <->
  ready s
  /\ my_cmd (ping (TX.SentMessage s)) = nada
  /\ tar_cmd (ping (TX.SentMessage s)) = 0
  /\ 1 <= TX.radNum s <= 5.
Proof.
  unfold steady, ready, surroundings. split.
  - intros ((-> & -> & -> & ->) & (-> & ->) & (-> & ->) & (-> & ->) & (-> & ->) & Hr).
    repeat split; try reflexivity; apply Hr.
  - intros ((Hs & -> & ->) & -> & -> & Hr). injection Hs as -> -> -> -> -> -> -> ->.
    repeat split; try reflexivity; apply Hr.
Qed.

(** What the negotiator, the set-up and the send sequence carry along. *)
Lemma get_pong_cmd_RX_carries (s : TX.state) :
  surroundings (TX.get_pong_cmd_RX s) = surroundings s
  /\ TX.myNum (TX.get_pong_cmd_RX s) = my_cmd (ping (TX.SentMessage s))
  /\ TX.tarNum (TX.get_pong_cmd_RX s) = tar_cmd (ping (TX.SentMessage s)).
Proof.
  unfold TX.get_pong_cmd_RX. destruct (TX.guard (TX.get_pong_cmd s)).
  - unfold TX.dispatch. cbn [TX.myCmd TX.get_pong_cmd].
    destruct (my_cmd (TX.PongMessage s)); repeat split.
  - repeat split.
Qed.

Lemma setupTXRadio_carries (rn mychannel : Z) (pat : PA_type) (s : TX.state) :
  surroundings (TX.setupTXRadio rn mychannel pat s) = surroundings s
  /\ TX.myNum (TX.setupTXRadio rn mychannel pat s) = TX.myNum s
  /\ TX.tarNum (TX.setupTXRadio rn mychannel pat s) = TX.tarNum s.
Proof. destruct pat; repeat split. Qed.

Lemma packed_send_carries (s : TX.state) :
  let s' := TX.send_SentMessage (TX.triage_data (TX.pack_sent_msg s)) in
  surroundings s' = surroundings s
  /\ TX.myNum s' = TX.myNum s /\ TX.tarNum s' = TX.tarNum s
  /\ TX.SentMessage s' = TX.SentMessage (TX.triage_data (TX.pack_sent_msg s)).
Proof. cbn zeta. repeat split. Qed.

(** A ready node packs, classifies and sends the reply report, and is
    steady afterwards. *)
Lemma ready_reply (s : TX.state) :
  ready s -> 1 <= TX.radNum s <= 5 ->
  let s' := TX.send_SentMessage (TX.triage_data (TX.pack_sent_msg s)) in
  steady s'
  /\ TX.identity s' = TX.identity s
  /\ TX.SentMessage s' = reply_report (TX.identity s).
Proof.
  intros (Hs & Hmy & Htar) Hr. cbn zeta.
  destruct (packed_send_carries s) as (Hs' & Hmy' & Htar' & Hsm).
  destruct (packed_send s) as (_ & _ & _ & _ & Hid & _).
  cbn zeta in Hs', Hmy', Htar', Hsm, Hid.
  assert (Hmsg : TX.SentMessage (TX.send_SentMessage (TX.triage_data (TX.pack_sent_msg s)))
                 = reply_report (TX.identity s)).
  { rewrite Hsm. unfold surroundings in Hs. injection Hs as Hco2 Hh Ht Hf Hp Hg _ _.
    apply (ready_message s 0 0 CO2_GOOD DNG_NONE); try assumption; try reflexivity.
    now rewrite Hco2, Hh, Ht, Hf. }
  split; [| split; [exact Hid | exact Hmsg]].
  apply steady_ready. split; [split; [| split] |].
  - now rewrite Hs'.
  - now rewrite Hmy'.
  - now rewrite Htar'.
  - rewrite Hmsg.
    destruct (identity_parts _ _ _ _ Hid) as (Hrn & _ & _). rewrite Hrn.
    repeat split; apply Hr.
Qed.

Lemma negotiated_reply (s2 : TX.state) :
  ready s2 ->
  let s3 := TX.setupTXRadio (TX.radNum s2) (TX.chNum s2) (TX.pwrNum s2) s2 in
  let s' := TX.transmit_response_to_RX true
              (TX.set_flags (TX.intruderFlag s3) (TX.audioFlag s3) true s3) in
  steady s' /\ TX.SentMessage s' = reply_report (TX.identity s').
Proof.
  intros (Hs & Hmy & Htar).
  destruct (setupTXRadio_carries (TX.radNum s2) (TX.chNum s2) (TX.pwrNum s2) s2)
    as (Hs3s & Hs3my & Hs3tar).
  destruct (identity_parts _ _ _ _
              (setupTXRadio_identity (TX.radNum s2) (TX.chNum s2) (TX.pwrNum s2) s2))
    as (Hs3rn & _ & _).
  cbv zeta.
  generalize dependent (TX.setupTXRadio (TX.radNum s2) (TX.chNum s2) (TX.pwrNum s2) s2).
  intros s3 Hs3s Hs3my Hs3tar Hs3rn.
  assert (Hready : ready (TX.set_flags (TX.intruderFlag s3) (TX.audioFlag s3) true s3)).
  { split; [| split].
    - change (surroundings (TX.set_flags (TX.intruderFlag s3) (TX.audioFlag s3) true s3))
        with (surroundings s3).
      rewrite Hs3s. exact Hs.
    - change (TX.myNum s3 = nada). rewrite Hs3my. exact Hmy.
    - change (TX.tarNum s3 = 0). rewrite Hs3tar. exact Htar. }
  assert (Hrange : 1 <= TX.radNum (TX.set_flags (TX.intruderFlag s3)
                                     (TX.audioFlag s3) true s3) <= 5).
  { change (1 <= TX.radNum s3 <= 5). rewrite Hs3rn. apply corrected_radio_number. }
  generalize dependent (TX.set_flags (TX.intruderFlag s3) (TX.audioFlag s3) true s3).
  intros s4 Hready Hrange.
  destruct (ready_reply s4 Hready Hrange) as (Hst & Hid & Hmsg).
  cbn zeta in Hst, Hid, Hmsg. unfold TX.transmit_response_to_RX.
  split; [exact Hst |]. rewrite Hmsg, Hid. reflexivity.
Qed.

Lemma receive_msg_steady (p : pingCmd) (s : TX.state) :
  steady s ->
  let s' := TX.receive_msg (Some p) s in
  steady s' /\ TX.SentMessage s' = reply_report (TX.identity s').
Proof.
  intros H. apply steady_ready in H as ((Hs & _ & _) & Hmy & Htar & _).
  rewrite receive_msg_unfold.
  apply (negotiated_reply
           (TX.get_pong_cmd_RX
               (TX.set_PongMessage p (TX.call [r_read] (TX.call [r_available] s))))).
  destruct (get_pong_cmd_RX_carries
      (TX.set_PongMessage p (TX.call [r_read] (TX.call [r_available] s))))
    as (Hs2s & Hs2my & Hs2tar).
  split; [| split].
  - rewrite Hs2s. exact Hs.
  - rewrite Hs2my. exact Hmy.
  - rewrite Hs2tar. exact Htar.
Qed.

Lemma readings_written_app (xs ys : list radio_op) :
  readings_written (xs ++ ys) = readings_written xs ++ readings_written ys.
Proof.
  induction xs as [|x xs IH]; [reflexivity |].
  destruct x; cbn [app readings_written]; now rewrite IH.
Qed.

Lemma setupTXRadio_steady (rn mychannel : Z) (pat : PA_type) (s : TX.state) :
  steady s -> steady (TX.setupTXRadio rn mychannel pat s).
Proof.
  intros H. apply steady_ready in H as ((Hs & Hmy & Htar) & Hsm & Hst & _).
  destruct (setupTXRadio_carries rn mychannel pat s) as (Hs' & Hmy' & Htar').
  destruct (setupTXRadio_messages rn mychannel pat s) as (Hsm' & _).
  destruct (identity_parts _ _ _ _ (setupTXRadio_identity rn mychannel pat s))
    as (Hrn & _ & _).
  apply steady_ready. rewrite Hsm', Hrn. split; [split; [| split] |].
  - now rewrite Hs'.
  - now rewrite Hmy'.
  - now rewrite Htar'.
  - repeat split; try assumption; apply corrected_radio_number.
Qed.

Lemma setupTXRadio_readings (rn mychannel : Z) (pat : PA_type) (s : TX.state) :
  readings_written (TX.radio (TX.setupTXRadio rn mychannel pat s))
  = readings_written (TX.radio s).
Proof.
  rewrite setupTXRadio_radio, readings_written_app. cbn. now rewrite app_nil_r.
Qed.

Lemma serialCommOutput_steady (key : option ascii) (s : TX.state) :
  steady s ->
  steady (TX.serialCommOutput key s)
  /\ readings_written (TX.radio (TX.serialCommOutput key s))
     = readings_written (TX.radio s).
Proof.
  intros H. destruct key as [c |]; [| now split].
  unfold TX.serialCommOutput.
  assert (Hcall : forall x, steady x ->
            readings_written (TX.radio x) = readings_written (TX.radio s) ->
            steady (TX.call [r_startListening] x)
            /\ readings_written (TX.radio (TX.call [r_startListening] x))
               = readings_written (TX.radio s)).
  { intros x Hx Hrw. split; [exact Hx |].
    cbn [TX.radio TX.call]. rewrite readings_written_app, Hrw. cbn.
    now rewrite app_nil_r. }
  apply Hcall;
    repeat match goal with
           | |- context [if Ascii.eqb c ?k then _ else _] => destruct (Ascii.eqb c k)
           end;
    first [ exact H | reflexivity
          | now apply setupTXRadio_steady | apply setupTXRadio_readings
          | cbn [TX.radio TX.checkRadioConn TX.call];
            rewrite readings_written_app; cbn; now rewrite app_nil_r ].
Qed.

Lemma pir_step_steady (pir_pin_val : Z) (s : TX.state) :
  steady s ->
  let s1 := if pir_pin_val =? 1
            then TX.set_flags true (TX.audioFlag s) (TX.respFlag s) s else s in
  let s2 := TX.transmit_pir_state (TX.intruderFlag s1) s1 in
  steady s2
  /\ TX.identity s2 = TX.identity s
  /\ readings_written (TX.radio s2)
     = readings_written (TX.radio s)
       ++ (if pir_pin_val =? 1 then [motion_report (TX.identity s)] else []).
Proof.
  intros H. cbv zeta. destruct (pir_pin_val =? 1).
  - open_steady s H. split; [| split].
    + unfold steady. cbn. repeat split; try reflexivity; lia.
    + reflexivity.
    + cbn. rewrite !readings_written_app. cbn. now rewrite <- !app_assoc.
  - assert (Hf : TX.intruderFlag s = false) by apply H.
    rewrite Hf. cbn [TX.transmit_pir_state].
    split; [exact H | split; [reflexivity | now rewrite app_nil_r]].
Qed.

Lemma audio_step_steady (audio_gate_val : Z) (s : TX.state) :
  steady s ->
  let s1 := if audio_gate_val =? 1
            then TX.set_flags (TX.intruderFlag s) true (TX.respFlag s) s else s in
  let s2 := TX.transmit_audio_gate (TX.audioFlag s1) s1 in
  steady s2
  /\ TX.identity s2 = TX.identity s
  /\ readings_written (TX.radio s2)
     = readings_written (TX.radio s)
       ++ (if audio_gate_val =? 1 then [audio_report (TX.identity s)] else []).
Proof.
  intros H. cbv zeta. destruct (audio_gate_val =? 1).
  - open_steady s H. split; [| split].
    + unfold steady. cbn. repeat split; try reflexivity; lia.
    + reflexivity.
    + cbn. rewrite !readings_written_app. cbn. now rewrite <- !app_assoc.
  - assert (Hf : TX.audioFlag s = false) by apply H.
    rewrite Hf. cbn [TX.transmit_audio_gate].
    split; [exact H | split; [reflexivity | now rewrite app_nil_r]].
Qed.

Lemma receive_step_steady (rx : option pingCmd) (s : TX.state) :
  steady s ->
  steady (TX.receive_msg rx s)
  /\ readings_written (TX.radio (TX.receive_msg rx s))
     = readings_written (TX.radio s)
       ++ match rx with
          | Some _ => [reply_report (TX.identity (TX.receive_msg rx s))]
          | None => []
          end.
Proof.
  intros H. destruct rx as [p |].
  - destruct (receive_msg_steady p s H) as (Hst & Hmsg). cbn zeta in Hst, Hmsg.
    split; [exact Hst |].
    destruct (receive_msg_radio p s) as (checks & Hchecks & Hradio).
    cbn zeta in Hradio. rewrite Hradio, Hmsg, !readings_written_app.
    destruct Hchecks as [-> | ->]; cbn; reflexivity.
  - split; [exact H |]. cbn [TX.receive_msg TX.radio TX.call].
    now rewrite readings_written_app.
Qed.

Lemma loop_unfold (pir_pin_val audio_gate_val : Z) (rx : option pingCmd)
    (key : option ascii) (s : TX.state) :
  TX.loop pir_pin_val audio_gate_val rx key s
  = let s1 := if pir_pin_val =? 1
              then TX.set_flags true (TX.audioFlag s) (TX.respFlag s) s else s in
    let s2 := TX.transmit_pir_state (TX.intruderFlag s1) s1 in
    let s3 := if audio_gate_val =? 1
              then TX.set_flags (TX.intruderFlag s2) true (TX.respFlag s2) s2 else s2 in
    let s4 := TX.transmit_audio_gate (TX.audioFlag s3) s3 in
    TX.serialCommOutput key (TX.receive_msg rx s4).
Proof. reflexivity. Qed.

(** One turn of the loop on a steady node, and what it sends. *)
Lemma loop_turn_steady (pir_pin_val audio_gate_val : Z)
    (rx : option pingCmd) (key : option ascii) (s : TX.state) :
  steady s ->
  let s' := TX.loop pir_pin_val audio_gate_val rx key s in
  steady s'
  /\ readings_written (TX.radio s')
     = readings_written (TX.radio s)
       ++ (if pir_pin_val =? 1 then [motion_report (TX.identity s)] else [])
       ++ (if audio_gate_val =? 1 then [audio_report (TX.identity s)] else [])
       ++ match rx with
          | Some _ =>
              [reply_report
                 (TX.identity (TX.loop pir_pin_val audio_gate_val rx None s))]
          | None => []
          end.
Proof.
  intros H. cbn zeta. rewrite !loop_unfold. cbv zeta.
  destruct (pir_step_steady pir_pin_val s H) as (H2 & Hid2 & Hrw2).
  cbv zeta in H2, Hid2, Hrw2.
  generalize dependent
    (TX.transmit_pir_state
       (TX.intruderFlag
          (if pir_pin_val =? 1
           then TX.set_flags true (TX.audioFlag s) (TX.respFlag s) s else s))
       (if pir_pin_val =? 1
        then TX.set_flags true (TX.audioFlag s) (TX.respFlag s) s else s)).
  intros s2 H2 Hid2 Hrw2.
  destruct (audio_step_steady audio_gate_val s2 H2) as (H4 & Hid4 & Hrw4).
  cbv zeta in H4, Hid4, Hrw4. rewrite Hid2 in Hrw4.
  generalize dependent
    (TX.transmit_audio_gate
       (TX.audioFlag
          (if audio_gate_val =? 1
           then TX.set_flags (TX.intruderFlag s2) true (TX.respFlag s2) s2 else s2))
       (if audio_gate_val =? 1
        then TX.set_flags (TX.intruderFlag s2) true (TX.respFlag s2) s2 else s2)).
  intros s4 H4 Hid4 Hrw4.
  destruct (receive_step_steady rx s4 H4) as (H5 & Hrw5).
  destruct (serialCommOutput_steady key _ H5) as (H6 & Hrw6).
  split; [exact H6 |].
  rewrite Hrw6, Hrw5, Hrw4, Hrw2. cbn [TX.serialCommOutput].
  now rewrite <- !app_assoc.
Qed.

(** X9. One turn of the loop on a steady node (environmental globals at
    their initial values, switches and flags clear): the node is steady
    again afterwards, and the readings it has put on the air in the turn
    are, in this order, one motion report (pir_state 1, alarm INTRUDER,
    danger DNG_HIGH) if the PIR pin read 1, one audio report (audio_gate 1,
    LOUDNOISE, DNG_MED) if the gate pin read 1, both with the identity the
    node had when the turn began, and one reply (both switches 0,
    CO2_GOOD, DNG_NONE) if a ping was waiting, with the identity the
    receive left; nothing else is sent, whatever the console key. *)
Theorem loop_turn_reports (pir_pin_val audio_gate_val : Z)
    (rx : option pingCmd) (key : option ascii) (s : TX.state) :
  steady s ->
  let s' := TX.loop pir_pin_val audio_gate_val rx key s in
  steady s'
  /\ readings_written (TX.radio s')
     = readings_written (TX.radio s)
       ++ (if pir_pin_val =? 1 then [motion_report (TX.identity s)] else [])
       ++ (if audio_gate_val =? 1 then [audio_report (TX.identity s)] else [])
       ++ match rx with
          | Some _ =>
              [reply_report
                 (TX.identity (TX.loop pir_pin_val audio_gate_val rx None s))]
          | None => []
          end.
Proof. intros H. apply loop_turn_steady, H. Qed.

Lemma setup_steady : steady TX.setup.
Proof. unfold steady. cbn. repeat split; try reflexivity; lia. Qed.

Lemma loop_turn_reports_witness :
  let p := mkPing rad_chg 81 3 PA_MIN 5 ALM_NONE DNG_NONE in
  steady TX.setup
  /\ readings_written (TX.radio (TX.loop 1 1 (Some p) None TX.setup))
     = [ motion_report (5, 81, PA_MIN); audio_report (5, 81, PA_MIN);
         reply_report (3, 81, PA_MIN) ].
Proof.
  cbn zeta. split; [exact setup_steady |].
  rewrite (proj2 (loop_turn_reports 1 1 _ None TX.setup setup_steady)).
  vm_compute. reflexivity.
Defined.

Lemma loops_steady (inputs : list TX.turn) (s : TX.state) :
  steady s -> Forall is_report (readings_written (TX.radio s)) ->
  steady (TX.loops inputs s)
  /\ Forall is_report (readings_written (TX.radio (TX.loops inputs s))).
Proof.
  revert s; induction inputs as [|i inputs IH]; intros s Hs Hall; [now split |].
  cbn [TX.loops fold_left].
  destruct (loop_turn_steady (TX.turn_pir i) (TX.turn_audio i) (TX.turn_rx i)
                              (TX.turn_key i) s Hs) as (Hs' & Hrw).
  destruct (loop_turn_steady (TX.turn_pir i) (TX.turn_audio i) (TX.turn_rx i)
                              None s Hs) as (Hr & _).
  cbn zeta in Hs', Hrw, Hr.
  apply IH; [exact Hs' |]. rewrite Hrw.
  assert (Hrange : 1 <= fst (fst (TX.identity s)) <= 5) by apply Hs.
  assert (Hrange' : 1 <= fst (fst (TX.identity
                       (TX.loop (TX.turn_pir i) (TX.turn_audio i) (TX.turn_rx i)
                                None s))) <= 5) by apply Hr.
  repeat (apply Forall_app; split); try exact Hall.
  - destruct (TX.turn_pir i =? 1); constructor; [| constructor].
    exists (TX.identity s). auto.
  - destruct (TX.turn_audio i =? 1); constructor; [| constructor].
    exists (TX.identity s). auto.
  - destruct (TX.turn_rx i); constructor; [| constructor].
    eexists. split; [exact Hrange' | auto].
Qed.

(** X10. Whatever the pins, the radio and the console bring over any run
    of the loop from [setup()], every reading the node puts on the air is a
    motion report, an audio report or a reply from a radio number in 1..5:
    it carries co2 450, humidity 40, 25 degrees C and 72 degrees F (the
    initial values of the environmental globals, which nothing assigns),
    command [nada] and target 0, the radio number and channel repeated in
    its embedded ping, and the alarm pair (INTRUDER, DNG_HIGH), (LOUDNOISE,
    DNG_MED) or (CO2_GOOD, DNG_NONE). *)
Theorem every_reading_is_a_report (inputs : list TX.turn) :
  steady (TX.loops inputs TX.setup)
  /\ Forall is_report (readings_written (TX.radio (TX.loops inputs TX.setup)))
  /\ Forall (fun m =>
               (co2_val m, h_val m, c_val m, f_val m) = (450, 40, 25, 72)
               /\ my_cmd (ping m) = nada /\ tar_cmd (ping m) = 0
               /\ r_cmd (ping m) = radNum m /\ ch_cmd (ping m) = chNum m
               /\ 1 <= radNum m <= 5
               /\ ((pir_state m, audio_gate m, alm_cmd (ping m), dng_cmd (ping m))
                     = (1, 0, INTRUDER, DNG_HIGH)
                   \/ (pir_state m, audio_gate m, alm_cmd (ping m), dng_cmd (ping m))
                     = (0, 1, LOUDNOISE, DNG_MED)
                   \/ (pir_state m, audio_gate m, alm_cmd (ping m), dng_cmd (ping m))
                     = (0, 0, CO2_GOOD, DNG_NONE)))
            (readings_written (TX.radio (TX.loops inputs TX.setup))).
Proof.
  assert (H0 : Forall is_report (readings_written (TX.radio TX.setup)))
    by (cbn; constructor).
  destruct (loops_steady inputs TX.setup setup_steady H0) as (Hs & Hall).
  split; [exact Hs | split; [exact Hall |]].
  eapply Forall_impl; [| exact Hall].
  intros m ([[rn ch] pw] & Hr & [-> | [-> | ->]]); cbn in Hr |- *;
    repeat split; try apply Hr; auto.
Qed.

(** X11. A [tar_chg] or [response] command leaves no trace: after any
    receive, the command and the target in the node's outgoing message are
    those of the message it had packed before, whatever the ping; the target
    the dispatch copies into the message is overwritten by [pack_sent_msg]
    before the reply is sent. *)
Theorem receive_msg_keeps_command_and_target (p : pingCmd) (s : TX.state) :
  let s' := TX.receive_msg (Some p) s in
  my_cmd (ping (TX.SentMessage s')) = my_cmd (ping (TX.SentMessage s))
  /\ tar_cmd (ping (TX.SentMessage s')) = tar_cmd (ping (TX.SentMessage s))
  /\ TX.myNum s' = my_cmd (ping (TX.SentMessage s))
  /\ TX.tarNum s' = tar_cmd (ping (TX.SentMessage s)).
Proof.
  cbn zeta. rewrite receive_msg_unfold. cbv zeta.
  destruct (get_pong_cmd_RX_carries
      (TX.set_PongMessage p (TX.call [r_read] (TX.call [r_available] s))))
    as (_ & Hmy & Htar).
  change (TX.SentMessage (TX.set_PongMessage p (TX.call [r_read] (TX.call [r_available] s))))
    with (TX.SentMessage s) in Hmy, Htar.
  generalize dependent (TX.get_pong_cmd_RX
      (TX.set_PongMessage p (TX.call [r_read] (TX.call [r_available] s)))).
  intros s2 Hmy Htar.
  destruct (setupTXRadio_carries (TX.radNum s2) (TX.chNum s2) (TX.pwrNum s2) s2)
    as (_ & Hmy3 & Htar3).
  generalize dependent (TX.setupTXRadio (TX.radNum s2) (TX.chNum s2) (TX.pwrNum s2) s2).
  intros s3 Hmy3 Htar3.
  unfold TX.transmit_response_to_RX.
  destruct (packed_send_carries (TX.set_flags (TX.intruderFlag s3) (TX.audioFlag s3) true s3))
    as (_ & Hmy4 & Htar4 & Hsm).
  cbn zeta in Hmy4, Htar4, Hsm.
  rewrite Hsm, packed_message, Hmy4, Htar4. cbn zeta.
  cbn [ping my_cmd tar_cmd TX.myNum TX.tarNum TX.set_flags].
  rewrite Hmy3, Htar3, Hmy, Htar. repeat split.
Qed.

(** ** The log of a TX node *)

Lemma set_SentMessage_radio (m : dataStruct) (s : TX.state) :
  TX.radio (TX.set_SentMessage m s) = TX.radio s.
Proof. reflexivity. Qed.

Lemma set_pir_gate_radio (p g : Z) (s : TX.state) :
  TX.radio (TX.set_pir_gate p g s) = TX.radio s.
Proof. reflexivity. Qed.

Section BlockClosed.
Variable P : list radio_op -> Prop.
Hypothesis HP : block_closed P.

Lemma closed_packed_send (s : TX.state) :
  P (TX.radio s) ->
  P (TX.radio (TX.send_SentMessage (TX.triage_data (TX.pack_sent_msg s)))).
Proof.
  intros H. rewrite (proj1 (packed_send s)). apply HP; [exact H | constructor].
Qed.

Lemma closed_announced_send (s : TX.state) :
  P (TX.radio s) ->
  P (TX.radio (TX.send_SentMessage
                 (TX.call [r_getChannel] (TX.triage_data (TX.pack_sent_msg s))))).
Proof.
  intros H. rewrite (proj1 (announced_send s)).
  change (r_getChannel :: send_calls ?m) with ([r_getChannel] ++ send_calls m).
  rewrite app_assoc. apply HP; [| constructor]. apply HP; [exact H | constructor].
Qed.

Lemma closed_transmit_pir_state (pirFlag : bool) (s : TX.state) :
  P (TX.radio s) -> P (TX.radio (TX.transmit_pir_state pirFlag s)).
Proof.
  destruct pirFlag; [| trivial]. intros H.
  unfold TX.transmit_pir_state. cbv zeta.
  rewrite set_SentMessage_radio, set_flags_radio, set_pir_gate_radio.
  apply closed_announced_send. now rewrite set_pir_gate_radio.
Qed.

Lemma closed_transmit_audio_gate (agate : bool) (s : TX.state) :
  P (TX.radio s) -> P (TX.radio (TX.transmit_audio_gate agate s)).
Proof.
  destruct agate; [| trivial]. intros H.
  unfold TX.transmit_audio_gate. cbv zeta.
  rewrite set_SentMessage_radio, set_flags_radio, set_pir_gate_radio.
  apply closed_announced_send. now rewrite set_pir_gate_radio.
Qed.

Lemma closed_setupTXRadio (rn mychannel : Z) (pat : PA_type) (s : TX.state) :
  P (TX.radio s) -> P (TX.radio (TX.setupTXRadio rn mychannel pat s)).
Proof.
  intros H. rewrite setupTXRadio_radio. apply HP; [exact H |].
  constructor. apply corrected_radio_number.
Qed.

Lemma closed_receive_msg (rx : option pingCmd) (s : TX.state) :
  P (TX.radio s) -> P (TX.radio (TX.receive_msg rx s)).
Proof.
  intros H. destruct rx as [p |].
  2: { apply (HP (TX.radio s) [r_available]); [exact H | constructor]. }
  destruct (receive_msg_radio p s) as (checks & Hchecks & Hradio).
  cbn zeta in Hradio. rewrite Hradio.
  change ([r_available; r_read] ++ ?x) with ([r_available] ++ [r_read] ++ x).
  rewrite !app_assoc.
  apply HP; [| constructor]. apply HP.
  - destruct Hchecks as [-> | ->].
    + rewrite app_nil_r. apply HP; [| constructor].
      apply HP; [exact H | constructor].
    + apply HP; [| constructor]. apply HP; [| constructor].
      apply HP; [exact H | constructor].
  - constructor. apply (receive_msg_mirrored p s).
Qed.

Lemma closed_serialCommOutput (key : option ascii) (s : TX.state) :
  P (TX.radio s) -> P (TX.radio (TX.serialCommOutput key s)).
Proof.
  intros H. destruct key as [c |]; [| exact H].
  unfold TX.serialCommOutput. rewrite call_radio.
  apply HP; [| constructor].
  repeat match goal with
         | |- context [if Ascii.eqb c ?k then _ else _] => destruct (Ascii.eqb c k)
         end;
    first [ exact H | now apply closed_setupTXRadio
          | unfold TX.checkRadioConn; rewrite call_radio;
            apply HP; [exact H | constructor] ].
Qed.

Lemma closed_loop (pir_pin_val audio_gate_val : Z) (rx : option pingCmd)
    (key : option ascii) (s : TX.state) :
  P (TX.radio s) -> P (TX.radio (TX.loop pir_pin_val audio_gate_val rx key s)).
Proof.
  intros H. rewrite loop_unfold. cbv zeta.
  apply closed_serialCommOutput, closed_receive_msg, closed_transmit_audio_gate.
  assert (H2 : P (TX.radio
                    (TX.transmit_pir_state
                       (TX.intruderFlag
                          (if pir_pin_val =? 1
                           then TX.set_flags true (TX.audioFlag s) (TX.respFlag s) s
                           else s))
                       (if pir_pin_val =? 1
                        then TX.set_flags true (TX.audioFlag s) (TX.respFlag s) s
                        else s)))).
  { apply closed_transmit_pir_state. destruct (pir_pin_val =? 1); exact H. }
  destruct (audio_gate_val =? 1); [| exact H2].
  now rewrite set_flags_radio.
Qed.

Lemma closed_loops (inputs : list TX.turn) (s : TX.state) :
  P (TX.radio s) -> P (TX.radio (TX.loops inputs s)).
Proof.
  revert s; induction inputs as [|i inputs IH]; intros s H; [exact H |].
  apply IH, closed_loop, H.
Qed.

End BlockClosed.

Lemma listening_after_app (xs ys : list radio_op) (b : bool) :
  listening_after (xs ++ ys) b = listening_after ys (listening_after xs b).
Proof. apply fold_left_app. Qed.

Lemma written_while_app (xs ys : list radio_op) (b : bool) :
  written_while b (xs ++ ys)
  = written_while b xs ++ written_while (listening_after xs b) ys.
Proof.
  revert b; induction xs as [|x xs IH]; intros b; [reflexivity |].
  destruct x; cbn [app written_while listening_after fold_left listen];
    rewrite IH; reflexivity.
Qed.

Lemma tx_block_polite (blk : list radio_op) : tx_block blk -> polite blk.
Proof. intros []; split; cbn; repeat constructor. Qed.

Lemma half_duplex_polite (ops blk : list radio_op) :
  half_duplex ops -> polite blk -> half_duplex (ops ++ blk).
Proof.
  intros [Hl Hw] [Hl' Hw']. split.
  - now rewrite listening_after_app, Hl.
  - rewrite written_while_app, Hl. apply Forall_app. now split.
Qed.

(** X12. The log of calls a TX node makes on its radio over any run of the
    loop from [setup()] is a concatenation of seven kinds of sequences: the
    full set-up sequence for a radio number in 1..5, the send sequence
    (stop listening, write one reading, reopen the reading pipe, listen),
    the poll [radio.available()] of every turn, a read, the channel query
    the motion and audio routines make before they send, the three queries
    of the connection check, and a lone [startListening].  So the node
    never changes channel, power or pipe outside a full set-up, never
    writes outside a stop/start bracket, and never writes a standalone
    ping. *)
Theorem tx_log_of_any_run (inputs : list TX.turn) :
  tx_log (TX.radio (TX.loops inputs TX.setup))
  /\ pings_written (TX.radio (TX.loops inputs TX.setup)) = [].
Proof.
  split.
  - apply closed_loops.
    + intros ops blk. apply log_app.
    + change (TX.radio TX.setup) with ([] ++ setup_calls 5 81 PA_MIN).
      apply log_app; [constructor |]. constructor. lia.
  - apply (closed_loops (fun ops => pings_written ops = [])).
    + intros ops blk Hops Hblk. rewrite pings_written_app, Hops.
      destruct Hblk; reflexivity.
    + reflexivity.
Qed.

(** X13. Half duplex on the TX node: over any run of the loop from
    [setup()] the radio is listening when the run ends, and every reading
    was written while it was not listening. *)
Theorem tx_half_duplex (inputs : list TX.turn) :
  half_duplex (TX.radio (TX.loops inputs TX.setup)).
Proof.
  apply closed_loops.
  - intros ops blk Hops Hblk. apply half_duplex_polite; [exact Hops |].
    now apply tx_block_polite.
  - split; cbn; repeat constructor.
Qed.

(** ** Further properties of the Master *)

Import MasterMore.

Lemma Master_receive_rm_cases (radnum : Z) (s : Master.state) :
  Master.receive_rm radnum s
  = if (0 <=? radnum) && (radnum <=? 2) then Master.environment_case s
    else if (3 <=? radnum) && (radnum <=? 5) then Master.security_case s
    else s.
Proof.
  unfold Master.receive_rm.
  destruct (Z.eqb_spec radnum 0), (Z.eqb_spec radnum 1), (Z.eqb_spec radnum 2),
    (Z.eqb_spec radnum 3), (Z.eqb_spec radnum 4), (Z.eqb_spec radnum 5);
    subst; try reflexivity; try lia.
  destruct (Z.leb_spec 0 radnum), (Z.leb_spec radnum 2), (Z.leb_spec 3 radnum),
    (Z.leb_spec radnum 5); cbn [andb]; try reflexivity; lia.
Qed.

(** The Master after [parseRcvMsg] on a reading just read. *)
Lemma Master_parsed (m : dataStruct) (s : Master.state) :
  let s1 := Master.parseRcvMsg
      (Master.set_ReceivedMessage m
        (Master.call [r_read] (Master.call [r_available] s))) in
  Master.ReceivedMessage s1 = m
  /\ Master.rad_msg s1 = r_cmd (ping m)
  /\ Master.ch_msg s1 = ch_cmd (ping m)
  /\ Master.pir_msg s1 = pir_state m
  /\ Master.gate_msg s1 = audio_gate m
  /\ (Master.alm_msg s1, Master.dng_msg s1) = (alm_cmd (ping m), dng_cmd (ping m))
  /\ Master.routines s1 = Master.routines s
  /\ Master.serial s1 = Master.serial s.
Proof. cbn zeta. repeat split. Qed.

Lemma Master_triage_msg_frame (s : Master.state) :
  (Master.pir_msg (Master.triage_msg s), Master.gate_msg (Master.triage_msg s))
  = (Master.pir_msg s, Master.gate_msg s)
  /\ Master.rad_msg (Master.triage_msg s) = Master.rad_msg s
  /\ Master.ch_msg (Master.triage_msg s) = Master.ch_msg s
  /\ Master.routines (Master.triage_msg s) = Master.routines s.
Proof. repeat split. Qed.

(** The Master after a received reading, by the radio number of its ping. *)
Lemma Master_receive_data_cases (m : dataStruct) (s : Master.state) :
  let s' := Master.receive_data (Some m) s in
  Master.rad_msg s' = r_cmd (ping m)
  /\ Master.ch_msg s' = ch_cmd (ping m)
  /\ (0 <= r_cmd (ping m) <= 5 ->
      (Master.alm_msg s', Master.dng_msg s') = Master.classify m
      /\ Master.ReceivedMessage s'
         = set_ping (set_alm_dng (fst (Master.classify m)) (snd (Master.classify m))
                                 (ping m)) m
      /\ Master.serial s' = Master.serial s ++ Master.fired m)
  /\ (r_cmd (ping m) < 0 \/ 5 < r_cmd (ping m) ->
      Master.ReceivedMessage s' = m
      /\ (Master.alm_msg s', Master.dng_msg s') = (alm_cmd (ping m), dng_cmd (ping m))
      /\ Master.routines s' = Master.routines s
      /\ Master.serial s' = Master.serial s).
Proof.
  cbn zeta. unfold Master.receive_data. cbv zeta.
  destruct (Master_parsed m s) as (Hm & Hr & Hc & Hsw & _ & Ha & Hrt & Hse).
  cbv zeta in Hm, Hr, Hc, Hsw, Ha, Hrt, Hse.
  generalize dependent
    (Master.parseRcvMsg
        (Master.set_ReceivedMessage m
          (Master.call [r_read] (Master.call [r_available] s)))).
  intros s1 Hm Hr Hc Hsw Ha Hrt Hse.
  rewrite Master_receive_rm_cases, Hr.
  destruct (Master_triage_msg_effect s1) as (Hmsg & Hglob & Hser).
  cbn zeta in Hmsg, Hglob, Hser. rewrite Hm in Hmsg, Hglob, Hser.
  assert (Hrec : Master.ReceivedMessage (Master.triage_msg s1)
                 = set_ping (set_alm_dng (fst (Master.classify m))
                                         (snd (Master.classify m)) (ping m)) m).
  { rewrite <- Hglob, <- Hm. reflexivity. }
  unfold Master.environment_case, Master.security_case. cbv zeta.
  destruct (Z.leb_spec 0 (r_cmd (ping m))), (Z.leb_spec (r_cmd (ping m)) 2),
    (Z.leb_spec 3 (r_cmd (ping m))), (Z.leb_spec (r_cmd (ping m)) 5);
    cbn [andb]; try lia;
    repeat match goal with
           | |- context [if negb ?b then _ else _] => destruct (negb b)
           end;
    (split; [exact Hr | split; [exact Hc | split; intros Hrange; try lia]]);
    first [ split; [exact Hglob | split; [exact Hrec | rewrite <- Hse; exact Hser]]
          | split; [exact Hm | split; [exact Ha | split; [exact Hrt | exact Hse]]] ].
Qed.

(** X14. What the Master makes of a reading it receives.  It dispatches on
    the radio number of the embedded ping, not on the reading's own (in
    [parseRcvMsg] the ping's radio number and channel are assigned last).
    For a number in 0..5 it replaces the alarm pair the node sent by the
    pair of its own triage, in the message and in the globals it displays;
    for any other number it runs nothing: the message and the alarm pair
    stay as received, no routine runs and no alarm line is printed. *)
Theorem Master_receive_data_triage (m : dataStruct) (s : Master.state) :
  let s' := Master.receive_data (Some m) s in
  Master.rad_msg s' = r_cmd (ping m)
  /\ Master.ch_msg s' = ch_cmd (ping m)
  /\ (0 <= r_cmd (ping m) <= 5 ->
      (Master.alm_msg s', Master.dng_msg s') = Master.classify m
      /\ Master.ReceivedMessage s'
         = set_ping (set_alm_dng (fst (Master.classify m)) (snd (Master.classify m))
                                 (ping m)) m
      /\ Master.serial s' = Master.serial s ++ Master.fired m)
  /\ (r_cmd (ping m) < 0 \/ 5 < r_cmd (ping m) ->
      Master.ReceivedMessage s' = m
      /\ (Master.alm_msg s', Master.dng_msg s') = (alm_cmd (ping m), dng_cmd (ping m))
      /\ Master.routines s' = Master.routines s
      /\ Master.serial s' = Master.serial s).
Proof. cbn zeta. apply Master_receive_data_cases. Qed.

Lemma Master_receive_data_triage_witness :
  let m := mkData 81 9 3200 50 25 77 0 0
                  (mkPing nada 81 2 PA_MIN 0 CO2_GOOD DNG_NONE) in
  0 <= r_cmd (ping m) <= 5
  /\ (Master.alm_msg (Master.receive_data (Some m) Master.setup),
      Master.dng_msg (Master.receive_data (Some m) Master.setup))
     = (CO2_DNG, DNG_MAX).
Proof.
  cbn zeta.
  set (m := mkData 81 9 3200 50 25 77 0 0
                   (mkPing nada 81 2 PA_MIN 0 CO2_GOOD DNG_NONE)).
  assert (Hr : 0 <= r_cmd (ping m) <= 5) by (cbn; lia).
  destruct (Master_receive_data_triage m Master.setup) as (_ & _ & Hin & _).
  split; [exact Hr |]. rewrite (proj1 (Hin Hr)). reflexivity.
Defined.

(** The routines a received reading runs. *)
Lemma Master_receive_data_routines (m : dataStruct) (s : Master.state) :
  let r := r_cmd (ping m) in
  Master.routines (Master.receive_data (Some m) s)
  = Master.routines s
    ++ (if (0 <=? r) && (r <=? 5) then [Master.compact_lcd_routine] else [])
    ++ (if (3 <=? r) && (r <=? 5) && negb (pir_state m =? 0)
        then [Master.pir_routine] else [])
    ++ (if (3 <=? r) && (r <=? 5) && negb (audio_gate m =? 0)
        then [Master.audio_routine] else []).
Proof.
  cbn zeta. unfold Master.receive_data. cbv zeta.
  destruct (Master_parsed m s) as (_ & Hr & _ & Hpir & Hgate & _ & Hrt & _).
  cbv zeta in Hr, Hpir, Hgate, Hrt.
  generalize dependent
    (Master.parseRcvMsg
        (Master.set_ReceivedMessage m
          (Master.call [r_read] (Master.call [r_available] s)))).
  intros s1 Hr Hpir Hgate Hrt.
  rewrite Master_receive_rm_cases, Hr.
  unfold Master.environment_case, Master.security_case. cbv zeta.
  change (Master.pir_msg (Master.do_routine Master.compact_lcd_routine (Master.triage_msg s1)))
    with (Master.pir_msg s1).
  rewrite Hpir.
  destruct (Z.leb_spec 0 (r_cmd (ping m))), (Z.leb_spec (r_cmd (ping m)) 2),
    (Z.leb_spec 3 (r_cmd (ping m))), (Z.leb_spec (r_cmd (ping m)) 5);
    cbn [andb]; try lia;
    destruct (negb (pir_state m =? 0));
    cbn [Master.gate_msg Master.do_routine Master.triage_msg];
    rewrite ?Hgate; destruct (negb (audio_gate m =? 0));
    cbn [Master.routines Master.do_routine Master.triage_msg];
    rewrite ?Hrt, <- ?app_assoc, ?app_nil_r; reflexivity.
Qed.

(** X15. The routines a received reading runs on the Master: the display
    routine for a ping radio number in 0..5; after it the motion routine
    when that number is 3, 4 or 5 and the reading's pir_state is not zero,
    then the audio routine when the number is 3, 4 or 5 and audio_gate is
    not zero; readings numbered 0, 1 or 2 never run the motion or audio
    routine, whatever their switches. *)
Theorem Master_routines_of_a_reading (m : dataStruct) (s : Master.state) :
  let r := r_cmd (ping m) in
  Master.routines (Master.receive_data (Some m) s)
  = Master.routines s
    ++ (if (0 <=? r) && (r <=? 5) then [Master.compact_lcd_routine] else [])
    ++ (if (3 <=? r) && (r <=? 5) && negb (pir_state m =? 0)
        then [Master.pir_routine] else [])
    ++ (if (3 <=? r) && (r <=? 5) && negb (audio_gate m =? 0)
        then [Master.audio_routine] else []).
Proof. cbn zeta. apply Master_receive_data_routines. Qed.

Lemma Master_classify_report (rn ch : Z) (pw : PA_type) (pir gate : Z)
    (a : Alarm_type) (d : Dng_level) :
  Master.classify (report rn ch pw pir gate a d)
  = Master.classify (reading 40 25 450 pir gate).
Proof. now rewrite !Master_classify_rules. Qed.

(** X16. End to end: every reading a TX node puts on the air over any run
    of its loop from [setup()], arriving as it was written, is triaged and
    displayed by the Master, in whatever state the Master is; the Master's
    own triage returns the pair the node sent, so the message is stored as
    received; and the motion and audio routines run only for nodes numbered
    3, 4 or 5. *)
Theorem node_readings_on_the_Master (inputs : list TX.turn) (m : dataStruct)
    (s : Master.state) :
  In m (readings_written (TX.radio (TX.loops inputs TX.setup))) ->
  let s' := Master.receive_data (Some m) s in
  (Master.alm_msg s', Master.dng_msg s') = (alm_cmd (ping m), dng_cmd (ping m))
  /\ Master.ReceivedMessage s' = m
  /\ Master.routines s'
     = Master.routines s ++ [Master.compact_lcd_routine]
       ++ (if (3 <=? radNum m) && negb (pir_state m =? 0)
           then [Master.pir_routine] else [])
       ++ (if (3 <=? radNum m) && negb (audio_gate m =? 0)
           then [Master.audio_routine] else []).
Proof.
  intros Hin. cbn zeta.
  assert (H0 : Forall is_report (readings_written (TX.radio TX.setup)))
    by (cbn; constructor).
  destruct (loops_steady inputs TX.setup setup_steady H0) as (_ & Hall).
  rewrite Forall_forall in Hall.
  destruct (Hall m Hin) as ([[rn ch] pw] & Hr & Hm). cbn [fst] in Hr.
  destruct (Master_receive_data_cases m s) as (_ & _ & Htri & _).
  pose proof (Master_receive_data_routines m s) as Hrt.
  cbn zeta in Htri, Hrt.
  assert (Hrm : r_cmd (ping m) = rn /\ radNum m = rn)
    by (destruct Hm as [-> | [-> | ->]]; split; reflexivity).
  destruct Hrm as [Hrc Hrn].
  assert (Hrange : 0 <= r_cmd (ping m) <= 5) by lia.
  destruct (Htri Hrange) as (Hglob & Hrec & _).
  assert (Hc : Master.classify m = (alm_cmd (ping m), dng_cmd (ping m))).
  { destruct Hm as [-> | [-> | ->]]; unfold motion_report, audio_report, reply_report;
      rewrite Master_classify_report; reflexivity. }
  rewrite Hglob, Hrec, Hrt, Hc, Hrc, Hrn. cbn [fst snd].
  split; [reflexivity | split].
  - destruct m as [? ? ? ? ? ? ? ? []]. reflexivity.
  - assert (H05 : (0 <=? rn) && (rn <=? 5) = true)
      by (apply andb_true_iff; split; apply Z.leb_le; lia).
    assert (H5 : (rn <=? 5) = true) by (apply Z.leb_le; lia).
    rewrite H05, H5, andb_true_r. reflexivity.
Qed.

Lemma node_readings_on_the_Master_witness :
  let m := motion_report (5, 81, PA_MIN) in
  In m (readings_written
          (TX.radio (TX.loops [TX.mkTurn 1 0 None None] TX.setup)))
  /\ Master.routines (Master.receive_data (Some m) Master.setup)
     = [Master.compact_lcd_routine; Master.pir_routine].
Proof.
  cbn zeta.
  assert (Hin : In (motion_report (5, 81, PA_MIN))
                  (readings_written
                     (TX.radio (TX.loops [TX.mkTurn 1 0 None None] TX.setup))))
    by (vm_compute; left; reflexivity).
  split; [exact Hin |].
  destruct (node_readings_on_the_Master _ _ Master.setup Hin) as (_ & _ & Hrt).
  cbn zeta in Hrt. rewrite Hrt. reflexivity.
Defined.

Lemma Master_setupMasterRadio_radio (mychannel : Z) (pat : PA_type) (s : Master.state) :
  Master.radio (Master.setupMasterRadio mychannel pat s)
  = Master.radio s
    ++ [ r_begin; r_setDataRate_250KBPS; r_setPALevel pat; r_setChannel mychannel;
         r_openWritingPipe (address 0);
         r_openReadingPipe 1 (address 1); r_openReadingPipe 2 (address 2);
         r_openReadingPipe 3 (address 3); r_openReadingPipe 4 (address 4);
         r_openReadingPipe 5 (address 5);
         r_startListening; r_isChipConnected; r_getChannel; r_printDetails ].
Proof.
  destruct pat; unfold Master.setupMasterRadio, Master.checkRadioConn,
    Master.setPowerLevel;
    cbn [Master.radio Master.call Master.set_myData];
    now rewrite <- !app_assoc.
Qed.

(** X17. The two sketches are paired pipe by pipe.  [setupMasterRadio]
    opens reading pipes 1 to 5 on the table's entries 1 to 5 and its
    writing pipe on entry 0, every lookup inside the table and no address
    used twice; over any run of its loop a TX node's writing pipe is the
    address the Master reads on the pipe of the node's radio number; and
    every ping the Master sends goes out on entry 0, the address every TX
    set-up and send sequence opens for reading. *)
Theorem sketches_paired_by_pipe :
  (forall (mychannel : Z) (pat : PA_type) (s : Master.state),
      let s' := Master.setupMasterRadio mychannel pat s in
      pipes_opened (Master.radio s')
      = pipes_opened (Master.radio s)
        ++ [ (1, Some "2Node"%string); (2, Some "3Node"%string);
             (3, Some "4Node"%string); (4, Some "5Node"%string);
             (5, Some "6Node"%string) ]
      /\ tuned_pipe (tuning_after (Master.radio s') untuned) = Some "1Node"%string
      /\ radNum (Master.myData s') = 0 /\ chNum (Master.myData s') = mychannel)
  /\ NoDup addresses
  /\ (forall inputs : list TX.turn,
      let s := TX.loops inputs TX.setup in
      In (TX.radNum s, tuned_pipe (tuning_after (TX.radio s) untuned))
         (pipes_opened (Master.radio Master.setup)))
  /\ (forall (cmd : cmd_type) (ch rn : Z) (pat : PA_type) (target : Z)
             (s : Master.state) (t0 : tuning) (rn' ch' : Z) (pat' : PA_type)
             (m : dataStruct),
      tuned_pipe (tuning_after
                    (Master.radio (Master.send_ping_cmd cmd ch rn pat target s)) t0)
      = address 0
      /\ In (1, address 0) (pipes_opened (setup_calls rn' ch' pat'))
      /\ In (1, address 0) (pipes_opened (send_calls m))).
Proof.
  split; [| split; [| split]].
  - intros mychannel pat s. cbn zeta.
    rewrite Master_setupMasterRadio_radio. split; [| split; [| split]].
    + clear. induction (Master.radio s) as [|op ops IH]; [reflexivity |].
      destruct op; cbn [app pipes_opened] in *; now rewrite IH.
    + unfold tuning_after. rewrite fold_left_app. reflexivity.
    + destruct pat; reflexivity.
    + destruct pat; reflexivity.
  - unfold addresses. repeat constructor; cbn; intuition discriminate.
  - intros inputs. cbn zeta.
    destruct (loops_tuned inputs TX.setup setup_tuned) as [Htune _].
    unfold in_tune in Htune. rewrite Htune. cbn [tuned_pipe].
    assert (Hr : 1 <= TX.radNum (TX.loops inputs TX.setup) <= 5).
    { assert (H0 : Forall is_report (readings_written (TX.radio TX.setup)))
        by (cbn; constructor).
      apply (loops_steady inputs TX.setup setup_steady H0). }
    assert (Hc : TX.radNum (TX.loops inputs TX.setup) = 1
                 \/ TX.radNum (TX.loops inputs TX.setup) = 2
                 \/ TX.radNum (TX.loops inputs TX.setup) = 3
                 \/ TX.radNum (TX.loops inputs TX.setup) = 4
                 \/ TX.radNum (TX.loops inputs TX.setup) = 5) by lia.
    destruct Hc as [-> | [-> | [-> | [-> | ->]]]]; cbn; auto 6.
  - intros cmd ch rn pat target s t0 rn' ch' pat' m.
    rewrite Master_send_ping_cmd_radio. split; [| split].
    + unfold tuning_after. rewrite fold_left_app. reflexivity.
    + cbn. auto.
    + cbn. auto.
Qed.

(** ** Half duplex on the Master *)

Lemma Master_serialCommOutput_delta (key : option ascii) (s : Master.state) :
  exists delta,
    Master.radio (Master.serialCommOutput key s) = Master.radio s ++ delta
    /\ polite delta /\ readings_written delta = [].
Proof.
  destruct key as [c |].
  2: { exists []. split; [now rewrite app_nil_r |].
       split; [split; [reflexivity | constructor] | reflexivity]. }
  unfold Master.serialCommOutput.
  repeat match goal with
         | |- context [if Ascii.eqb c ?k then _ else _] =>
             destruct (Ascii.eqb c k);
             [ cbn [Master.radio Master.call Master.checkRadioConn];
               rewrite ?Master_send_ping_cmd_radio, ?Master_setupMasterRadio_radio,
                 <- ?app_assoc;
               eexists; split; [reflexivity |];
               split; [split; cbn; repeat constructor | reflexivity]
             | ]
         end.
  cbn [Master.radio Master.call].
  eexists; split; [reflexivity |].
  split; [split; cbn; repeat constructor | reflexivity].
Qed.

Lemma Master_receive_data_delta (rx : option dataStruct) (s : Master.state) :
  exists delta,
    Master.radio (Master.receive_data rx s) = Master.radio s ++ delta
    /\ polite delta /\ readings_written delta = [].
Proof.
  destruct rx as [m |].
  - exists [r_available; r_read]. unfold Master.receive_data. cbv zeta.
    rewrite Master_receive_rm_radio.
    cbn [Master.radio Master.parseRcvMsg Master.set_ReceivedMessage Master.call].
    rewrite <- app_assoc.
    split; [reflexivity | split; [split; cbn; repeat constructor | reflexivity]].
  - exists [r_available].
    split; [reflexivity | split; [split; cbn; repeat constructor | reflexivity]].
Qed.

Lemma Master_loop_discipline (rx : option dataStruct) (key : option ascii)
    (s : Master.state) :
  half_duplex (Master.radio s) /\ readings_written (Master.radio s) = [] ->
  half_duplex (Master.radio (Master.loop rx key s))
  /\ readings_written (Master.radio (Master.loop rx key s)) = [].
Proof.
  intros [Hh Hr]. unfold Master.loop.
  destruct (Master_receive_data_delta rx s) as (d1 & Hd1 & Hp1 & Hr1).
  destruct (Master_serialCommOutput_delta key (Master.receive_data rx s))
    as (d2 & Hd2 & Hp2 & Hr2).
  rewrite Hd2, Hd1. split.
  - apply half_duplex_polite; [| exact Hp2]. now apply half_duplex_polite.
  - now rewrite !readings_written_app, Hr, Hr1, Hr2.
Qed.

(** X18. Half duplex on the Master: over any run of its loop from
    [setup()], whatever readings arrive and whatever keys the operator
    types, the radio is listening when the run ends, every ping was
    written while it was not listening, and the Master never writes a
    reading. *)
Theorem Master_half_duplex (inputs : list MasterMore.turn) :
  half_duplex (Master.radio (MasterMore.loops inputs Master.setup))
  /\ readings_written (Master.radio (MasterMore.loops inputs Master.setup)) = [].
Proof.
  assert (H0 : half_duplex (Master.radio Master.setup)
               /\ readings_written (Master.radio Master.setup) = [])
    by (split; [split; cbn; repeat constructor | reflexivity]).
  revert H0. generalize Master.setup.
  induction inputs as [|i inputs IH]; intros s H; [exact H |].
  apply IH, Master_loop_discipline, H.
Qed.

(** X19. [alm_routine] against the triage table: it always leaves alm_msg
    at the alarm it is given; for the alarms the table pairs with DNG_NONE
    it leaves dng_msg as it was, and for every other alarm of the table it
    sets dng_msg to the danger the table pairs with that alarm, except for
    TEMP_LOW, which the table pairs with DNG_LOW and [alm_routine] sets to
    DNG_MED.  [dng_routine] leaves dng_msg at the level it is given. *)
Theorem alm_routine_against_the_table (m : dataStruct) (s : Master.state) :
  (forall a, Master.alm_msg (alm_routine a s) = a)
  /\ (forall dl, Master.dng_msg (dng_routine dl s) = dl
                 /\ Master.alm_msg (dng_routine dl s) = Master.alm_msg s)
  /\ Master.dng_msg (alm_routine ALM_NONE s) = Master.dng_msg s
  /\ (forall c a d, In (c, (a, d)) (Master.rules m) ->
        Master.dng_msg (alm_routine a s)
        = match d with
          | DNG_NONE => Master.dng_msg s
          | _ => match a with TEMP_LOW => DNG_MED | _ => d end
          end).
Proof.
  split; [| split; [| split]].
  - intros []; reflexivity.
  - intros []; split; reflexivity.
  - reflexivity.
  - intros c a d Hin. cbn [In Master.rules] in Hin.
    repeat (destruct Hin as [Hin | Hin]); try contradiction Hin;
      injection Hin as _ <- <-; reflexivity.
Qed.

Lemma alm_routine_against_the_table_witness :
  let m := reading 50 10 500 0 0 in
  In (true, (TEMP_LOW, DNG_LOW)) (Master.rules m)
  /\ Master.dng_msg (alm_routine TEMP_LOW Master.setup) = DNG_MED.
Proof.
  cbn zeta.
  assert (Hin : In (true, (TEMP_LOW, DNG_LOW)) (Master.rules (reading 50 10 500 0 0)))
    by (vm_compute; repeat first [ left; reflexivity | right ]).
  split; [exact Hin |].
  destruct (alm_routine_against_the_table (reading 50 10 500 0 0) Master.setup)
    as (_ & _ & _ & H).
  exact (H _ _ _ Hin).
Defined.

(** ** The response flag *)

Lemma get_pong_cmd_RX_respFlag (s : TX.state) :
  TX.respFlag (TX.get_pong_cmd_RX s) = TX.respFlag s.
Proof.
  unfold TX.get_pong_cmd_RX. destruct (TX.guard (TX.get_pong_cmd s)).
  - unfold TX.dispatch. cbn [TX.myCmd TX.get_pong_cmd].
    destruct (my_cmd (TX.PongMessage s)); reflexivity.
  - reflexivity.
Qed.

Lemma setupTXRadio_respFlag (rn mychannel : Z) (pat : PA_type) (s : TX.state) :
  TX.respFlag (TX.setupTXRadio rn mychannel pat s) = TX.respFlag s.
Proof. destruct pat; reflexivity. Qed.

Lemma receive_msg_respFlag (rx : option pingCmd) (s : TX.state) :
  TX.respFlag (TX.receive_msg rx s)
  = match rx with Some _ => true | None => TX.respFlag s end.
Proof. destruct rx; reflexivity. Qed.

Lemma serialCommOutput_respFlag (key : option ascii) (s : TX.state) :
  TX.respFlag (TX.serialCommOutput key s) = TX.respFlag s.
Proof.
  destruct key as [c |]; [| reflexivity].
  unfold TX.serialCommOutput.
  change (forall x, TX.respFlag (TX.call [r_startListening] x) = TX.respFlag x)
    with (forall x : TX.state, TX.respFlag x = TX.respFlag x) || idtac.
  assert (Hcall : forall x, TX.respFlag x = TX.respFlag s ->
            TX.respFlag (TX.call [r_startListening] x) = TX.respFlag s)
    by (intros x Hx; exact Hx).
  apply Hcall;
    repeat match goal with
           | |- context [if Ascii.eqb c ?k then _ else _] => destruct (Ascii.eqb c k)
           end;
    first [ reflexivity | apply setupTXRadio_respFlag ].
Qed.

Lemma transmit_pir_state_respFlag (b : bool) (s : TX.state) :
  TX.respFlag (TX.transmit_pir_state b s) = TX.respFlag s.
Proof. destruct b; reflexivity. Qed.

Lemma transmit_audio_gate_respFlag (b : bool) (s : TX.state) :
  TX.respFlag (TX.transmit_audio_gate b s) = TX.respFlag s.
Proof. destruct b; reflexivity. Qed.

Lemma loop_respFlag (pir_pin_val audio_gate_val : Z) (rx : option pingCmd)
    (key : option ascii) (s : TX.state) :
  TX.respFlag (TX.loop pir_pin_val audio_gate_val rx key s)
  = match rx with Some _ => true | None => TX.respFlag s end.
Proof.
  rewrite loop_unfold. cbv zeta.
  rewrite serialCommOutput_respFlag, receive_msg_respFlag.
  destruct rx; [reflexivity |].
  rewrite transmit_audio_gate_respFlag.
  destruct (audio_gate_val =? 1); cbn [TX.set_flags TX.respFlag];
    rewrite transmit_pir_state_respFlag;
    destruct (pir_pin_val =? 1); reflexivity.
Qed.

Lemma loops_respFlag (inputs : list TX.turn) (s : TX.state) :
  TX.respFlag (TX.loops inputs s)
  = existsb (fun i => match TX.turn_rx i with Some _ => true | None => false end)
      inputs
    || TX.respFlag s.
Proof.
  revert s. induction inputs as [|i inputs IH]; intros s; [reflexivity |].
  change (TX.loops (i :: inputs) s)
    with (TX.loops inputs
            (TX.loop (TX.turn_pir i) (TX.turn_audio i) (TX.turn_rx i) (TX.turn_key i) s)).
  rewrite IH, loop_respFlag. cbn [existsb].
  destruct (TX.turn_rx i); [now rewrite orb_true_r | now rewrite orb_false_l].
Qed.

(** X20. The response flag latches.  [transmit_response_to_RX] clears its
    parameter, which hides the global of the same name, so over any run
    of the loop from [setup()] the global respFlag is true exactly when a
    ping has been received in some turn, while intruderFlag and audioFlag
    are clear after every turn.  [sendMessage] with a valid reading sets
    the flag the same way, keeps the node's identity and puts one send
    sequence on the radio; with an invalid one it changes nothing. *)
Theorem respFlag_latches :
  (forall inputs : list TX.turn,
      let s := TX.loops inputs TX.setup in
      TX.respFlag s
      = existsb (fun i => match TX.turn_rx i with Some _ => true | None => false end)
          inputs
      /\ TX.intruderFlag s = false /\ TX.audioFlag s = false)
  /\ (forall s : TX.state,
      let s' := sendMessage true s in
      TX.respFlag s' = true
      /\ TX.identity s' = TX.identity s
      /\ TX.radio s' = TX.radio s ++ send_calls (TX.SentMessage s')
      /\ mirrored s' /\ classified (TX.SentMessage s'))
  /\ (forall s : TX.state, sendMessage false s = s).
Proof.
  split; [| split].
  - intros inputs. cbn zeta. split.
    + rewrite loops_respFlag. now rewrite orb_false_r.
    + assert (H0 : Forall is_report (readings_written (TX.radio TX.setup)))
        by (cbn; constructor).
      destruct (loops_steady inputs TX.setup setup_steady H0)
        as [(_ & _ & Hf & _) _].
      exact Hf.
  - intros s. cbn zeta. unfold sendMessage.
    remember (TX.set_flags (TX.intruderFlag s) (TX.audioFlag s) true s) as s1 eqn:E.
    assert (Hid : TX.identity s1 = TX.identity s) by (subst s1; reflexivity).
    assert (Hrad : TX.radio s1 = TX.radio s) by (subst s1; reflexivity).
    assert (Hf : TX.respFlag s1 = true) by (subst s1; reflexivity).
    clear E.
    destruct (packed_send s1) as (Hr & _ & _ & _ & Hi & Hc).
    split; [| split; [| split; [| split]]].
    + exact Hf.
    + rewrite <- Hid. apply transmit_response_identity.
    + rewrite <- Hrad. exact Hr.
    + apply transmit_response_mirrored.
    + exact Hc.
  - reflexivity.
Qed.

(** ** The console line buffer *)

Lemma store_inside (i : Z) (c : ascii) (buf : list ascii) :
  0 <= i < Z.of_nat (List.length buf) ->
  exists buf', Console.store i c buf = Some buf'
               /\ List.length buf' = List.length buf
               /\ firstn (Z.to_nat i) buf' = firstn (Z.to_nat i) buf
               /\ nth_error buf' (Z.to_nat i) = Some c.
Proof.
  intros Hi. unfold Console.store.
  replace ((0 <=? i) && (i <? Z.of_nat (List.length buf))) with true
    by (symmetry; apply andb_true_iff; split; [apply Z.leb_le | apply Z.ltb_lt]; lia).
  eexists. split; [reflexivity |].
  assert (Hn : (Z.to_nat i < List.length buf)%nat) by lia.
  assert (Hl : List.length (firstn (Z.to_nat i) buf) = Z.to_nat i)
    by (rewrite length_firstn; lia).
  split; [| split].
  - rewrite length_app. cbn [List.length]. rewrite Hl, length_skipn. lia.
  - rewrite firstn_app, Hl, Nat.sub_diag. cbn [firstn].
    rewrite app_nil_r. rewrite firstn_firstn. now rewrite Nat.min_id.
  - rewrite nth_error_app2 by lia. now rewrite Hl, Nat.sub_diag.
Qed.

Lemma recvWithEndMarker_inside (rc : ascii) (s : Console.state) :
  Console.inside s ->
  exists s', Console.recvWithEndMarker rc s = Some s' /\ Console.inside s'.
Proof.
  intros [Hlen Hn]. unfold Console.numChars in Hn.
  assert (Hi : 0 <= Console.ndx s < Z.of_nat (List.length (Console.receivedChars s)))
    by (rewrite Hlen; lia).
  unfold Console.recvWithEndMarker.
  destruct (negb (Ascii.eqb rc "010"%char)).
  - destruct (store_inside _ rc _ Hi) as (buf' & -> & Hl & _).
    eexists. split; [reflexivity |].
    split; cbn [Console.receivedChars Console.ndx]; [congruence |].
    unfold Console.numChars.
    destruct ((Console.ndx s + 1) mod 256 >=? 8) eqn:E; [lia |].
    rewrite Z.geb_leb in E. apply Z.leb_gt in E.
    pose proof (Z.mod_pos_bound (Console.ndx s + 1) 256 ltac:(lia)). lia.
  - destruct (store_inside _ Ascii.zero _ Hi) as (buf' & -> & Hl & _).
    eexists. split; [reflexivity |].
    split; cbn [Console.receivedChars Console.ndx]; [congruence |].
    unfold Console.numChars. lia.
Qed.

Lemma showNewData_inside (s : Console.state) :
  Console.inside s -> Console.inside (Console.showNewData s).
Proof.
  unfold Console.showNewData. destruct (Console.newData s); intros H; exact H.
Qed.

(** X21. The console line buffer is never overrun.  From the power-on
    state, whatever characters arrive, [recvWithEndMarker] stores each one
    inside the eight cells of [receivedChars] and leaves [ndx] between 0
    and 7: the cap at [numChars - 1] keeps a line of any length inside the
    array. *)
Theorem console_buffer_never_overrun (cs : list ascii) :
  exists s', Console.keys cs Console.power_on = Some s' /\ Console.inside s'.
Proof.
  assert (H0 : Console.inside Console.power_on)
    by (split; [reflexivity | unfold Console.numChars; cbn; lia]).
  revert H0. generalize Console.power_on.
  induction cs as [|c cs IH]; intros s Hs.
  - exists s. now split.
  - cbn [Console.keys]. unfold Console.key.
    destruct (recvWithEndMarker_inside c s Hs) as (s1 & -> & Hs1).
    apply IH, showNewData_inside, Hs1.
Qed.

Lemma firstn_succ_nth (A : Type) (l : list A) (n : nat) (x : A) :
  nth_error l n = Some x -> firstn (S n) l = firstn n l ++ [x].
Proof.
  revert l. induction n as [|n IH]; intros [|y l] H; try discriminate.
  - cbn in H. now injection H as ->.
  - cbn [firstn app]. f_equal. now apply IH.
Qed.

Lemma c_str_terminated (kept rest : list ascii) :
  Forall Console.plain kept ->
  Console.c_str (kept ++ Ascii.zero :: rest) = string_of_list_ascii kept.
Proof.
  induction 1 as [|c kept [_ Hc] _ IH]; [reflexivity |].
  cbn [app Console.c_str string_of_list_ascii].
  destruct (Ascii.eqb_spec c Ascii.zero) as [E | _]; [contradiction |].
  now rewrite IH.
Qed.

Lemma c_str_buffer (buf kept : list ascii) :
  firstn (List.length kept) buf = kept ->
  nth_error buf (List.length kept) = Some Ascii.zero ->
  Forall Console.plain kept ->
  Console.c_str buf = string_of_list_ascii kept.
Proof.
  intros Hf Hn Hp.
  rewrite <- (firstn_skipn (List.length kept) buf), Hf.
  destruct (skipn (List.length kept) buf) as [|z rest] eqn:E.
  - apply (f_equal (@List.length ascii)) in E. rewrite length_skipn in E.
    cbn in E. assert (Hnone : nth_error buf (List.length kept) = None)
      by (apply nth_error_None; lia).
    congruence.
  - assert (Hz : nth_error buf (List.length kept) = Some z).
    { rewrite <- (firstn_skipn (List.length kept) buf) at 1.
      rewrite nth_error_app2 by (rewrite length_firstn; lia).
      rewrite E, Hf, Nat.sub_diag. reflexivity. }
    replace z with Ascii.zero by congruence.
    now apply c_str_terminated.
Qed.

(** A line in progress: [kept] is what the buffer holds of it. *)
Lemma keys_line (cs kept : list ascii) (s : Console.state) :
  Console.inside s -> Console.newData s = false ->
  Console.ndx s = Z.of_nat (List.length kept) ->
  firstn (List.length kept) (Console.receivedChars s) = kept ->
  Forall Console.plain kept -> Forall Console.plain cs ->
  exists s', Console.keys (cs ++ ["010"%char]) s = Some s'
             /\ Console.inside s' /\ Console.ndx s' = 0
             /\ Console.newData s' = false
             /\ Console.shown s'
                = Console.shown s ++ [string_of_list_ascii (firstn 7 (kept ++ cs))].
Proof.
  intros Hs Hnew Hndx Hbuf Hkept Hcs. revert kept s Hs Hnew Hndx Hbuf Hkept.
  induction Hcs as [|c cs [Hc Hc0] _ IH]; intros kept s [Hlen Hn] Hnew Hndx Hbuf Hkept;
    unfold Console.numChars in Hn;
    assert (Hi : 0 <= Console.ndx s < Z.of_nat (List.length (Console.receivedChars s)))
      by (rewrite Hlen; lia).
  - cbn [app Console.keys]. unfold Console.key, Console.recvWithEndMarker.
    cbn [Ascii.eqb Bool.eqb negb andb].
    destruct (store_inside _ Ascii.zero _ Hi) as (buf' & -> & Hl & Hf & Hz).
    rewrite Hndx, Nat2Z.id in Hf, Hz. rewrite Hbuf in Hf.
    unfold Console.showNewData. cbn [Console.newData Console.receivedChars
      Console.ndx Console.shown].
    eexists. split; [reflexivity |].
    cbn [Console.newData Console.receivedChars Console.ndx Console.shown].
    split; [| split; [| split]]; try reflexivity.
    + split; cbn [Console.receivedChars Console.ndx];
        [congruence | unfold Console.numChars; lia].
    + rewrite app_nil_r, (c_str_buffer buf' kept Hf Hz Hkept).
      rewrite firstn_all2 by lia. reflexivity.
  - cbn [app Console.keys]. unfold Console.key, Console.recvWithEndMarker.
    destruct (Ascii.eqb_spec c "010"%char) as [E | _]; [contradiction |].
    cbn [negb].
    destruct (store_inside _ c _ Hi) as (buf' & -> & Hl & Hf & Hz).
    rewrite Hndx, Nat2Z.id in Hf, Hz. rewrite Hbuf in Hf.
    unfold Console.showNewData at 1.
    cbn [Console.newData]. rewrite Hnew.
    destruct (Nat.eq_dec (List.length kept) 7) as [E7 | N7].
    + (* the index stays on the last cell *)
      assert (Hnext : (if (Console.ndx s + 1) mod 256 >=? Console.numChars
                       then Console.numChars - 1 else (Console.ndx s + 1) mod 256)
                      = Z.of_nat (List.length kept))
        by (rewrite Hndx, E7; reflexivity).
      rewrite Hnext.
      destruct (IH kept (Console.mkState buf' (Z.of_nat (List.length kept))
                           false (Console.shown s)))
        as (s' & Hk & Hin & H0 & Hnd & Hsh); try assumption; try reflexivity.
      { split; [cbn; congruence | cbn; unfold Console.numChars; lia]. }
      exists s'. split; [exact Hk |]. repeat (split; [assumption |]).
      rewrite Hsh. cbn [Console.shown].
      rewrite !firstn_app, E7. cbn [Nat.sub firstn]. reflexivity.
    + assert (Hnext : (if (Console.ndx s + 1) mod 256 >=? Console.numChars
                       then Console.numChars - 1 else (Console.ndx s + 1) mod 256)
                      = Z.of_nat (List.length (kept ++ [c]))).
      { rewrite Hndx, length_app. cbn [List.length]. unfold Console.numChars.
        rewrite Z.mod_small by lia.
        destruct (Z.of_nat (List.length kept) + 1 >=? 8) eqn:E; [| lia].
        rewrite Z.geb_leb in E. apply Z.leb_le in E. lia. }
      rewrite Hnext.
      destruct (IH (kept ++ [c])
                   (Console.mkState buf' (Z.of_nat (List.length (kept ++ [c])))
                      false (Console.shown s)))
        as (s' & Hk & Hin & H0 & Hnd & Hsh); try reflexivity.
      { split; [cbn; congruence |].
        cbn [Console.ndx]. rewrite length_app. cbn [List.length].
        unfold Console.numChars. lia. }
      { cbn [Console.receivedChars]. rewrite length_app. cbn [List.length].
        rewrite Nat.add_1_r, (firstn_succ_nth _ _ _ _ Hz). now rewrite Hf. }
      { apply Forall_app. split; [exact Hkept |]. constructor; [| constructor].
        split; assumption. }
      exists s'. split; [exact Hk |]. repeat (split; [assumption |]).
      rewrite Hsh. cbn [Console.shown]. now rewrite <- app_assoc.
Qed.

(** X22. A typed line is shown cut to seven characters.  With the index
    at 0 and no line pending (as at power-on and after every line), a
    line of characters other than newline and NUL followed by a newline is
    stored without leaving the array and [showNewData] prints the first
    seven characters of the line, exactly once; the index is back at 0
    and newData is clear for the next line. *)
Theorem console_line_cut_to_seven (cs : list ascii) (s : Console.state) :
  Console.inside s -> Console.ndx s = 0 -> Console.newData s = false ->
  Forall Console.plain cs ->
  exists s', Console.keys (cs ++ ["010"%char]) s = Some s'
             /\ Console.inside s' /\ Console.ndx s' = 0
             /\ Console.newData s' = false
             /\ Console.shown s'
                = Console.shown s ++ [string_of_list_ascii (firstn 7 cs)].
Proof.
  intros Hs Hndx Hnew Hcs.
  apply (keys_line cs [] s Hs Hnew Hndx); [reflexivity | constructor | exact Hcs].
Qed.

Lemma console_line_cut_to_seven_witness :
  Console.inside Console.power_on
  /\ Forall Console.plain (list_ascii_of_string "all_chg 76 3")
  /\ exists s', Console.keys (list_ascii_of_string "all_chg 76 3" ++ ["010"%char])
                  Console.power_on = Some s'
                /\ Console.shown s' = ["all_chg"%string].
Proof.
  assert (Hin : Console.inside Console.power_on)
    by (split; [reflexivity | unfold Console.numChars; cbn; lia]).
  assert (Hp : Forall Console.plain (list_ascii_of_string "all_chg 76 3"))
    by (cbn; repeat constructor; discriminate).
  refine (conj Hin (conj Hp _)).
  destruct (console_line_cut_to_seven (list_ascii_of_string "all_chg 76 3")
              Console.power_on Hin eq_refl eq_refl Hp)
    as (s' & Hk & _ & _ & _ & Hsh).
  exists s'. exact (conj Hk Hsh).
Defined.
